(** * neurometry: experiment orchestration of the curvature and dimension estimators

    A shallow embedding of
    - [neurometry/estimators/curvature/main.py]   (module [Curvature]) and
    - [neurometry/estimators/dimension/dimension.py] (module [Dimension]).

    The Python code is glue around third-party libraries.  Library calls are
    kept symbolic: objects built by a library are records of the arguments
    the code passes, and library computations are operations of the
    interface [PyFloat] or variables of a section.  Exceptions are values of
    [Exn]; global mutable state (random generators, the registry of output
    files) is passed explicitly. *)

From Stdlib Require Import ZArith String Ascii List Lia.
From stdpp Require Import base option list strings pretty gmap sorting.

Local Open Scope Z_scope.

(** ** Python values and strings *)

Module Py.

(** Floating-point numbers are not interpreted.  The interface lists the
    operations and literals the two source files apply to them. *)
Class PyFloat (F : Type) := {
  str_float : F → string;          (* [str(x)], as an f-string renders it *)
  f_one : F;                       (* [1] *)
  f_two : F;                       (* [2] *)
  f_pi : F;                        (* [np.pi] *)
  f_0_2 : F;                       (* [0.2] *)
  f_0_5 : F;                       (* [0.5] *)
  f_nan : F;                       (* [nan] *)
  f_of_int : Z → F;                (* [float(n)] *)
  f_sub : F → F → F;               (* [x - y] *)
  f_mul : F → F → F;               (* [x * y] *)
  f_div : F → F → F;               (* [x / y], for [y] not zero *)
  f_mod : F → F → F;               (* [x % y] *)
  f_abs : F → F;                   (* [np.abs] *)
  f_sqrt : F → F;                  (* [np.sqrt] *)
  f_ltb : F → F → bool;            (* [x < y] *)
  f_is_zero : F → bool;            (* [x == 0] *)
  f_is_nan : F → bool;             (* [np.isnan] *)
  f_mean : list F → F;             (* mean of a non-empty sample *)
  f_median : list F → F;           (* median of a non-empty sample *)
  f_std : list F → F;              (* standard deviation, non-empty sample *)
  f_min : list F → F;              (* minimum of a non-empty sample *)
  f_max : list F → F;              (* maximum of a non-empty sample *)
}.

(** The exceptions the modelled code can raise. *)
Inductive Exn :=
| ValueError (msg : string)
| UnboundLocalError (var : string)
| AttributeError (attr : string)
| KeyError (key : string)
| IndexError
| StopIteration
| ZeroDivisionError.

(** Results of fallible code. *)
Inductive Res (A : Type) :=
| Ok (a : A)
| Raise (e : Exn).
Arguments Ok {A} a.
Arguments Raise {A} e.

Global Instance res_ret : MRet Res := λ A a, Ok a.
Global Instance res_bind : MBind Res := λ A B k m,
  match m with
  | Ok a => k a
  | Raise e => Raise e
  end.

(** Effectful code over a state [S]: an exception keeps the state reached
    when it was raised (what was written stays written). *)
Definition M (S A : Type) : Type := S → Res A * S.

Global Instance M_ret {S} : MRet (M S) := λ A a s, (Ok a, s).
Global Instance M_bind {S} : MBind (M S) := λ A B k m s,
  match m s with
  | (Ok a, s') => k a s'
  | (Raise e, s') => (Raise e, s')
  end.

Definition throw {S A} (e : Exn) : M S A := λ s, (Raise e, s).
Definition lift {S A} (r : Res A) : M S A := λ s, (r, s).
Definition get {S} : M S S := λ s, (Ok s, s).
Definition modify {S} (f : S → S) : M S unit := λ s, (Ok tt, f s).

(** Scalar values stored in configurations. *)
Inductive Val (F : Type) :=
| VNone
| VBool (b : bool)
| VInt (z : Z)
| VFloat (f : F)
| VStr (s : string).
Arguments VNone {F}.
Arguments VBool {F} b.
Arguments VInt {F} z.
Arguments VFloat {F} f.
Arguments VStr {F} s.

(** [str(int)] is the decimal numeral, with a leading minus sign for
    negative numbers. *)
Definition str_int (z : Z) : string := pretty z.

Definition str_bool (b : bool) : string := if b then "True" else "False".

(** [format(v, "")], which is what [f"{v}"] inserts. *)
Definition str_val `{PyFloat F} (v : Val F) : string :=
  match v with
  | VNone => "None"
  | VBool b => str_bool b
  | VInt z => str_int z
  | VFloat f => str_float f
  | VStr s => s
  end.

Definition startswith_sep (s : string) : bool :=
  match s with
  | String c _ => Ascii.eqb c "/"%char
  | EmptyString => false
  end.

Fixpoint endswith_sep (s : string) : bool :=
  match s with
  | EmptyString => false
  | String c EmptyString => Ascii.eqb c "/"%char
  | String _ s' => endswith_sep s'
  end.

(** [os.path.join(a, b)] of [posixpath], for two components. *)
Definition os_path_join (a b : string) : string :=
  if startswith_sep b then b
  else if bool_decide (a = "") || endswith_sep a then a +:+ b
  else a +:+ "/" +:+ b.

(** [itertools.product] of four and of seven lists: the rightmost list
    varies fastest. *)
Definition product4 {A B C D} (la : list A) (lb : list B) (lc : list C)
    (ld : list D) : list (A * B * C * D) :=
  a ← la; b ← lb; c ← lc; d ← ld; [(a, b, c, d)].

Definition product7 {A B C D E G H} (la : list A) (lb : list B)
    (lc : list C) (ld : list D) (le : list E) (lg : list G) (lh : list H)
    : list (A * B * C * D * E * G * H) :=
  a ← la; b ← lb; c ← lc; d ← ld; e ← le; g ← lg; h ← lh;
  [(a, b, c, d, e, g, h)].

End Py.

(** ** curvature/main.py *)

Module Curvature.
Import Py.

(** The module [neurometry.curvature.default_config] is imported by
    [main.py] and is not part of the two files modelled here; its
    attributes are the fields of this record.  Only the attributes the
    modelled functions read are listed. *)
Module default_config.
Record t (F : Type) := {
  dataset_name : list string;
  (* experimental datasets *)
  expt_id : list string;
  timestep_microsec : list F;
  smooth : list bool;
  select_gain_1 : list bool;
  (* synthetic datasets *)
  n_times : list Z;
  embedding_dim : list Z;
  geodesic_distortion_amp : list F;
  noise_var : list F;
  (* grid cells *)
  grid_scale : list (Val F);
  arena_dims : list (Val F);
  n_cells : list Z;
  grid_orientation_mean : list (Val F);
  grid_orientation_std : list F;
  field_width : list (Val F);
  resolution : list (Val F);
  (* output directories *)
  configs_dir : string;
  trained_models_dir : string;
  curvature_profiles_dir : string;
}.
Arguments dataset_name {F} _.
Arguments expt_id {F} _.
Arguments timestep_microsec {F} _.
Arguments smooth {F} _.
Arguments select_gain_1 {F} _.
Arguments n_times {F} _.
Arguments embedding_dim {F} _.
Arguments geodesic_distortion_amp {F} _.
Arguments noise_var {F} _.
Arguments grid_scale {F} _.
Arguments arena_dims {F} _.
Arguments n_cells {F} _.
Arguments grid_orientation_mean {F} _.
Arguments grid_orientation_std {F} _.
Arguments field_width {F} _.
Arguments resolution {F} _.
Arguments configs_dir {F} _.
Arguments trained_models_dir {F} _.
Arguments curvature_profiles_dir {F} _.
End default_config.

(** The keyword arguments [main] passes to [main_sweep] besides
    [sweep_name] and [dataset_name]; the keywords a call site does not
    pass keep their default [None]. *)
Inductive SweepParams (F : Type) :=
| ExperimentalParams (expt_id : string) (timestep_microsec : F)
    (smooth select_gain_1 : bool)
| SyntheticParams (n_times embedding_dim : Z)
    (geodesic_distortion_amp noise_var : F)
| GridCellsParams (grid_scale arena_dims : Val F) (n_cells : Z)
    (grid_orientation_mean : Val F) (grid_orientation_std : F)
    (field_width resolution : Val F)
| NoParams.
Arguments ExperimentalParams {F} _ _ _ _.
Arguments SyntheticParams {F} _ _ _ _.
Arguments GridCellsParams {F} _ _ _ _ _ _ _.
Arguments NoParams {F}.

(** One call [main_sweep(sweep_name=..., dataset_name=..., ...)]. *)
Record SweepCall (F : Type) := {
  call_sweep_name : string;
  call_dataset_name : string;
  call_params : SweepParams F;
}.
Arguments call_sweep_name {F} _.
Arguments call_dataset_name {F} _.
Arguments call_params {F} _.

(** Statements of [main]: the calls of [main_sweep] made so far, in
    order, and the exception that ended the statement, if any. *)
Definition Proc (F : Type) : Type := (list (SweepCall F) * option Exn)%type.

Definition launched {F} (p : Proc F) : list (SweepCall F) := p.1.
Definition raised {F} (p : Proc F) : option Exn := p.2.

Definition skip {F} : Proc F := ([], None).
Definition raise {F} (e : Exn) : Proc F := ([], Some e).
Definition main_sweep {F} (sweep_name dataset_name : string)
    (params : SweepParams F) : Proc F :=
  ([{| call_sweep_name := sweep_name;
       call_dataset_name := dataset_name;
       call_params := params |}], None).

Definition seq {F} (p q : Proc F) : Proc F :=
  match p.2 with
  | Some e => p
  | None => (p.1 ++ q.1, q.2)
  end.

(** [for x in l: body(x)]; an exception leaves the loop. *)
Fixpoint for_each {F A} (l : list A) (body : A → Proc F) : Proc F :=
  match l with
  | [] => skip
  | x :: l' => seq (body x) (for_each l' body)
  end.

Section Main.
Context {F : Type} `{!PyFloat F}.

(** The body of the loop over the synthetic parameters,
    [main.py] lines 87-105. *)
Definition main_synthetic (dataset_name : string)
    (p : Z * Z * F * F) : Proc F :=
  let '(n_times, embedding_dim, geodesic_distortion_amp, noise_var) := p in
  if bool_decide (dataset_name ∈ ["s2_synthetic"; "t2_synthetic"])
     && bool_decide (embedding_dim ≤ 2)
  then
    raise (ValueError ("Manifold cannot be embedded in "
                       +:+ str_int embedding_dim +:+ " dimensions"))
  else
    let sweep_name :=
      dataset_name +:+ "_noise_var_" +:+ str_float noise_var in
    let sweep_name :=
      sweep_name +:+ "_embedding_dim_" +:+ str_int embedding_dim in
    main_sweep sweep_name dataset_name
      (SyntheticParams n_times embedding_dim geodesic_distortion_amp
         noise_var).

(** The body of the loop over the experimental parameters,
    [main.py] lines 59-73. *)
Definition main_experimental (dataset_name : string)
    (p : string * F * bool * bool) : Proc F :=
  let '(expt_id, timestep_microsec, smooth, select_gain_1) := p in
  let sweep_name := dataset_name +:+ "_" +:+ expt_id in
  let sweep_name :=
    if select_gain_1 then sweep_name +:+ "_gain_1"
    else sweep_name +:+ "_other_gain" in
  main_sweep sweep_name dataset_name
    (ExperimentalParams expt_id timestep_microsec smooth select_gain_1).

(** The body of the loop over the grid-cell parameters,
    [main.py] lines 124-137. *)
Definition main_grid_cells (dataset_name : string)
    (p : Val F * Val F * Z * Val F * F * Val F * Val F) : Proc F :=
  let '(grid_scale, arena_dims, n_cells, grid_orientation_mean,
        grid_orientation_std, field_width, resolution) := p in
  let sweep_name :=
    dataset_name +:+ "_orientation_std_"
    +:+ str_float grid_orientation_std in
  let sweep_name := sweep_name +:+ "_ncells_" +:+ str_int n_cells in
  main_sweep sweep_name dataset_name
    (GridCellsParams grid_scale arena_dims n_cells grid_orientation_mean
       grid_orientation_std field_width resolution).

(** The body of the loop over [default_config.dataset_name]. *)
Definition main_dataset (dc : default_config.t F) (dataset_name : string)
    : Proc F :=
  if bool_decide (dataset_name = "experimental") then
    for_each
      (product4 (default_config.expt_id dc)
         (default_config.timestep_microsec dc)
         (default_config.smooth dc)
         (default_config.select_gain_1 dc))
      (main_experimental dataset_name)
  else if bool_decide
            (dataset_name ∈ ["s1_synthetic"; "s2_synthetic"; "t2_synthetic"])
  then
    for_each
      (product4 (default_config.n_times dc)
         (default_config.embedding_dim dc)
         (default_config.geodesic_distortion_amp dc)
         (default_config.noise_var dc))
      (main_synthetic dataset_name)
  else if bool_decide (dataset_name = "grid_cells") then
    for_each
      (product7 (default_config.grid_scale dc)
         (default_config.arena_dims dc)
         (default_config.n_cells dc)
         (default_config.grid_orientation_mean dc)
         (default_config.grid_orientation_std dc)
         (default_config.field_width dc)
         (default_config.resolution dc))
      (main_grid_cells dataset_name)
  else if bool_decide (dataset_name = "three_place_cells_synthetic") then
    let sweep_name := dataset_name in
    main_sweep sweep_name dataset_name NoParams
  else skip.

(** [main()]. *)
Definition main (dc : default_config.t F) : Proc F :=
  for_each (default_config.dataset_name dc) (main_dataset dc).

End Main.

(** *** Objects handed to and received from the libraries *)

(** A tensor: its shape and its entries. *)
Record Tensor (F : Type) := {
  shape : list Z;
  entries : list F;
}.
Arguments shape {F} _.
Arguments entries {F} _.

(** A data loader; [loader_dataset] is its [dataset] attribute, a list of
    [[data_point, label]] pairs. *)
Record Loader (F : Type) := {
  loader_dataset : list (Tensor F * Tensor F);
}.
Arguments loader_dataset {F} _.

(** The run configuration [wandb.config]: a flat mapping. *)
Abbreviation Config F := (gmap string (Val F)).

(** State of a pseudo-random generator: just seeded, or advanced by
    drawing from it. *)
Inductive Rng :=
| Seeded (seed : Z)
| Drawn (r : Rng).

(** The generators of [random], [torch] and [torch.cuda]. *)
Record Generators := {
  py_random : Rng;
  torch_rng : Rng;
  cuda_rng : Rng;
}.

Inductive ModelClass := NeuralVAE | ToroidalVAE | KleinBottleVAE.

(** A freshly constructed model: its class, the keyword arguments of the
    constructor, the generators its initial parameters are drawn from
    (the CUDA generator only where CUDA is available), and the device
    it was moved to. *)
Record Model (F : Type) := {
  model_class : ModelClass;
  model_kwargs : list (string * Val F);
  model_init : Rng * Rng * option Rng;
  model_device : Val F;
}.
Arguments model_class {F} _.
Arguments model_kwargs {F} _.
Arguments model_init {F} _.
Arguments model_device {F} _.

(** [torch.optim.Adam(model.parameters(), lr=..., amsgrad=...)]. *)
Record Optimizer (F : Type) := {
  Adam_params : Model F;
  Adam_lr : Val F;
  Adam_amsgrad : bool;
}.
Arguments Adam_params {F} _.
Arguments Adam_lr {F} _.
Arguments Adam_amsgrad {F} _.

(** [torch.optim.lr_scheduler.ReduceLROnPlateau(optimizer, mode=...,
    factor=...)]. *)
Record Scheduler (F : Type) := {
  ReduceLROnPlateau_optimizer : Optimizer F;
  ReduceLROnPlateau_mode : string;
  ReduceLROnPlateau_factor : F;
}.
Arguments ReduceLROnPlateau_optimizer {F} _.
Arguments ReduceLROnPlateau_mode {F} _.
Arguments ReduceLROnPlateau_factor {F} _.

(** The latent grid returned by the curvature routines: one angle per
    grid point, or a pair of angles per grid point. *)
Inductive Grid (F : Type) :=
| Grid1D (zs : list F)
| Grid2D (zs : list (F * F)).
Arguments Grid1D {F} zs.
Arguments Grid2D {F} zs.

(** A row of the [labels] data frame of the experimental datasets. *)
Record LabelRow (F : Type) := {
  angles : F;
  velocities : F;
}.
Arguments angles {F} _.
Arguments velocities {F} _.

(** Cells of a data frame. *)
Inductive Cell (F : Type) :=
| CFloat (f : F)
| CInt (z : Z).
Arguments CFloat {F} f.
Arguments CInt {F} z.

(** A [pandas.DataFrame] with the default index [0 .. df_rows - 1];
    columns in insertion order. *)
Record DataFrame (F : Type) := {
  df_rows : nat;
  df_columns : list (string * list (Cell F));
}.
Arguments df_rows {F} _.
Arguments df_columns {F} _.

(** The functions of the packages [neurometry.curvature.*] that
    [main.py] calls and that are outside the two modelled files. *)
Class Library (F : Type) := {
  Losses : Type;
  Trained : Type;
  (* [torch.cuda.is_available()] *)
  cuda_is_available : bool;
  (* [utils.load(config)]: dataset, labels, train and test loaders *)
  utils_load : Config F →
    Res (Tensor F * list (LabelRow F) * Loader F * Loader F);
  (* [train.train_test(model, train_loader, test_loader, optimizer,
     scheduler, config)], which draws from the generators *)
  train_train_test : Model F → Loader F → Loader F → Optimizer F →
    option (Scheduler F) → Config F → Generators →
    (Losses * Losses * Trained) * Generators;
  (* [evaluate.compute_curvature_learned(model, config, embedding_dim,
     n_grid_points)]: z_grid, geodesic_dist, curv_norms *)
  evaluate_compute_curvature_learned : Trained → Config F → Z → Val F →
    Grid F * list F * list F;
  (* [evaluate.compute_curvature_true(config, n_grid_points)] *)
  evaluate_compute_curvature_true : Config F → Val F →
    Grid F * list F * list F;
}.

Section Run.
Context {F : Type} `{!PyFloat F, !Library F}.

(** What the run has written to disk. *)
Inductive File :=
| JsonFile (config : Config F)          (* [json.dump(dict(config))] *)
| TorchFile (model : Trained)           (* [torch.save(model)] *)
| TorchStateDict (model : Trained)      (* [torch.save({"state_dict": ..})] *)
| CsvFile (df : DataFrame F).           (* [df.to_csv] *)

(** The state a run acts on: the random generators and the files
    written so far, oldest first. *)
Record State := {
  generators : Generators;
  files : list (string * File);
}.

Definition set_generators (f : Generators → Generators) : M State unit :=
  modify (λ s, {| generators := f (generators s); files := files s |}).

Definition write_file (path : string) (content : File) : M State unit :=
  modify (λ s, {| generators := generators s;
                  files := files s ++ [(path, content)] |}).

(** [config.name]: attribute access on the configuration. *)
Definition getattr (config : Config F) (name : string) : Res (Val F) :=
  match config !! name with
  | Some v => Ok v
  | None => Raise (AttributeError name)
  end.

(** [v == s] for a string literal [s]. *)
Definition val_eq_str (v : Val F) (s : string) : bool :=
  match v with
  | VStr s' => bool_decide (s' = s)
  | _ => false
  end.

(** [v in (s1, ..., sn)] for string literals. *)
Definition val_in_strs (v : Val F) (l : list string) : bool :=
  existsb (val_eq_str v) l.

(** [v is True]. *)
Definition val_is_True (v : Val F) : bool :=
  match v with
  | VBool true => true
  | _ => false
  end.

(** [random.seed], [torch.manual_seed], [torch.cuda.manual_seed_all]. *)
Definition random_seed (n : Z) : M State unit :=
  set_generators (λ g, {| py_random := Seeded n;
                          torch_rng := torch_rng g;
                          cuda_rng := cuda_rng g |}).
Definition torch_manual_seed (n : Z) : M State unit :=
  set_generators (λ g, {| py_random := py_random g;
                          torch_rng := Seeded n;
                          cuda_rng := cuda_rng g |}).
Definition torch_cuda_manual_seed_all (n : Z) : M State unit :=
  set_generators (λ g, {| py_random := py_random g;
                          torch_rng := torch_rng g;
                          cuda_rng := Seeded n |}).

(** Calling a model class: the new model records the generators it
    draws its initial parameters from, and the generators advance. *)
Definition construct (cls : ModelClass) (kwargs : list (string * Val F))
    : M State (Model F) :=
  s ← get;
  let g := generators s in
  set_generators (λ g, {| py_random := Drawn (py_random g);
                          torch_rng := Drawn (torch_rng g);
                          cuda_rng := Drawn (cuda_rng g) |});;
  mret {| model_class := cls;
          model_kwargs := kwargs;
          model_init :=
            (py_random g, torch_rng g,
             if cuda_is_available then Some (cuda_rng g) else None);
          model_device := VStr "cpu" |}.

(** [model.to(device)]. *)
Definition to (model : Model F) (device : Val F) : Model F :=
  {| model_class := model_class model;
     model_kwargs := model_kwargs model;
     model_init := model_init model;
     model_device := device |}.

(** The keyword arguments [name=config.name], evaluated in order. *)
Definition config_kwargs (config : Config F) (names : list string)
    : Res (list (string * Val F)) :=
  mapM (λ name, v ← getattr config name; mret (name, v)) names.

(** The three statements that precede each constructor call. *)
Definition reset_seeds : M State unit :=
  random_seed 0;;
  torch_manual_seed 0;;
  if cuda_is_available then torch_cuda_manual_seed_all 0 else mret tt.

(** [next(iter(train_loader.dataset[0][0].data.shape))],
    [main.py] line 340. *)
Definition first_data_dim (train_loader : Loader F) : Res Z :=
  match loader_dataset train_loader with
  | [] => Raise IndexError
  | (data_point, _) :: _ =>
      match shape data_point with
      | [] => Raise StopIteration
      | d :: _ => Ok d
      end
  end.

(** The dispatch on [config.posterior_type], [main.py] lines 342-387.
    The result is the binding of the local variable [model]: [None]
    when no branch assigned it. *)
Definition create_model (config : Config F) (data_dim : Z)
    : M State (option (Model F)) :=
  posterior_type ← lift (getattr config "posterior_type");
  if val_in_strs posterior_type ["gaussian"; "hyperspherical"] then
    reset_seeds;;
    kwargs ← lift (config_kwargs config
      ["latent_dim"; "sftbeta"; "encoder_width"; "encoder_depth";
       "decoder_width"; "decoder_depth"; "posterior_type"; "drop_out_p"]);
    model ← construct NeuralVAE (("data_dim", VInt data_dim) :: kwargs);
    device ← lift (getattr config "device");
    mret (Some (to model device))
  else if val_eq_str posterior_type "toroidal" then
    reset_seeds;;
    kwargs ← lift (config_kwargs config
      ["latent_dim"; "sftbeta"; "encoder_width"; "encoder_depth";
       "decoder_width"; "decoder_depth"; "posterior_type"]);
    model ← construct ToroidalVAE (("data_dim", VInt data_dim) :: kwargs);
    device ← lift (getattr config "device");
    mret (Some (to model device))
  else if val_eq_str posterior_type "klein_bottle" then
    reset_seeds;;
    kwargs ← lift (config_kwargs config
      ["latent_dim"; "sftbeta"; "encoder_width"; "encoder_depth";
       "decoder_width"; "decoder_depth"; "posterior_type"]);
    model ← construct KleinBottleVAE
              (("data_dim", VInt data_dim) :: kwargs);
    device ← lift (getattr config "device");
    mret (Some (to model device))
  else mret None.

(** Reading a local variable that may be unbound. *)
Definition read_local {A} (name : string) (binding : option A)
    : Res A :=
  match binding with
  | Some a => Ok a
  | None => Raise (UnboundLocalError name)
  end.

(** [create_model_and_train_test(config, train_loader, test_loader)]. *)
Definition create_model_and_train_test (config : Config F)
    (train_loader test_loader : Loader F)
    : M State (Losses * Losses * Trained) :=
  data_dim ← lift (first_data_dim train_loader);
  binding ← create_model config data_dim;
  (* Create optimizer, scheduler *)
  model ← lift (read_local "model" binding);
  lr ← lift (getattr config "lr");
  let optimizer :=
    {| Adam_params := model; Adam_lr := lr; Adam_amsgrad := true |} in
  let scheduler := None in
  flag ← lift (getattr config "scheduler");
  let scheduler :=
    if val_is_True flag then
      Some {| ReduceLROnPlateau_optimizer := optimizer;
              ReduceLROnPlateau_mode := "min";
              ReduceLROnPlateau_factor := f_0_5 |}
    else scheduler in
  (* Train test model *)
  s ← get;
  let '((train_losses, test_losses, best_model), g) :=
    train_train_test model train_loader test_loader optimizer scheduler
      config (generators s) in
  set_generators (λ _, g);;
  mret (train_losses, test_losses, best_model).

(** [training_plot_log]: the figures and the dashboard log are not
    modelled; the two [torch.save] calls are. *)
Definition training_plot_log (dc : default_config.t F) (config : Config F)
    (model : Trained) : M State unit :=
  results_prefix ← lift (getattr config "results_prefix");
  let model_path :=
    os_path_join (default_config.trained_models_dir dc)
      (str_val results_prefix +:+ "_model.pt") in
  write_file model_path (TorchFile model);;
  results_prefix ← lift (getattr config "results_prefix");
  let model_state_dict_path :=
    os_path_join (default_config.trained_models_dir dc)
      (str_val results_prefix +:+ "_model_state_dict.pth") in
  write_file model_state_dict_path (TorchStateDict model).

(** *** Data frames *)

(** [df[name] = values] on the list of columns: an existing column is
    replaced in place, a new one is appended. *)
Fixpoint upsert_column (name : string) (values : list (Cell F))
    (columns : list (string * list (Cell F)))
    : list (string * list (Cell F)) :=
  match columns with
  | [] => [(name, values)]
  | (n, c) :: columns' =>
      if bool_decide (n = name) then (name, values) :: columns'
      else (n, c) :: upsert_column name values columns'
  end.

(** [pd.DataFrame({n1: c1, n2: c2})] for two distinct names. *)
Definition DataFrame_of (n1 : string) (c1 : list (Cell F))
    (n2 : string) (c2 : list (Cell F)) : Res (DataFrame F) :=
  if bool_decide (length c1 = length c2) then
    Ok {| df_rows := length c1; df_columns := [(n1, c1); (n2, c2)] |}
  else Raise (ValueError "All arrays must be of the same length").

(** [df[name] = values].  A frame with an empty index takes its index
    from a non-empty value, the existing columns being filled with
    [nan]; otherwise the lengths must agree. *)
Definition df_setitem (df : DataFrame F) (name : string)
    (values : list (Cell F)) : Res (DataFrame F) :=
  if bool_decide (df_rows df = 0%nat) && negb (bool_decide (values = []))
  then
    Ok {| df_rows := length values;
          df_columns :=
            upsert_column name values
              (prod_map id (λ _, replicate (length values) (CFloat f_nan))
               <$> df_columns df) |}
  else if bool_decide (length values = df_rows df) then
    Ok {| df_rows := df_rows df;
          df_columns := upsert_column name values (df_columns df) |}
  else
    Raise (ValueError "Length of values does not match length of index").

(** [df[name]]. *)
Definition df_getitem (df : DataFrame F) (name : string)
    : Res (list (Cell F)) :=
  match list_find (λ c, c.1 = name) (df_columns df) with
  | Some (_, (_, c)) => Ok c
  | None => Raise (KeyError name)
  end.

Definition cell_float (c : Cell F) : F :=
  match c with
  | CFloat f => f
  | CInt z => f_of_int z
  end.

(** [z_grid] used as a column: a one-dimensional array. *)
Definition grid_column (z_grid : Grid F) : Res (list (Cell F)) :=
  match z_grid with
  | Grid1D zs => Ok (CFloat <$> zs)
  | Grid2D _ =>
      Raise (ValueError "Cannot set a 2-D array to a single column")
  end.

(** [z_grid[:, 0]] and [z_grid[:, 1]]. *)
Definition grid_slice (z_grid : Grid F) (k : bool)
    : Res (list (Cell F)) :=
  match z_grid with
  | Grid1D _ => Raise IndexError
  | Grid2D zs => Ok ((λ z, CFloat (if k then z.2 else z.1)) <$> zs)
  end.

(** *** The [nan]-ignoring statistics of numpy *)

Definition drop_nan (xs : list F) : list F :=
  filter (λ x, f_is_nan x = false) xs.

(** [np.nanmean], [np.nanmedian], [np.nanstd]: [nan] (and a warning)
    when nothing is left. *)
Definition nan_stat (stat : list F → F) (xs : list F) : F :=
  match drop_nan xs with
  | [] => f_nan
  | ys => stat ys
  end.
Definition np_nanmean : list F → F := nan_stat f_mean.
Definition np_nanmedian : list F → F := nan_stat f_median.
Definition np_nanstd : list F → F := nan_stat f_std.

(** [np.nanmin], [np.nanmax]: an error on an empty array, [nan] when
    all entries are [nan]. *)
Definition nan_extremum (ext : list F → F) (xs : list F) : Res F :=
  match xs with
  | [] => Raise (ValueError "zero-size array to reduction operation")
  | _ => Ok (nan_stat ext xs)
  end.
Definition np_nanmin : list F → Res F := nan_extremum f_min.
Definition np_nanmax : list F → Res F := nan_extremum f_max.

(** [max(xs)] of Python. *)
Definition py_max (xs : list F) : Res F :=
  match xs with
  | [] => Raise (ValueError "max() arg is an empty sequence")
  | _ => Ok (f_max xs)
  end.

(** The rows
    [labels[np.abs((one_z_grid - labels["angles"]) % 2 * np.pi) < 0.2]].
    [%] and [*] associate to the left. *)
Definition select_labels (one_z_grid : F) (labels : list (LabelRow F))
    : list (LabelRow F) :=
  filter
    (λ row,
       f_ltb (f_abs (f_mul (f_mod (f_sub one_z_grid (angles row)) f_two)
                       f_pi))
         f_0_2 = true)
    labels.

(** The five lists the loop of [main.py] lines 475-487 appends to. *)
Record VelocityStats := {
  mean_velocities : list (Cell F);
  median_velocities : list (Cell F);
  std_velocities : list (Cell F);
  min_velocities : list (Cell F);
  max_velocities : list (Cell F);
}.

Definition no_stats : VelocityStats :=
  {| mean_velocities := []; median_velocities := [];
     std_velocities := []; min_velocities := []; max_velocities := [] |}.

(** One iteration of the loop. *)
Definition velocity_step (labels : list (LabelRow F))
    (acc : VelocityStats) (one_z_grid : Cell F) : Res VelocityStats :=
  let selected_labels := select_labels (cell_float one_z_grid) labels in
  let vs := velocities <$> selected_labels in
  let mean := mean_velocities acc ++ [CFloat (np_nanmean vs)] in
  let median := median_velocities acc ++ [CFloat (np_nanmedian vs)] in
  let std := std_velocities acc ++ [CFloat (np_nanstd vs)] in
  if bool_decide (length selected_labels = 0%nat) then
    Ok {| mean_velocities := mean; median_velocities := median;
          std_velocities := std;
          min_velocities := min_velocities acc ++ [CInt (-1)];
          max_velocities := max_velocities acc ++ [CInt (-1)] |}
  else
    lo ← np_nanmin vs;
    hi ← np_nanmax vs;
    Ok {| mean_velocities := mean; median_velocities := median;
          std_velocities := std;
          min_velocities := min_velocities acc ++ [CFloat lo];
          max_velocities := max_velocities acc ++ [CFloat hi] |}.

(** The whole loop. *)
Fixpoint velocity_loop (labels : list (LabelRow F))
    (acc : VelocityStats) (z_grid : list (Cell F)) : Res VelocityStats :=
  match z_grid with
  | [] => Ok acc
  | one_z_grid :: rest =>
      acc' ← velocity_step labels acc one_z_grid;
      velocity_loop labels acc' rest
  end.

(** [dataset.shape[1]]. *)
Definition shape_1 (dataset : Tensor F) : Res Z :=
  match shape dataset !! 1%nat with
  | Some d => Ok d
  | None => Raise IndexError
  end.

(** The block [main.py] lines 469-493, which adds the velocity columns
    to the learned profile of an experimental dataset. *)
Definition add_velocities (labels : list (LabelRow F))
    (profile : DataFrame F) : Res (DataFrame F) :=
  z_grid ← df_getitem profile "z_grid";
  stats ← velocity_loop labels no_stats z_grid;
  profile ← df_setitem profile "mean_velocities" (mean_velocities stats);
  profile ← df_setitem profile "median_velocities"
              (median_velocities stats);
  profile ← df_setitem profile "std_velocities" (std_velocities stats);
  profile ← df_setitem profile "min_velocities" (min_velocities stats);
  df_setitem profile "max_velocities" (max_velocities stats).

(** [curvature_compute_plot_log(config, dataset, labels, model)]: the
    computation of the two profiles and the [to_csv] calls.  Timing,
    figures, the curvature error and the dashboard log are not
    modelled. *)
Definition curvature_compute_plot_log (dc : default_config.t F)
    (config : Config F) (dataset : Tensor F)
    (labels : list (LabelRow F)) (model : Trained) : M State unit :=
  (* Compute *)
  embedding_dim ← lift (shape_1 dataset);
  n_grid_points ← lift (getattr config "n_grid_points");
  let '(z_grid, geodesic_dist, curv_norms_learned) :=
    evaluate_compute_curvature_learned model config embedding_dim
      n_grid_points in
  curv_norm_learned_profile ← lift
    (DataFrame_of "geodesic_dist" (CFloat <$> geodesic_dist)
       "curv_norm_learned" (CFloat <$> curv_norms_learned));
  dataset_name ← lift (getattr config "dataset_name");
  curv_norm_learned_profile ← lift (
    if val_in_strs dataset_name
         ["s1_synthetic"; "experimental"; "three_place_cells_synthetic"]
    then
      column ← grid_column z_grid;
      df_setitem curv_norm_learned_profile "z_grid" column
    else if val_in_strs dataset_name
              ["s2_synthetic"; "t2_synthetic"; "grid_cells"]
    then
      theta ← grid_slice z_grid false;
      profile ← df_setitem curv_norm_learned_profile "z_grid_theta" theta;
      phi ← grid_slice z_grid true;
      df_setitem profile "z_grid_phi" phi
    else Ok curv_norm_learned_profile);
  curv_norm_learned_profile ← lift (
    if val_eq_str dataset_name "experimental" then
      add_velocities labels curv_norm_learned_profile
    else Ok curv_norm_learned_profile);
  (* Logging learned curvature *)
  results_prefix ← lift (getattr config "results_prefix");
  write_file
    (os_path_join (default_config.curvature_profiles_dir dc)
       (str_val results_prefix +:+ "_curv_norm_learned_profile.csv"))
    (CsvFile curv_norm_learned_profile);;
  if val_in_strs dataset_name
       ["s1_synthetic"; "s2_synthetic"; "t2_synthetic"]
  then
    n_grid_points ← lift (getattr config "n_grid_points");
    let '(z_grid, geodesic_dist, curv_norms_true) :=
      evaluate_compute_curvature_true config n_grid_points in
    norm_val ← lift (py_max curv_norms_true);
    curv_norm_true_profile ← lift
      (DataFrame_of "geodesic_dist" (CFloat <$> geodesic_dist)
         "curv_norm_true" (CFloat <$> curv_norms_true));
    curv_norm_true_profile ← lift (
      if val_eq_str dataset_name "s1_synthetic" then
        column ← grid_column z_grid;
        df_setitem curv_norm_true_profile "z_grid" column
      else
        theta ← grid_slice z_grid false;
        profile ← df_setitem curv_norm_true_profile "z_grid_theta" theta;
        phi ← grid_slice z_grid true;
        df_setitem profile "z_grid_phi" phi);
    results_prefix ← lift (getattr config "results_prefix");
    write_file
      (os_path_join (default_config.curvature_profiles_dir dc)
         (str_val results_prefix +:+ "_curv_norm_true_profile.csv"))
      (CsvFile curv_norm_true_profile)
  else mret tt.

(** [(data_n_times, data_dim) = dataset.shape]. *)
Definition shape_pair (dataset : Tensor F) : Res (Z * Z) :=
  match shape dataset with
  | [n; d] => Ok (n, d)
  | _ => Raise (ValueError "wrong number of values to unpack")
  end.

(** [wandb_config.update(d)]: the entries of [d] replace those of the
    configuration. *)
Definition update (d config : Config F) : Config F := d ∪ config.

(** The run name of [main.py] line 261. *)
Definition make_run_name (run_id sweep_name : string) : string :=
  "run_" +:+ run_id +:+ "_" +:+ sweep_name.

(** [main_run(sweep_config)], a closure over [fixed_config] and
    [sweep_name].  [run_id] is [wandb.run.id] and [wandb_config] the
    configuration [wandb.init] starts the run with.  The metric
    returned to the tuner, [np.min(test_losses)], is left as the test
    losses themselves. *)
Definition main_run (dc : default_config.t F)
    (fixed_config : Config F) (sweep_name : string)
    (run_id : string) (wandb_config : Config F)
    (sweep_config : Config F) : M State Losses :=
  let wandb_config := update fixed_config wandb_config in
  let wandb_config := update sweep_config wandb_config in
  let run_name := make_run_name run_id sweep_name in
  (* Load data, labels *)
  '(dataset, labels, train_loader, test_loader) ←
    lift (utils_load wandb_config);
  '(data_n_times, data_dim) ← lift (shape_pair dataset);
  let wandb_config :=
    update
      (<["run_name" := VStr run_name]>
         (<["results_prefix" := VStr run_name]>
            (<["data_n_times" := VInt data_n_times]>
               (<["data_dim" := VInt data_dim]> ∅))))
      wandb_config in
  (* Save config for easy access from notebooks *)
  let wandb_config_path :=
    os_path_join (default_config.configs_dir dc) (run_name +:+ ".json") in
  write_file wandb_config_path (JsonFile wandb_config);;
  device ← lift (getattr wandb_config "device");
  '(train_losses, test_losses, model) ←
    create_model_and_train_test wandb_config train_loader test_loader;
  training_plot_log dc wandb_config model;;
  curvature_compute_plot_log dc wandb_config dataset labels model;;
  mret test_losses.

End Run.
End Curvature.

(** ** dimension/dimension.py *)

Module Dimension.
Import Py.

(** The first argument of [skdim_dimension_estimation]: the string
    ["all"] or a list of estimator names. *)
Inductive Methods :=
| AllMethods
| MethodList (names : list string).

(** [gs.ones(n)]. *)
Inductive Scales := gs_ones (n : Z).

(** The libraries [dimension.py] calls: [skdim.id], the package
    [neurometry.datasets.synthetic] and scikit-learn.  [World] is whatever
    state their random draws depend on. *)
Class Library (F : Type) := {
  World : Type;
  Points : Type;
  Manifold : Type;
  Estimator : Type;
  (* the public and private attributes of [skdim.id], as [dir] lists them,
     each with the estimator a call without arguments constructs *)
  skdim_id : list (string * Estimator);
  (* [method.fit(X)], which updates the estimator *)
  fit : Estimator → Manifold → World → Estimator * World;
  (* [np.mean(method.dimension_)] *)
  mean_dimension : Estimator → F;
  (* the point generators of [synthetic], by name *)
  synthetic_generators : list (string * (Z → Z → World → Points * World));
  (* [synthetic.synthetic_neural_manifold(points, num_neurons,
     nonlinearity, poisson_multiplier, ref_frequency, scales=...)], first
     component of the result *)
  synthetic_neural_manifold :
    Points → Z → string → F → F → Scales → World → Manifold * World;
  (* scikit-learn *)
  Data : Type;
  Projector : Type;
  Regressor : Type;
  train_test_split : Data → Data → F → Z → Data * Data * Data * Data;
  PLSRegression_fit : Z → Data → Data → Projector;
  PCA_fit : Z → Data → Projector;
  transform : Projector → Data → Data;
  MultiOutputRegressor_fit : Data → Data → Regressor;
  predict : Regressor → Data → Data;
  r2_score : Data → Data → string → F;
}.

Section Estimation.
Context {F : Type} `{!PyFloat F, !Library F}.

(** The calls into the libraries that create or consume data, in the
    order they are made. *)
Inductive Event :=
| GeneratePoints (dim num_points : Z) (points : Points)
| GenerateManifold (points : Points) (neural_manifold : Manifold)
| Fit (method_name : string) (neural_manifold : Manifold).

Record State := {
  world : World;
  log : list Event;
}.

(** A library call that draws from the world, logged by [ev]. *)
Definition call {A} (f : World → A * World) (ev : A → option Event)
    : M State A :=
  λ s,
    let '(a, w) := f (world s) in
    (Ok a, {| world := w; log := log s ++ option_list (ev a) |}).

(** [getattr(module, name)] on a module given by its attributes. *)
Definition module_getattr {A} (module : list (string * A))
    (name : string) : Res A :=
  match list_find (λ p, p.1 = name) module with
  | Some (_, (_, a)) => Ok a
  | None => Raise (AttributeError name)
  end.

Definition startswith_underscore (s : string) : bool :=
  match s with
  | String c _ => Ascii.eqb c "_"%char
  | EmptyString => false
  end.

(** [[method for method in dir(skdim.id) if not method.startswith("_")]]. *)
Definition all_methods : list string :=
  filter (λ m, startswith_underscore m = false) (skdim_id.*1).

(** [np.zeros((rows, cols))]; a negative dimension is an error. *)
Definition np_zeros (rows : nat) (cols : Z) : Res (list (list F)) :=
  if bool_decide (cols < 0) then
    Raise (ValueError "negative dimensions are not allowed")
  else Ok (replicate rows (replicate (Z.to_nat cols) (f_of_int 0))).

(** [1 / x] for a Python number. *)
Definition py_inverse (x : F) : Res F :=
  if f_is_zero x then Raise ZeroDivisionError else Ok (f_div f_one x).

(** [estimates[i, j] = v]. *)
Definition set_entry (estimates : list (list F)) (i j : nat) (v : F)
    : list (list F) :=
  alter (<[j := v]>) i estimates.

(** The loop over [range(num_trials)], [dimension.py] lines 50-52; the
    trial indices still to run are [trials]. *)
Fixpoint trial_loop (method_name : string) (neural_manifold : Manifold)
    (dim_idx : nat) (trials : list nat)
    (acc : Estimator * list (list F))
    : M State (Estimator * list (list F)) :=
  match trials with
  | [] => mret acc
  | trial_idx :: trials' =>
      let '(method, estimates) := acc in
      method ← call (fit method neural_manifold)
                 (λ _, Some (Fit method_name neural_manifold));
      let estimates :=
        set_entry estimates dim_idx trial_idx (mean_dimension method) in
      trial_loop method_name neural_manifold dim_idx trials'
        (method, estimates)
  end.

(** The loop over [enumerate(dimensions)], lines 40-52. *)
Fixpoint dimension_loop
    (point_generator : Z → Z → World → Points * World)
    (method_name : string) (num_trials num_points num_neurons : Z)
    (poisson_multiplier ref_frequency : F)
    (dim_idx : nat) (dimensions : list Z)
    (acc : Estimator * list (list F))
    : M State (Estimator * list (list F)) :=
  match dimensions with
  | [] => mret acc
  | dim :: dimensions' =>
      points ← call (point_generator dim num_points)
                 (λ points, Some (GeneratePoints dim num_points points));
      neural_manifold ←
        call (synthetic_neural_manifold points num_neurons "sigmoid"
                poisson_multiplier ref_frequency (gs_ones num_neurons))
          (λ m, Some (GenerateManifold points m));
      acc ← trial_loop method_name neural_manifold dim_idx
              (seq 0 (Z.to_nat num_trials)) acc;
      dimension_loop point_generator method_name num_trials num_points
        num_neurons poisson_multiplier ref_frequency (S dim_idx)
        dimensions' acc
  end.

(** The loop over [methods], lines 37-53. *)
Fixpoint method_loop
    (point_generator : Z → Z → World → Points * World)
    (dimensions : list Z) (num_trials num_points num_neurons : Z)
    (poisson_multiplier ref_frequency : F)
    (methods : list string) (id_estimates : gmap string (list (list F)))
    : M State (gmap string (list (list F))) :=
  match methods with
  | [] => mret id_estimates
  | method_name :: methods' =>
      method ← lift (module_getattr skdim_id method_name);
      estimates ← lift (np_zeros (length dimensions) num_trials);
      '(_, estimates) ←
        dimension_loop point_generator method_name num_trials num_points
          num_neurons poisson_multiplier ref_frequency 0 dimensions
          (method, estimates);
      method_loop point_generator dimensions num_trials num_points
        num_neurons poisson_multiplier ref_frequency methods'
        (<[method_name := estimates]> id_estimates)
  end.

(** [skdim_dimension_estimation]. *)
Definition skdim_dimension_estimation (methods : Methods)
    (dimensions : list Z) (manifold_type : string)
    (num_trials num_points num_neurons : Z)
    (poisson_multiplier ref_frequency : F)
    : M State (gmap string (list (list F)) * F) :=
  let methods :=
    match methods with
    | AllMethods => all_methods
    | MethodList names => names
    end in
  point_generator ← lift (module_getattr synthetic_generators
                            manifold_type);
  inverse ← lift (py_inverse (f_mul ref_frequency poisson_multiplier));
  let noise_level := f_sqrt inverse in
  id_estimates ←
    method_loop point_generator dimensions num_trials num_points
      num_neurons poisson_multiplier ref_frequency methods ∅;
  mret (id_estimates, noise_level).

(** [evaluate_pls_with_different_K(X, Y, K_values)]. *)
Definition evaluate_pls_with_different_K (X Y : Data)
    (K_values : list Z) : list F * list Data :=
  let r2_scores := [] in
  let projected_X := [] in
  (* Split data into training and test sets *)
  let '(X_train, X_test, Y_train, Y_test) :=
    train_test_split X Y f_0_2 42 in
  fold_left
    (λ '(r2_scores, projected_X) K,
       let pls := PLSRegression_fit K X_train Y_train in
       let X_train_pls := transform pls X_train in
       let X_test_pls := transform pls X_test in
       let X_pls := transform pls X in
       let projected_X := projected_X ++ [X_pls] in
       let multi_output_reg :=
         MultiOutputRegressor_fit X_train_pls Y_train in
       let Y_pred := predict multi_output_reg X_test_pls in
       let score := r2_score Y_test Y_pred "uniform_average" in
       (r2_scores ++ [score], projected_X))
    K_values (r2_scores, projected_X).

(** [evaluate_PCA_with_different_K(X, Y, K_values)]. *)
Definition evaluate_PCA_with_different_K (X Y : Data)
    (K_values : list Z) : list F * list Data :=
  let r2_scores := [] in
  let projected_X := [] in
  (* Split data into training and test sets *)
  let '(X_train, X_test, Y_train, Y_test) :=
    train_test_split X Y f_0_2 42 in
  fold_left
    (λ '(r2_scores, projected_X) K,
       let pca := PCA_fit K X_train in
       let X_train_pca := transform pca X_train in
       let X_test_pca := transform pca X_test in
       let X_pca := transform pca X in
       let projected_X := projected_X ++ [X_pca] in
       let multi_output_reg :=
         MultiOutputRegressor_fit X_train_pca Y_train in
       let Y_pred := predict multi_output_reg X_test_pca in
       let score := r2_score Y_test Y_pred "uniform_average" in
       (r2_scores ++ [score], projected_X))
    K_values (r2_scores, projected_X).

End Estimation.
End Dimension.

(** * Properties *)

(** ** Strings *)

Module StringFacts.
Import Py.

(** [occurs c s]: the character [c] occurs in [s]. *)
Fixpoint occurs (c : ascii) (s : string) : bool :=
  match s with
  | EmptyString => false
  | String c' s' => Ascii.eqb c' c || occurs c s'
  end.

Lemma occurs_app c s t : occurs c (s +:+ t) = occurs c s || occurs c t.
Proof.
  induction s as [|c' s IH]; [done|].
  change (String c' s +:+ t) with (String c' (s +:+ t)).
  cbn [occurs]. rewrite IH. by rewrite orb_assoc.
Qed.

Lemma length_app s t :
  String.length (s +:+ t) = (String.length s + String.length t)%nat.
Proof.
  induction s as [|c s IH]; [done|].
  change (String c s +:+ t) with (String c (s +:+ t)).
  cbn [String.length]. by rewrite IH.
Qed.

Lemma app_assoc s t u : (s +:+ t) +:+ u = s +:+ t +:+ u.
Proof.
  induction s as [|c s IH]; [done|].
  change ((String c s +:+ t) +:+ u) with (String c ((s +:+ t) +:+ u)).
  by rewrite IH.
Qed.

Lemma app_cons c s t : String c s +:+ t = String c (s +:+ t).
Proof. done. Qed.

Lemma app_nil_l t : "" +:+ t = t.
Proof. done. Qed.

(** Cancellation of a common suffix. *)
Lemma app_inj_r s1 s2 t : s1 +:+ t = s2 +:+ t → s1 = s2.
Proof.
  revert s2. induction s1 as [|c1 s1 IH]; intros [|c2 s2] Heq.
  - done.
  - apply (f_equal String.length) in Heq.
    rewrite !length_app in Heq. cbn in Heq. lia.
  - apply (f_equal String.length) in Heq.
    rewrite !length_app in Heq. cbn in Heq. lia.
  - rewrite !app_cons in Heq. injection Heq as -> Heq.
    f_equal. by apply IH.
Qed.

(** Two strings cut at their last occurrence of [c] agree piecewise. *)
Lemma split_last c a a' n n' :
  occurs c n = false → occurs c n' = false →
  a +:+ String c n = a' +:+ String c n' → a = a' ∧ n = n'.
Proof.
  intros Hn Hn'. revert a'.
  induction a as [|x a IH]; intros [|x' a'] Heq.
  - rewrite !app_nil_l in Heq. by injection Heq.
  - rewrite app_cons, app_nil_l in Heq. injection Heq as <- ->.
    rewrite occurs_app in Hn. cbn in Hn. rewrite Ascii.eqb_refl in Hn.
    by rewrite orb_true_r in Hn.
  - rewrite app_cons, app_nil_l in Heq. injection Heq as -> <-.
    rewrite occurs_app in Hn'. cbn in Hn'. rewrite Ascii.eqb_refl in Hn'.
    by rewrite orb_true_r in Hn'.
  - rewrite !app_cons in Heq. injection Heq as -> Heq.
    destruct (IH _ Heq) as [-> ->]. done.
Qed.

(** Two strings cut at their first occurrence of [c] agree piecewise. *)
Lemma split_first c a a' n n' :
  occurs c a = false → occurs c a' = false →
  a +:+ String c n = a' +:+ String c n' → a = a' ∧ n = n'.
Proof.
  revert a'. induction a as [|x a IH]; intros [|x' a'] Ha Ha' Heq.
  - rewrite !app_nil_l in Heq. by injection Heq.
  - rewrite app_cons, app_nil_l in Heq. injection Heq as <- ->.
    cbn in Ha'. by rewrite Ascii.eqb_refl in Ha'.
  - rewrite app_cons, app_nil_l in Heq. injection Heq as -> <-.
    cbn in Ha. by rewrite Ascii.eqb_refl in Ha.
  - rewrite !app_cons in Heq. injection Heq as -> Heq.
    cbn in Ha, Ha'. apply orb_false_elim in Ha as [_ Ha].
    apply orb_false_elim in Ha' as [_ Ha'].
    destruct (IH _ Ha Ha' Heq) as [-> ->]. done.
Qed.

(** Decimal numerals consist of digits and a sign. *)
Lemma pretty_N_char_no_underscore x :
  Ascii.eqb (pretty_N_char x) "_" = false.
Proof. unfold pretty_N_char. by repeat case_match. Qed.

Lemma pretty_N_go_no_underscore x s :
  occurs "_" s = false → occurs "_" (pretty_N_go x s) = false.
Proof.
  revert s. induction (N.lt_wf_0 x) as [x _ IH]; intros s Hs.
  destruct (decide (x = 0%N)) as [->|Hx].
  - by rewrite pretty_N_go_0.
  - rewrite pretty_N_go_step by lia. apply IH.
    + apply N.div_lt; lia.
    + cbn. by rewrite pretty_N_char_no_underscore.
Qed.

Lemma str_int_no_underscore z : occurs "_" (str_int z) = false.
Proof.
  unfold str_int, pretty, pretty_Z.
  destruct z as [|p|p]; [done|..].
  - unfold pretty, pretty_positive, pretty, pretty_N.
    case_decide; [done|]. by apply pretty_N_go_no_underscore.
  - rewrite occurs_app. cbn.
    unfold pretty, pretty_positive, pretty, pretty_N.
    case_decide; [done|]. by apply pretty_N_go_no_underscore.
Qed.

Lemma str_int_inj z z' : str_int z = str_int z' → z = z'.
Proof. apply pretty_Z_inj. Qed.

End StringFacts.

(** ** [main]: the sweeps it launches and the error it raises *)

Module MainFacts.
Import Py Curvature StringFacts.

Section Loops.
Context {F : Type}.
Implicit Types (p q : Proc F) (c : SweepCall F) (e : Exn).

Lemma launched_seq c p q :
  c ∈ launched (seq p q) → c ∈ launched p ∨ c ∈ launched q.
Proof.
  unfold seq, launched. destruct (p.2); cbn; [by left|].
  rewrite elem_of_app. tauto.
Qed.

Lemma raised_seq_None p q :
  raised (seq p q) = None ↔ raised p = None ∧ raised q = None.
Proof.
  unfold seq, raised. destruct (p.2) eqn:Hp; cbn; rewrite ?Hp; [|tauto].
  split; [done|]. by intros [? _].
Qed.

Lemma seq_after_None p q :
  raised p = None →
  launched (seq p q) = launched p ++ launched q
  ∧ raised (seq p q) = raised q.
Proof. unfold seq, raised, launched. by intros ->. Qed.

Lemma seq_after_Some p q e :
  raised p = Some e → seq p q = p.
Proof. unfold seq, raised. by intros ->. Qed.

Lemma launched_for_each {A} (l : list A) (body : A → Proc F) c :
  c ∈ launched (for_each l body) → ∃ x, x ∈ l ∧ c ∈ launched (body x).
Proof.
  induction l as [|x l IH]; cbn [for_each].
  - unfold launched, skip. cbn. by intros ?%elem_of_nil.
  - intros [Hc|Hc]%launched_seq.
    + exists x. split; [left|done].
    + destruct (IH Hc) as (y & ? & ?). exists y. split; [by right|done].
Qed.

Lemma for_each_no_raise {A} (l : list A) (body : A → Proc F) :
  (∀ x, x ∈ l → raised (body x) = None) →
  raised (for_each l body) = None.
Proof.
  induction l as [|x l IH]; intros Hbody; cbn [for_each]; [done|].
  apply raised_seq_None. split.
  - apply Hbody. left.
  - apply IH. intros y Hy. apply Hbody. by right.
Qed.

(** A loop that raises stops at the first iteration that raises: what
    it has launched is what the iterations before and that iteration
    launched. *)
Lemma for_each_raised {A} (l : list A) (body : A → Proc F) e :
  raised (for_each l body) = Some e →
  ∃ pre x post,
    l = pre ++ x :: post
    ∧ raised (for_each pre body) = None
    ∧ raised (body x) = Some e
    ∧ launched (for_each l body)
      = launched (for_each pre body) ++ launched (body x).
Proof.
  induction l as [|x l IH]; cbn [for_each]; [done|].
  destruct (raised (body x)) as [e'|] eqn:Hx.
  - rewrite (seq_after_Some _ _ _ Hx), Hx. intros [= ->].
    exists [], x, l. by rewrite Hx.
  - destruct (seq_after_None (body x) (for_each l body) Hx) as [Hl ->].
    intros (pre & y & post & -> & Hpre & Hy & Hlaunch)%IH.
    exists (x :: pre), y, post. cbn [for_each].
    destruct (seq_after_None (body x) (for_each pre body) Hx)
      as [Hl' ->].
    rewrite Hl, Hl', Hlaunch, (assoc_L (++)). done.
Qed.

Lemma for_each_raises {A} (l : list A) (body : A → Proc F) x :
  x ∈ l → raised (body x) ≠ None → raised (for_each l body) ≠ None.
Proof.
  induction l as [|y l IH]; [by intros ?%elem_of_nil|].
  intros [->|Hx]%elem_of_cons Hraise; cbn [for_each].
  - rewrite raised_seq_None. tauto.
  - rewrite raised_seq_None. intros [_ ?]. by apply IH.
Qed.
End Loops.

Section Main.
Context {F : Type} `{!PyFloat F}.
Implicit Types (dc : default_config.t F) (c : SweepCall F).

(** The validation of [main]: the manifolds S2 and T2 do not embed in
    two dimensions or fewer. *)
Definition too_small (dataset_name : string) (embedding_dim : Z) : Prop :=
  dataset_name ∈ ["s2_synthetic"; "t2_synthetic"] ∧ embedding_dim ≤ 2.

(** The specification's words, "an embedding dimension too small for a
    manifold", read for the three synthetic manifolds: the circle does not
    embed in fewer than two dimensions, the sphere and the torus do not
    embed in fewer than three.  These two definitions follow the
    specification, not the code. *)
Definition spec_min_embedding_dim (dataset_name : string) : option Z :=
  if bool_decide (dataset_name = "s1_synthetic") then Some 2
  else if bool_decide (dataset_name ∈ ["s2_synthetic"; "t2_synthetic"])
  then Some 3
  else None.
Definition spec_too_small (dataset_name : string) (embedding_dim : Z)
    : Prop :=
  ∃ m, spec_min_embedding_dim dataset_name = Some m ∧ embedding_dim < m.

(** The parameters a sweep name is built from. *)
Inductive NameKey :=
| ExperimentalKey (expt_id : string) (select_gain_1 : bool)
| SyntheticKey (noise_var : string) (embedding_dim : Z)
| GridCellsKey (grid_orientation_std : string) (n_cells : Z)
| NoKey.

Definition name_key (params : SweepParams F) : NameKey :=
  match params with
  | ExperimentalParams expt_id _ _ select_gain_1 =>
      ExperimentalKey expt_id select_gain_1
  | SyntheticParams _ embedding_dim _ noise_var =>
      SyntheticKey (str_float noise_var) embedding_dim
  | GridCellsParams _ _ n_cells _ grid_orientation_std _ _ =>
      GridCellsKey (str_float grid_orientation_std) n_cells
  | NoParams => NoKey
  end.

(** The sweep name as a function of the dataset name and of the key. *)
Definition key_name (dataset_name : string) (k : NameKey) : string :=
  match k with
  | ExperimentalKey expt_id select_gain_1 =>
      (dataset_name +:+ "_" +:+ expt_id)
      +:+ (if select_gain_1 then "_gain_1" else "_other_gain")
  | SyntheticKey noise_var embedding_dim =>
      (dataset_name +:+ "_noise_var_" +:+ noise_var)
      +:+ "_embedding_dim_" +:+ str_int embedding_dim
  | GridCellsKey grid_orientation_std n_cells =>
      (dataset_name +:+ "_orientation_std_" +:+ grid_orientation_std)
      +:+ "_ncells_" +:+ str_int n_cells
  | NoKey => dataset_name
  end.

(** The branch of [main] a call comes from. *)
Definition branch_of (dataset_name : string) (params : SweepParams F)
    : Prop :=
  match params with
  | ExperimentalParams _ _ _ _ => dataset_name = "experimental"
  | SyntheticParams _ embedding_dim _ _ =>
      dataset_name ∈ ["s1_synthetic"; "s2_synthetic"; "t2_synthetic"]
      ∧ ¬ too_small dataset_name embedding_dim
  | GridCellsParams _ _ _ _ _ _ _ => dataset_name = "grid_cells"
  | NoParams => dataset_name = "three_place_cells_synthetic"
  end.

Definition well_named c : Prop :=
  branch_of (call_dataset_name c) (call_params c)
  ∧ call_sweep_name c
    = key_name (call_dataset_name c) (name_key (call_params c)).

Lemma launched_main_sweep c sweep_name dataset_name params :
  c ∈ launched (main_sweep sweep_name dataset_name params) →
  c = {| call_sweep_name := sweep_name;
         call_dataset_name := dataset_name;
         call_params := params |}.
Proof. unfold main_sweep, launched. cbn. by intros ->%list_elem_of_singleton. Qed.

Lemma main_synthetic_cases dataset_name n_times embedding_dim amp noise_var :
  let p := (n_times, embedding_dim, amp, noise_var) in
  (dataset_name ∈ ["s2_synthetic"; "t2_synthetic"] ∧ embedding_dim ≤ 2
   ∧ main_synthetic dataset_name p
     = raise (ValueError ("Manifold cannot be embedded in "
                          +:+ str_int embedding_dim +:+ " dimensions")))
  ∨ (¬ too_small dataset_name embedding_dim
     ∧ main_synthetic dataset_name p
       = main_sweep
           (key_name dataset_name
              (SyntheticKey (str_float noise_var) embedding_dim))
           dataset_name
           (SyntheticParams n_times embedding_dim amp noise_var)).
Proof.
  cbn. unfold too_small.
  destruct (bool_decide _ && bool_decide _) eqn:Hc.
  - apply andb_true_iff in Hc as [?%bool_decide_eq_true ?%bool_decide_eq_true].
    by left.
  - right. split; [|done].
    apply andb_false_iff in Hc
      as [?%bool_decide_eq_false| ?%bool_decide_eq_false]; tauto.
Qed.

Lemma launched_main_dataset dc dataset_name c :
  c ∈ launched (main_dataset dc dataset_name) → well_named c.
Proof.
  unfold main_dataset. repeat case_bool_decide.
  - intros ([[[e t] s] g] & _ & ->%launched_main_sweep)%launched_for_each.
    split; [assumption|by destruct g].
  - intros ([[[n ed] a] nv] & _ & Hc)%launched_for_each.
    destruct (main_synthetic_cases dataset_name n ed a nv)
      as [(_ & _ & Heq)|[Hok Heq]]; cbn zeta in Heq; rewrite Heq in Hc.
    + by apply elem_of_nil in Hc.
    + apply launched_main_sweep in Hc as ->.
      split; [by split|reflexivity].
  - intros ([[[[[[gs ad] nc] gm] std] fw] r] & _
            & ->%launched_main_sweep)%launched_for_each.
    split; [assumption|reflexivity].
  - intros ->%launched_main_sweep. split; [assumption|reflexivity].
  - by intros ?%elem_of_nil.
Qed.

Lemma launched_main dc c : c ∈ launched (main dc) → well_named c.
Proof.
  intros (ds & _ & Hc)%launched_for_each.
  by apply launched_main_dataset in Hc.
Qed.

Local Ltac clash :=
  repeat match goal with
    | H : _ ∧ _ |- _ => destruct H as [H _]
    | H : ?x = String _ _ |- _ => is_var x; subst x
    | H : String _ _ = String _ _ |- _ => discriminate H
    | H : _ ∈ _ :: _ |- _ => apply elem_of_cons in H as [H|H]
    | H : _ ∈ [] |- _ => by apply elem_of_nil in H
    end.

(** Within a dataset, the sweep name determines the key. *)
Lemma key_name_inj dataset_name (p1 p2 : SweepParams F) :
  branch_of dataset_name p1 → branch_of dataset_name p2 →
  key_name dataset_name (name_key p1) = key_name dataset_name (name_key p2) →
  name_key p1 = name_key p2.
Proof.
  destruct p1 as [e1 t1 s1 g1|n1 d1 a1 v1|gs1 ad1 nc1 gm1 sd1 fw1 r1|],
    p2 as [e2 t2 s2 g2|n2 d2 a2 v2|gs2 ad2 nc2 gm2 sd2 fw2 r2|];
    cbn [branch_of name_key key_name]; intros H1 H2;
    try (exfalso; clash; fail); [..|done].
  - (* experimental *)
    intros Heq. rewrite !app_assoc in Heq.
    apply (inj (String.app dataset_name)) in Heq.
    apply (inj (String.app "_")) in Heq.
    destruct g1, g2.
    + apply app_inj_r in Heq. by subst.
    + change (e1 +:+ "_gain_1" = e2 +:+ "_other_gain")
        with (e1 +:+ "_gain" +:+ "_1" = e2 +:+ "_other" +:+ "_gain") in Heq.
      rewrite <-!app_assoc in Heq.
      by apply (split_last "_") in Heq as [_ [=]].
    + change (e1 +:+ "_other_gain" = e2 +:+ "_gain_1")
        with (e1 +:+ "_other" +:+ "_gain" = e2 +:+ "_gain" +:+ "_1") in Heq.
      rewrite <-!app_assoc in Heq.
      by apply (split_last "_") in Heq as [_ [=]].
    + apply app_inj_r in Heq. by subst.
  - (* synthetic *)
    intros Heq. rewrite !app_assoc in Heq.
    apply (inj (String.app dataset_name)) in Heq.
    apply (inj (String.app "_noise_var_")) in Heq.
    change ("_embedding_dim_" +:+ ?x) with ("_embedding_dim" +:+ "_" +:+ x)
      in Heq.
    rewrite <-!(app_assoc _ "_embedding_dim") in Heq.
    apply (split_last "_") in Heq
      as [->%app_inj_r ->%str_int_inj];
      auto using str_int_no_underscore.
  - (* grid cells *)
    intros Heq. rewrite !app_assoc in Heq.
    apply (inj (String.app dataset_name)) in Heq.
    apply (inj (String.app "_orientation_std_")) in Heq.
    change ("_ncells_" +:+ ?x) with ("_ncells" +:+ "_" +:+ x) in Heq.
    rewrite <-!(app_assoc _ "_ncells") in Heq.
    apply (split_last "_") in Heq
      as [->%app_inj_r ->%str_int_inj];
      auto using str_int_no_underscore.
Qed.

Lemma main_experimental_no_raise dataset_name
    (p : string * F * bool * bool) :
  raised (main_experimental dataset_name p) = None.
Proof. by destruct p as [[[??]?]?]. Qed.

Lemma main_grid_cells_no_raise dataset_name
    (p : Val F * Val F * Z * Val F * F * Val F * Val F) :
  raised (main_grid_cells dataset_name p) = None.
Proof. by destruct p as [[[[[[??]?]?]?]?]?]. Qed.

(** [main_dataset] raises only from the synthetic loop. *)
Lemma main_dataset_raised dc dataset_name e :
  raised (main_dataset dc dataset_name) = Some e →
  main_dataset dc dataset_name
  = for_each
      (product4 (default_config.n_times dc)
         (default_config.embedding_dim dc)
         (default_config.geodesic_distortion_amp dc)
         (default_config.noise_var dc))
      (main_synthetic dataset_name).
Proof.
  unfold main_dataset. repeat case_bool_decide; try done.
  - rewrite for_each_no_raise; [done|].
    intros; apply main_experimental_no_raise.
  - rewrite for_each_no_raise; [done|].
    intros; apply main_grid_cells_no_raise.
Qed.

Lemma main_dataset_synthetic dc dataset_name :
  dataset_name ∈ ["s2_synthetic"; "t2_synthetic"] →
  main_dataset dc dataset_name
  = for_each
      (product4 (default_config.n_times dc)
         (default_config.embedding_dim dc)
         (default_config.geodesic_distortion_amp dc)
         (default_config.noise_var dc))
      (main_synthetic dataset_name).
Proof.
  intros Hin. unfold main_dataset.
  rewrite bool_decide_eq_false_2 by (intros ->; clash).
  rewrite bool_decide_eq_true_2; [done|].
  apply elem_of_cons in Hin as [->|Hin]; [right; left|by do 2 right].
Qed.

(** C1, as the code has it.  Among the sweeps [main] launches for one
    dataset name, two sweeps have the same name exactly when they agree
    on the parameters the name is built from: the experiment id and the
    gain flag of an experimental dataset; the rendering of the noise
    variance and the embedding dimension of a synthetic dataset; the
    rendering of the orientation spread and the number of cells of the
    grid cells.  The name is a function of these parameters and is
    injective in them; the remaining parameters of the tuple do not
    enter the name. *)
Theorem sweep_name_determined_by_key dc c1 c2 :
  c1 ∈ launched (main dc) → c2 ∈ launched (main dc) →
  call_dataset_name c1 = call_dataset_name c2 →
  call_sweep_name c1 = call_sweep_name c2
  ↔ name_key (call_params c1) = name_key (call_params c2).
Proof.
  intros [Hb1 Hn1]%launched_main [Hb2 Hn2]%launched_main Hds.
  rewrite Hn1, Hn2, <-Hds. split.
  - rewrite <-Hds in Hb2. by apply key_name_inj.
  - by intros ->.
Qed.

(** C3, as the code has it.  [main] validates the embedding dimension of
    the sphere and of the torus, and nothing else; here "too small" is the
    test of the code: [s2_synthetic] or [t2_synthetic] with an embedding
    dimension of 2 or less.  (1) No sweep is ever launched for a
    configuration that is too small in this sense.  (2) When [main]
    raises, the error is the [ValueError] of that validation, for the
    first enumerated configuration that is too small; the sweeps launched
    are exactly those of the configurations enumerated before it, none
    for that configuration and none after it.  (3) [main] does raise
    whenever the enumeration contains such a configuration.  (4) The test
    of the code is the specification's "too small for its manifold" on the
    sphere and the torus only.  (5) The circle is not validated: for
    [s1_synthetic] no embedding dimension is rejected, also one in which
    the circle does not embed. *)
Theorem main_raises_once_for_small_embedding dc :
  let synthetic :=
    product4 (default_config.n_times dc)
      (default_config.embedding_dim dc)
      (default_config.geodesic_distortion_amp dc)
      (default_config.noise_var dc) in
  (∀ c n_times embedding_dim amp noise_var,
     c ∈ launched (main dc) →
     call_params c = SyntheticParams n_times embedding_dim amp noise_var →
     ¬ too_small (call_dataset_name c) embedding_dim)
  ∧ (∀ e, raised (main dc) = Some e →
       ∃ before dataset_name after before' n_times embedding_dim amp
         noise_var after',
         default_config.dataset_name dc
         = before ++ dataset_name :: after
         ∧ synthetic
           = before' ++ (n_times, embedding_dim, amp, noise_var) :: after'
         ∧ too_small dataset_name embedding_dim
         ∧ e = ValueError ("Manifold cannot be embedded in "
                           +:+ str_int embedding_dim +:+ " dimensions")
         ∧ raised (for_each before (main_dataset dc)) = None
         ∧ raised (for_each before' (main_synthetic dataset_name)) = None
         ∧ launched (main dc)
           = launched (for_each before (main_dataset dc))
             ++ launched (for_each before' (main_synthetic dataset_name)))
  ∧ (∀ dataset_name n_times embedding_dim amp noise_var,
       dataset_name ∈ default_config.dataset_name dc →
       (n_times, embedding_dim, amp, noise_var) ∈ synthetic →
       too_small dataset_name embedding_dim →
       raised (main dc) ≠ None)
  ∧ (∀ dataset_name embedding_dim,
       too_small dataset_name embedding_dim
       ↔ dataset_name ∈ ["s2_synthetic"; "t2_synthetic"]
         ∧ spec_too_small dataset_name embedding_dim)
  ∧ (∀ n_times embedding_dim amp noise_var,
       main_synthetic "s1_synthetic"
         (n_times, embedding_dim, amp, noise_var)
       = main_sweep
           (key_name "s1_synthetic"
              (SyntheticKey (str_float noise_var) embedding_dim))
           "s1_synthetic"
           (SyntheticParams n_times embedding_dim amp noise_var)).
Proof.
  intros synthetic. split; [|split; [|split; [|split]]].
  - intros c n ed a v [Hb _]%launched_main Hp. rewrite Hp in Hb.
    by destruct Hb.
  - intros e (before & ds & after & Hds & Hbefore & Hraise & Hlaunch)
      %for_each_raised.
    pose proof (main_dataset_raised _ _ _ Hraise) as Hbranch.
    rewrite Hbranch in Hraise, Hlaunch. clear Hbranch.
    apply for_each_raised in Hraise
      as (before' & [[[n ed] a] v] & after' & Hsyn & Hbefore' & Hp & Hl).
    destruct (main_synthetic_cases ds n ed a v)
      as [(Hin & Hle & Heq)|[_ Heq]]; cbn zeta in Heq; rewrite Heq in Hp, Hl;
      [|done].
    injection Hp as <-.
    exists before, ds, after, before', n, ed, a, v, after'.
    repeat split; try done.
    unfold main. rewrite Hlaunch, Hl. unfold raise, launched at 4. cbn.
    by rewrite app_nil_r.
  - intros ds n ed a v Hds Hp [Hin Hle].
    apply (for_each_raises _ _ ds Hds).
    rewrite (main_dataset_synthetic _ _ Hin).
    apply (for_each_raises _ _ _ Hp).
    destruct (main_synthetic_cases ds n ed a v)
      as [(_ & _ & Heq)|[Hok _]].
    + cbn zeta in Heq. by rewrite Heq.
    + by destruct Hok.
  - intros ds ed. unfold too_small, spec_too_small, spec_min_embedding_dim.
    split.
    + intros [Hin Hle]. split; [done|]. exists 3.
      rewrite bool_decide_eq_false_2 by (intros ->; clash).
      rewrite bool_decide_eq_true_2 by done. split; [done|lia].
    + intros [Hin (m & Hm & Hlt)]. split; [done|].
      rewrite bool_decide_eq_false_2 in Hm by (intros ->; clash).
      rewrite bool_decide_eq_true_2 in Hm by done.
      injection Hm as <-. lia.
  - intros n ed a v.
    destruct (main_synthetic_cases "s1_synthetic" n ed a v)
      as [(Hin & _ & _)|[_ Heq]]; [clash|cbn zeta in Heq; exact Heq].
Qed.

End Main.
End MainFacts.

(** ** Runs: model creation, training, output files *)

Module RunFacts.
Import Py Curvature StringFacts.

Section Monad.
Context {S : Type}.
Implicit Types (s : S).

Lemma bind_Ok {A B} (m : M S A) (k : A → M S B) s b s' :
  (m ≫= k) s = (Ok b, s') ↔
  ∃ a s1, m s = (Ok a, s1) ∧ k a s1 = (Ok b, s').
Proof.
  unfold mbind, M_bind. destruct (m s) as [[a|e] s1]; split.
  - intros Hk. by exists a, s1.
  - by intros (a' & s1' & [= -> ->] & Hk).
  - done.
  - by intros (a' & s1' & [=] & _).
Qed.

Lemma bind_run_Ok {A B} (m : M S A) (k : A → M S B) s a s1 :
  m s = (Ok a, s1) → (m ≫= k) s = k a s1.
Proof. unfold mbind, M_bind. by intros ->. Qed.

Lemma bind_run_Raise {A B} (m : M S A) (k : A → M S B) s e s1 :
  m s = (Raise e, s1) → (m ≫= k) s = (Raise e, s1).
Proof. unfold mbind, M_bind. by intros ->. Qed.

Lemma lift_Ok {A} (r : Res A) s a s' :
  lift r s = (Ok a, s') ↔ r = Ok a ∧ s' = s.
Proof. unfold lift. split; [by intros [= -> ->]|by intros [-> ->]]. Qed.

Lemma bind_lift_Ok {A B} (r : Res A) (k : A → M S B) a s :
  r = Ok a → (lift r ≫= k) s = k a s.
Proof. by intros ->. Qed.

Lemma bind_lift_Raise {A B} (r : Res A) (k : A → M S B) e s :
  r = Raise e → (lift r ≫= k) s = (Raise e, s).
Proof. by intros ->. Qed.
End Monad.

Section Models.
Context {F : Type} `{!PyFloat F, !Library F}.
Implicit Types (config : Config F) (s : State).

(** The class each tag of [posterior_type] stands for. *)
Definition vae_class (tag : string) : option ModelClass :=
  if bool_decide (tag = "gaussian") then Some NeuralVAE
  else if bool_decide (tag = "hyperspherical") then Some NeuralVAE
  else if bool_decide (tag = "toroidal") then Some ToroidalVAE
  else if bool_decide (tag = "klein_bottle") then Some KleinBottleVAE
  else None.

(** The configuration entries each constructor receives, after
    [data_dim]. *)
Definition kwarg_names (cls : ModelClass) : list string :=
  ["latent_dim"; "sftbeta"; "encoder_width"; "encoder_depth";
   "decoder_width"; "decoder_depth"; "posterior_type"]
  ++ match cls with
     | NeuralVAE => ["drop_out_p"]
     | _ => []
     end.

(** The generators right after [reset_seeds]. *)
Definition seeded (g : Generators) : Generators :=
  {| py_random := Seeded 0;
     torch_rng := Seeded 0;
     cuda_rng := if cuda_is_available then Seeded 0 else cuda_rng g |}.

(** What a constructor draws from after [reset_seeds]: nothing that
    depends on the generators before. *)
Definition seeded_init : Rng * Rng * option Rng :=
  (Seeded 0, Seeded 0,
   if cuda_is_available then Some (Seeded 0) else None).

Definition drawn (g : Generators) : Generators :=
  {| py_random := Drawn (py_random g);
     torch_rng := Drawn (torch_rng g);
     cuda_rng := Drawn (cuda_rng g) |}.

Lemma reset_seeds_run s :
  reset_seeds s
  = (Ok tt, {| generators := seeded (generators s); files := files s |}).
Proof.
  unfold reset_seeds, seeded. destruct s as [[p t c] fs].
  cbv [mbind M_bind random_seed torch_manual_seed
         torch_cuda_manual_seed_all set_generators modify generators files
         py_random torch_rng cuda_rng mret M_ret].
  by destruct cuda_is_available.
Qed.

Lemma construct_run cls kwargs s :
  construct cls kwargs s
  = (Ok {| model_class := cls; model_kwargs := kwargs;
           model_init :=
             (py_random (generators s), torch_rng (generators s),
              if cuda_is_available then Some (cuda_rng (generators s))
              else None);
           model_device := VStr "cpu" |},
     {| generators := drawn (generators s); files := files s |}).
Proof. done. Qed.

(** The model a branch of the dispatch builds. *)
Definition built (cls : ModelClass) (data_dim : Z)
    (kwargs : list (string * Val F)) (device : Val F) : Model F :=
  {| model_class := cls;
     model_kwargs := ("data_dim", VInt data_dim) :: kwargs;
     model_init := seeded_init;
     model_device := device |}.

(** One branch of the dispatch, run from any state. *)
Lemma branch_run cls (names : list string) config data_dim s :
  (reset_seeds ≫= λ _,
   lift (config_kwargs config names) ≫= λ kwargs,
   construct cls (("data_dim", VInt data_dim) :: kwargs) ≫= λ model,
   lift (getattr config "device") ≫= λ device,
   mret (Some (to model device))) s
  = match config_kwargs config names with
    | Raise e =>
        (Raise e,
         {| generators := seeded (generators s); files := files s |})
    | Ok kwargs =>
        match getattr config "device" with
        | Raise e =>
            (Raise e,
             {| generators := drawn (seeded (generators s));
                files := files s |})
        | Ok device =>
            (Ok (Some (built cls data_dim kwargs device)),
             {| generators := drawn (seeded (generators s));
                files := files s |})
        end
    end.
Proof.
  rewrite (bind_run_Ok _ _ _ _ _ (reset_seeds_run s)).
  destruct (config_kwargs config names) as [kwargs|e]; [|done].
  rewrite (bind_lift_Ok _ _ kwargs) by done.
  rewrite (bind_run_Ok _ _ _ _ _ (construct_run _ _ _)).
  destruct (getattr config "device") as [device|e]; [|done].
  rewrite (bind_lift_Ok _ _ device) by done.
  unfold built, seeded_init, to, seeded. cbn.
  by destruct cuda_is_available.
Qed.

(** The branch the dispatch takes on a value of [posterior_type]. *)
Definition dispatch (posterior_type : Val F) : option ModelClass :=
  match posterior_type with
  | VStr tag => vae_class tag
  | _ => None
  end.

Lemma dispatch_None posterior_type :
  val_in_strs posterior_type
    ["gaussian"; "hyperspherical"; "toroidal"; "klein_bottle"] = false →
  dispatch posterior_type = None.
Proof.
  destruct posterior_type as [| | | |tag]; try done.
  cbn. unfold vae_class. by repeat case_bool_decide.
Qed.

Lemma create_model_run config data_dim s :
  create_model config data_dim s
  = match getattr config "posterior_type" with
    | Raise e => (Raise e, s)
    | Ok posterior_type =>
        match dispatch posterior_type with
        | None => (Ok None, s)
        | Some cls =>
            match config_kwargs config (kwarg_names cls) with
            | Raise e =>
                (Raise e,
                 {| generators := seeded (generators s);
                    files := files s |})
            | Ok kwargs =>
                match getattr config "device" with
                | Raise e =>
                    (Raise e,
                     {| generators := drawn (seeded (generators s));
                        files := files s |})
                | Ok device =>
                    (Ok (Some (built cls data_dim kwargs device)),
                     {| generators := drawn (seeded (generators s));
                        files := files s |})
                end
            end
        end
    end.
Proof.
  unfold create_model.
  destruct (getattr config "posterior_type") as [pt|e]; [|done].
  rewrite (bind_lift_Ok _ _ pt) by done.
  destruct pt as [| | | |tag]; try done.
  cbn [dispatch val_in_strs val_eq_str existsb]. unfold vae_class.
  repeat case_bool_decide; cbn [orb]; try apply branch_run; done.
Qed.


(** C8.  When [posterior_type] is none of the four tags, no branch
    binds [model], and the read of [model] for the optimizer fails with
    [UnboundLocalError]; nothing has been seeded, constructed or
    written. *)
Theorem unknown_posterior_type_unbound_model
    config train_loader test_loader s data_dim posterior_type :
  first_data_dim train_loader = Ok data_dim →
  getattr config "posterior_type" = Ok posterior_type →
  val_in_strs posterior_type
    ["gaussian"; "hyperspherical"; "toroidal"; "klein_bottle"] = false →
  create_model config data_dim s = (Ok None, s)
  ∧ create_model_and_train_test config train_loader test_loader s
    = (Raise (UnboundLocalError "model"), s).
Proof.
  intros Hdim Hpt Htag.
  assert (create_model config data_dim s = (Ok None, s)) as Hnone.
  { rewrite create_model_run, Hpt. by rewrite dispatch_None. }
  split; [done|]. unfold create_model_and_train_test.
  rewrite (bind_lift_Ok _ _ data_dim) by done.
  by rewrite (bind_run_Ok _ _ _ _ _ Hnone).
Qed.

(** C4.  For each of the four tags the class is the one the tag stands
    for, chosen by the tag alone; the model is constructed from the
    configuration and moved to the device, an Adam optimizer is built
    over it with the configured learning rate and [amsgrad], a
    [ReduceLROnPlateau] scheduler is built exactly when
    [config.scheduler is True], and the result of the training loop is
    returned as it is. *)
Theorem create_model_and_train_test_dispatch
    config train_loader test_loader s data_dim tag kwargs device lr
    flag :
  let cls :=
    match tag with
    | "toroidal" => ToroidalVAE
    | "klein_bottle" => KleinBottleVAE
    | _ => NeuralVAE
    end in
  first_data_dim train_loader = Ok data_dim →
  getattr config "posterior_type" = Ok (VStr tag) →
  tag ∈ ["gaussian"; "hyperspherical"; "toroidal"; "klein_bottle"] →
  config_kwargs config (kwarg_names cls) = Ok kwargs →
  getattr config "device" = Ok device →
  getattr config "lr" = Ok lr →
  getattr config "scheduler" = Ok flag →
  let model := built cls data_dim kwargs device in
  let optimizer :=
    {| Adam_params := model; Adam_lr := lr; Adam_amsgrad := true |} in
  let scheduler :=
    if val_is_True flag then
      Some {| ReduceLROnPlateau_optimizer := optimizer;
              ReduceLROnPlateau_mode := "min";
              ReduceLROnPlateau_factor := f_0_5 |}
    else None in
  let trained :=
    train_train_test model train_loader test_loader optimizer scheduler
      config (drawn (seeded (generators s))) in
  model_class model = cls
  ∧ create_model_and_train_test config train_loader test_loader s
    = (Ok trained.1, {| generators := trained.2; files := files s |}).
Proof.
  intros cls Hdim Hpt Htag Hkw Hdev Hlr Hflag model optimizer scheduler
    trained.
  split; [done|].
  assert (vae_class tag = Some cls) as Hcls.
  { repeat (apply elem_of_cons in Htag as [->|Htag]); [done..|].
    by apply elem_of_nil in Htag. }
  unfold create_model_and_train_test.
  rewrite (bind_lift_Ok _ _ data_dim) by done.
  erewrite bind_run_Ok;
    [|by rewrite create_model_run, Hpt; cbn [dispatch];
         rewrite Hcls, Hkw, Hdev].
  cbn [read_local]. rewrite (bind_lift_Ok _ _ model) by done.
  rewrite (bind_lift_Ok _ _ lr) by done.
  rewrite (bind_lift_Ok _ _ flag) by done.
  unfold trained, scheduler, optimizer, model.
  cbv [mbind M_bind get generators files].
  destruct (train_train_test _ _ _ _ _ _ _) as [[[tr te] best] g].
  done.
Qed.

End Models.
End RunFacts.

(** ** The curvature profiles *)

Module ProfileFacts.
Import Py Curvature StringFacts RunFacts.

(** Comparisons of column and dataset names. *)
Ltac decide_names :=
  repeat first
    [ rewrite decide_True by done
    | rewrite decide_False by done
    | rewrite bool_decide_eq_true_2 by done
    | rewrite bool_decide_eq_false_2 by done ].

Section Profiles.
Context {F : Type} `{!PyFloat F, !Library F}.
Implicit Types (config : Config F) (s : State) (df : DataFrame F)
  (labels : list (LabelRow F)) (zs : list (Cell F)).

Lemma df_setitem_ok df name (values : list (Cell F)) :
  length values = df_rows df →
  df_setitem df name values
  = Ok {| df_rows := df_rows df;
          df_columns := upsert_column name values (df_columns df) |}.
Proof.
  intros Hlen. unfold df_setitem.
  rewrite (bool_decide_eq_true_2 (length values = df_rows df)) by done.
  destruct values as [|v values].
  - by rewrite andb_false_r.
  - rewrite bool_decide_eq_false_2; [done|]. cbn in Hlen. lia.
Qed.

(** The velocities of the labels an angular window selects. *)
Definition window (labels : list (LabelRow F)) (one_z_grid : Cell F)
    : list F :=
  velocities <$> select_labels (cell_float one_z_grid) labels.

(** The entries one grid point contributes to the five lists. *)
Definition mean_cell labels one_z_grid : Cell F :=
  CFloat (np_nanmean (window labels one_z_grid)).
Definition median_cell labels one_z_grid : Cell F :=
  CFloat (np_nanmedian (window labels one_z_grid)).
Definition std_cell labels one_z_grid : Cell F :=
  CFloat (np_nanstd (window labels one_z_grid)).
Definition min_cell labels one_z_grid : Cell F :=
  match window labels one_z_grid with
  | [] => CInt (-1)
  | vs => CFloat (nan_stat f_min vs)
  end.
Definition max_cell labels one_z_grid : Cell F :=
  match window labels one_z_grid with
  | [] => CInt (-1)
  | vs => CFloat (nan_stat f_max vs)
  end.

Definition stats_after labels (acc : VelocityStats) zs : VelocityStats :=
  {| mean_velocities := mean_velocities acc ++ (mean_cell labels <$> zs);
     median_velocities :=
       median_velocities acc ++ (median_cell labels <$> zs);
     std_velocities := std_velocities acc ++ (std_cell labels <$> zs);
     min_velocities := min_velocities acc ++ (min_cell labels <$> zs);
     max_velocities := max_velocities acc ++ (max_cell labels <$> zs) |}.

(** An iteration never fails: the extrema are only taken of a non-empty
    selection. *)
Lemma velocity_step_ok labels acc one_z_grid :
  velocity_step labels acc one_z_grid
  = Ok (stats_after labels acc [one_z_grid]).
Proof.
  unfold velocity_step, stats_after, mean_cell, median_cell, std_cell,
    min_cell, max_cell, window.
  cbn [fmap list_fmap mean_velocities median_velocities std_velocities
         min_velocities max_velocities].
  destruct (select_labels _ labels) as [|row rows] eqn:Hsel; [done|].
  rewrite bool_decide_eq_false_2 by done. done.
Qed.

Lemma velocity_loop_ok labels acc zs :
  velocity_loop labels acc zs = Ok (stats_after labels acc zs).
Proof.
  revert acc. induction zs as [|z zs IH]; intros acc; cbn [velocity_loop].
  - unfold stats_after. cbn. rewrite !app_nil_r. by destruct acc.
  - rewrite velocity_step_ok. cbn [mbind res_bind]. rewrite IH.
    unfold stats_after. cbn. by rewrite <-!(assoc_L (++)).
Qed.

(** The five columns of an experimental profile. *)
Definition velocity_columns labels zs : list (string * list (Cell F)) :=
  [("mean_velocities", mean_cell labels <$> zs);
   ("median_velocities", median_cell labels <$> zs);
   ("std_velocities", std_cell labels <$> zs);
   ("min_velocities", min_cell labels <$> zs);
   ("max_velocities", max_cell labels <$> zs)].

Lemma add_velocities_ok labels (c1 c2 zs : list (Cell F)) :
  add_velocities labels
    {| df_rows := length zs;
       df_columns :=
         [("geodesic_dist", c1); ("curv_norm_learned", c2);
          ("z_grid", zs)] |}
  = Ok {| df_rows := length zs;
          df_columns :=
            [("geodesic_dist", c1); ("curv_norm_learned", c2);
             ("z_grid", zs)]
            ++ velocity_columns labels zs |}.
Proof.
  unfold add_velocities, df_getitem. cbn. decide_names. cbn.
  rewrite velocity_loop_ok. cbn.
  repeat (rewrite df_setitem_ok by (cbn; by rewrite length_fmap);
          cbn; decide_names; cbn).
  done.
Qed.

(** *** The frames written *)

Definition grid_length (z_grid : Grid F) : nat :=
  match z_grid with
  | Grid1D zs => length zs
  | Grid2D zs => length zs
  end.

(** The datasets with a one-dimensional and with a two-dimensional
    latent space, and the fully synthetic ones. *)
Definition one_dimensional (dataset_name : string) : Prop :=
  dataset_name
  ∈ ["s1_synthetic"; "experimental"; "three_place_cells_synthetic"].
Definition two_dimensional (dataset_name : string) : Prop :=
  dataset_name ∈ ["s2_synthetic"; "t2_synthetic"; "grid_cells"].
Definition synthetic (dataset_name : string) : Prop :=
  dataset_name ∈ ["s1_synthetic"; "s2_synthetic"; "t2_synthetic"].

(** The grid has the dimension of the dataset's latent space. *)
Definition grid_fits (dataset_name : string) (z_grid : Grid F) : Prop :=
  match z_grid with
  | Grid1D _ => one_dimensional dataset_name
  | Grid2D _ => two_dimensional dataset_name
  end.

Definition coordinate_columns (z_grid : Grid F)
    : list (string * list (Cell F)) :=
  match z_grid with
  | Grid1D zs => [("z_grid", CFloat <$> zs)]
  | Grid2D zs =>
      [("z_grid_theta", (λ z, CFloat z.1) <$> zs);
       ("z_grid_phi", (λ z, CFloat z.2) <$> zs)]
  end.

(** The learned profile: one row per grid point. *)
Definition learned_profile (dataset_name : string) labels
    (z_grid : Grid F) (geodesic_dist curv_norms_learned : list F)
    : DataFrame F :=
  {| df_rows := length geodesic_dist;
     df_columns :=
       [("geodesic_dist", CFloat <$> geodesic_dist);
        ("curv_norm_learned", CFloat <$> curv_norms_learned)]
       ++ coordinate_columns z_grid
       ++ match z_grid with
          | Grid1D zs =>
              if bool_decide (dataset_name = "experimental")
              then velocity_columns labels (CFloat <$> zs)
              else []
          | Grid2D _ => []
          end |}.

(** The true profile of a synthetic dataset. *)
Definition true_profile (z_grid : Grid F)
    (geodesic_dist curv_norms_true : list F) : DataFrame F :=
  {| df_rows := length geodesic_dist;
     df_columns :=
       [("geodesic_dist", CFloat <$> geodesic_dist);
        ("curv_norm_true", CFloat <$> curv_norms_true)]
       ++ coordinate_columns z_grid |}.

Definition learned_path (dc : default_config.t F) (prefix : Val F)
    : string :=
  os_path_join (default_config.curvature_profiles_dir dc)
    (str_val prefix +:+ "_curv_norm_learned_profile.csv").
Definition true_path (dc : default_config.t F) (prefix : Val F)
    : string :=
  os_path_join (default_config.curvature_profiles_dir dc)
    (str_val prefix +:+ "_curv_norm_true_profile.csv").

Lemma write_file_run path content s :
  write_file path content s
  = (Ok tt, {| generators := generators s;
               files := files s ++ [(path, content)] |}).
Proof. done. Qed.

Lemma DataFrame_of_ok n1 n2 (c1 c2 : list (Cell F)) :
  length c1 = length c2 →
  DataFrame_of n1 c1 n2 c2
  = Ok {| df_rows := length c1; df_columns := [(n1, c1); (n2, c2)] |}.
Proof. intros ?. unfold DataFrame_of. by rewrite bool_decide_eq_true_2. Qed.

Lemma py_max_ok (xs : list F) : xs ≠ [] → py_max xs = Ok (f_max xs).
Proof. by destruct xs. Qed.

End Profiles.

(** Evaluation of the tests on a known dataset name. *)
Ltac eval_tests :=
  repeat match goal with
    | |- context [val_in_strs ?v ?l] =>
        let b := eval vm_compute in (val_in_strs v l) in
        change (val_in_strs v l) with b
    | |- context [val_eq_str ?v ?t] =>
        let b := eval vm_compute in (val_eq_str v t) in
        change (val_eq_str v t) with b
    end.

(** Evaluation of a closed decision. *)
Ltac eval_decisions :=
  repeat match goal with
    | |- context [bool_decide ?P] =>
        let b := eval vm_compute in (bool_decide P) in
        change (bool_decide P) with b
    end.

(** A membership in a list of known names. *)
Ltac eval_elem :=
  match goal with
  | |- ?x ∈ ?l => apply (bool_decide_unpack (x ∈ l)); vm_compute; exact I
  end.

(** The cases of a membership in a list of names. *)
Ltac name_cases H :=
  repeat (apply elem_of_cons in H as [->|H]);
  [..|by apply elem_of_nil in H].

(** A membership in a list of known names that does not hold. *)
Ltac no_elem H :=
  unfold synthetic, one_dimensional, two_dimensional in H;
  apply (bool_decide_pack _) in H; by vm_compute in H.

Section Persisted.
Context {F : Type} `{!PyFloat F, !Library F}.
Implicit Types (config : Config F) (s : State) (df : DataFrame F)
  (labels : list (LabelRow F)).

(** The frame computations of [curvature_compute_plot_log] on a known
    dataset name and grid. *)
Local Ltac frame :=
  cbn [grid_column grid_slice mbind res_bind];
  repeat (rewrite df_setitem_ok by (cbn; rewrite !length_fmap; congruence);
          cbn; decide_names; cbn);
  rewrite ?length_fmap.

Lemma curvature_compute_plot_log_run dc config dataset labels model s
    embedding_dim n_grid_points dataset_name results_prefix
    z_grid geodesic_dist curv_norms_learned
    z_grid' geodesic_dist' curv_norms_true :
  shape_1 dataset = Ok embedding_dim →
  getattr config "n_grid_points" = Ok n_grid_points →
  getattr config "dataset_name" = Ok (VStr dataset_name) →
  getattr config "results_prefix" = Ok results_prefix →
  evaluate_compute_curvature_learned model config embedding_dim
    n_grid_points = (z_grid, geodesic_dist, curv_norms_learned) →
  grid_fits dataset_name z_grid →
  length geodesic_dist = grid_length z_grid →
  length curv_norms_learned = grid_length z_grid →
  evaluate_compute_curvature_true config n_grid_points
  = (z_grid', geodesic_dist', curv_norms_true) →
  (synthetic dataset_name →
   grid_fits dataset_name z_grid'
   ∧ length geodesic_dist' = grid_length z_grid'
   ∧ length curv_norms_true = grid_length z_grid'
   ∧ curv_norms_true ≠ []) →
  curvature_compute_plot_log dc config dataset labels model s
  = (Ok tt,
     {| generators := generators s;
        files :=
          files s
          ++ [(learned_path dc results_prefix,
               CsvFile (learned_profile dataset_name labels z_grid
                          geodesic_dist curv_norms_learned))]
          ++ if bool_decide (synthetic dataset_name) then
               [(true_path dc results_prefix,
                 CsvFile (true_profile z_grid' geodesic_dist'
                            curv_norms_true))]
             else [] |}).
Proof.
  intros Hshape Hn Hds Hprefix Hlearned Hfit Hgd Hcn Htrue Hsyn.
  unfold curvature_compute_plot_log.
  rewrite (bind_lift_Ok _ _ _ _ Hshape), (bind_lift_Ok _ _ _ _ Hn).
  rewrite Hlearned.
  erewrite bind_lift_Ok
    by (apply DataFrame_of_ok; rewrite !length_fmap; congruence).
  rewrite (bind_lift_Ok _ _ _ _ Hds).
  unfold learned_profile, true_profile, learned_path, true_path, synthetic
    in *.
  destruct z_grid as [zs|zs]; cbn in Hfit, Hgd, Hcn;
    unfold one_dimensional, two_dimensional in Hfit; name_cases Hfit;
    eval_tests.
  all: erewrite bind_lift_Ok by (frame; reflexivity).
  all: eval_tests.
  all: erewrite bind_lift_Ok
         by first [ reflexivity
                  | rewrite Hgd, <-(length_fmap CFloat zs);
                    rewrite add_velocities_ok, length_fmap; reflexivity ].
  all: rewrite (bind_lift_Ok _ _ _ _ Hprefix).
  all: erewrite bind_run_Ok by apply write_file_run.
  all: eval_tests; eval_decisions.
  all: try (cbn; by rewrite ?Hgd).
  all: rewrite (bind_lift_Ok _ _ _ _ Hn), Htrue.
  all: destruct Hsyn as (Hfit' & Hgd' & Hcn' & Hne); [eval_elem|].
  all: rewrite (bind_lift_Ok _ _ _ _ (py_max_ok _ Hne)).
  all: erewrite bind_lift_Ok
         by (apply DataFrame_of_ok; rewrite !length_fmap; congruence).
  all: destruct z_grid' as [zs'|zs']; cbn in Hfit', Hgd', Hcn';
         unfold one_dimensional, two_dimensional in Hfit';
         try no_elem Hfit'.
  all: eval_tests.
  all: erewrite bind_lift_Ok by (frame; reflexivity).
  all: rewrite (bind_lift_Ok _ _ _ _ Hprefix), write_file_run.
  all: cbn; rewrite <-?(assoc_L (++)); try done.
Qed.

(** The cell of column [name] in row [i]. *)
Definition cell df (name : string) (i : nat) : option (Cell F) :=
  match df_getitem df name with
  | Ok column => column !! i
  | Raise _ => None
  end.

(** C6.  When the curvature routine returns one distance and one
    curvature norm per point of a grid of the dataset's dimension, the
    learned profile is written as a CSV file with one row per grid
    point and the columns [geodesic_dist], [curv_norm_learned] and
    [z_grid] (one-dimensional datasets) or [z_grid_theta], [z_grid_phi]
    (two-dimensional datasets); for the three synthetic datasets the
    true profile is written after it, in the same form, with the column
    [curv_norm_true]; for the other datasets nothing else is
    written. *)
Theorem curvature_profiles_persisted dc config dataset labels model s
    embedding_dim n_grid_points dataset_name results_prefix
    z_grid geodesic_dist curv_norms_learned
    z_grid' geodesic_dist' curv_norms_true :
  shape_1 dataset = Ok embedding_dim →
  getattr config "n_grid_points" = Ok n_grid_points →
  getattr config "dataset_name" = Ok (VStr dataset_name) →
  getattr config "results_prefix" = Ok results_prefix →
  evaluate_compute_curvature_learned model config embedding_dim
    n_grid_points = (z_grid, geodesic_dist, curv_norms_learned) →
  grid_fits dataset_name z_grid →
  length geodesic_dist = grid_length z_grid →
  length curv_norms_learned = grid_length z_grid →
  evaluate_compute_curvature_true config n_grid_points
  = (z_grid', geodesic_dist', curv_norms_true) →
  (synthetic dataset_name →
   grid_fits dataset_name z_grid'
   ∧ length geodesic_dist' = grid_length z_grid'
   ∧ length curv_norms_true = grid_length z_grid'
   ∧ curv_norms_true ≠ []) →
  ∃ learned written,
    curvature_compute_plot_log dc config dataset labels model s
    = (Ok tt,
       {| generators := generators s;
          files :=
            files s ++ [(learned_path dc results_prefix, CsvFile learned)]
            ++ written |})
    ∧ df_rows learned = grid_length z_grid
    ∧ df_getitem learned "geodesic_dist" = Ok (CFloat <$> geodesic_dist)
    ∧ df_getitem learned "curv_norm_learned"
      = Ok (CFloat <$> curv_norms_learned)
    ∧ (∀ zs, z_grid = Grid1D zs →
         one_dimensional dataset_name
         ∧ df_getitem learned "z_grid" = Ok (CFloat <$> zs))
    ∧ (∀ zs, z_grid = Grid2D zs →
         two_dimensional dataset_name
         ∧ df_getitem learned "z_grid_theta" = Ok (CFloat <$> zs.*1)
         ∧ df_getitem learned "z_grid_phi" = Ok (CFloat <$> zs.*2))
    ∧ (¬ synthetic dataset_name → written = [])
    ∧ (synthetic dataset_name →
       ∃ truth,
         written = [(true_path dc results_prefix, CsvFile truth)]
         ∧ df_rows truth = grid_length z_grid'
         ∧ df_getitem truth "geodesic_dist"
           = Ok (CFloat <$> geodesic_dist')
         ∧ df_getitem truth "curv_norm_true"
           = Ok (CFloat <$> curv_norms_true)
         ∧ (∀ zs, z_grid' = Grid1D zs →
              df_getitem truth "z_grid" = Ok (CFloat <$> zs))
         ∧ (∀ zs, z_grid' = Grid2D zs →
              df_getitem truth "z_grid_theta" = Ok (CFloat <$> zs.*1)
              ∧ df_getitem truth "z_grid_phi"
                = Ok (CFloat <$> zs.*2))).
Proof.
  intros Hshape Hn Hds Hprefix Hlearned Hfit Hgd Hcn Htrue Hsyn.
  eexists _, _. split.
  { by eapply curvature_compute_plot_log_run. }
  unfold learned_profile, true_profile, df_getitem.
  cbn [df_rows df_columns]. repeat split.
  - done.
  - by subst.
  - subst. cbn. by decide_names.
  - by subst.
  - subst. cbn. decide_names. cbn. by rewrite <-list_fmap_compose.
  - subst. cbn. decide_names. cbn. by rewrite <-list_fmap_compose.
  - intros Hnot. by rewrite bool_decide_eq_false_2.
  - intros Hin. destruct (Hsyn Hin) as (Hfit' & Hgd' & Hcn' & _).
    eexists. rewrite bool_decide_eq_true_2 by done.
    split; [done|]. cbn [df_rows df_columns]. repeat split.
    + done.
    + intros zs ->. cbn. by decide_names.
    + subst. cbn. decide_names. cbn. by rewrite <-list_fmap_compose.
    + subst. cbn. decide_names. cbn. by rewrite <-list_fmap_compose.
Qed.

(** C10.  In the learned profile of an experimental dataset, a grid
    point whose angular window selects no label has the sentinel [-1] in
    [min_velocities] and [max_velocities], while its [mean_velocities],
    [median_velocities] and [std_velocities] are the statistics of the
    empty selection, which are [nan]. *)
Theorem empty_window_sentinel dc config dataset labels model s
    embedding_dim n_grid_points results_prefix
    zs geodesic_dist curv_norms_learned :
  shape_1 dataset = Ok embedding_dim →
  getattr config "n_grid_points" = Ok n_grid_points →
  getattr config "dataset_name" = Ok (VStr "experimental") →
  getattr config "results_prefix" = Ok results_prefix →
  evaluate_compute_curvature_learned model config embedding_dim
    n_grid_points = (Grid1D zs, geodesic_dist, curv_norms_learned) →
  length geodesic_dist = length zs →
  length curv_norms_learned = length zs →
  ∃ profile,
    curvature_compute_plot_log dc config dataset labels model s
    = (Ok tt,
       {| generators := generators s;
          files :=
            files s
            ++ [(learned_path dc results_prefix, CsvFile profile)] |})
    ∧ ∀ i one_z_grid,
        zs !! i = Some one_z_grid →
        select_labels one_z_grid labels = [] →
        cell profile "z_grid" i = Some (CFloat one_z_grid)
        ∧ cell profile "min_velocities" i = Some (CInt (-1))
        ∧ cell profile "max_velocities" i = Some (CInt (-1))
        ∧ cell profile "mean_velocities" i = Some (CFloat (np_nanmean []))
        ∧ cell profile "median_velocities" i
          = Some (CFloat (np_nanmedian []))
        ∧ cell profile "std_velocities" i = Some (CFloat (np_nanstd []))
        ∧ np_nanmean [] = f_nan
        ∧ np_nanmedian [] = f_nan
        ∧ np_nanstd [] = f_nan.
Proof.
  intros Hshape Hn Hds Hprefix Hlearned Hgd Hcn.
  destruct (evaluate_compute_curvature_true config n_grid_points)
    as [[z_grid' geodesic_dist'] curv_norms_true] eqn:Htrue.
  eexists. split.
  { erewrite curvature_compute_plot_log_run; try done.
    - by rewrite bool_decide_eq_false_2 by (intros Hin; no_elem Hin).
    - cbn. unfold one_dimensional. eval_elem.
    - intros Hin. no_elem Hin. }
  intros i one_z_grid Hi Hsel.
  assert (window labels (CFloat one_z_grid) = []) as Hwin.
  { unfold window. cbn [cell_float]. by rewrite Hsel. }
  unfold cell, learned_profile, df_getitem.
  repeat (progress
            (cbn -[mean_cell median_cell std_cell min_cell max_cell];
             decide_names)).
  rewrite !list_lookup_fmap, Hi.
  cbn -[mean_cell median_cell std_cell min_cell max_cell].
  unfold min_cell, max_cell, mean_cell, median_cell, std_cell.
  rewrite Hwin. done.
Qed.

End Persisted.
End ProfileFacts.

(** ** Run names and output paths *)

Module NamingFacts.
Import Py Curvature StringFacts RunFacts ProfileFacts.

Section Paths.
Context {F : Type} `{!PyFloat F, !Library F}.
Implicit Types (config : Config F) (s : State) (dc : default_config.t F).

(** The paths of a run, as functions of its name. *)
Definition config_path dc (run_name : string) : string :=
  os_path_join (default_config.configs_dir dc) (run_name +:+ ".json").
Definition model_path dc (prefix : Val F) : string :=
  os_path_join (default_config.trained_models_dir dc)
    (str_val prefix +:+ "_model.pt").
Definition model_state_dict_path dc (prefix : Val F) : string :=
  os_path_join (default_config.trained_models_dir dc)
    (str_val prefix +:+ "_model_state_dict.pth").

(** A run name never starts with the path separator, so joining it to
    a directory keeps the directory. *)
Lemma os_path_join_run_name dir run_id sweep_name ext :
  os_path_join dir (make_run_name run_id sweep_name +:+ ext)
  = (if bool_decide (dir = "") || endswith_sep dir then dir
     else dir +:+ "/")
    +:+ make_run_name run_id sweep_name +:+ ext.
Proof.
  unfold os_path_join, make_run_name.
  change (startswith_sep _) with false. cbv iota.
  destruct (bool_decide (dir = "") || endswith_sep dir); [done|].
  by rewrite !app_assoc.
Qed.

Lemma os_path_join_inj dir id1 sweep1 id2 sweep2 ext :
  os_path_join dir (make_run_name id1 sweep1 +:+ ext)
  = os_path_join dir (make_run_name id2 sweep2 +:+ ext) →
  make_run_name id1 sweep1 = make_run_name id2 sweep2.
Proof.
  rewrite !os_path_join_run_name.
  intros Heq%(inj (String.app _)). by apply app_inj_r in Heq.
Qed.

Lemma training_plot_log_run dc config (model : Trained) s prefix :
  getattr config "results_prefix" = Ok prefix →
  training_plot_log dc config model s
  = (Ok tt,
     {| generators := generators s;
        files :=
          files s
          ++ [(model_path dc prefix, TorchFile model);
              (model_state_dict_path dc prefix, TorchStateDict model)] |}).
Proof.
  intros Hprefix. unfold training_plot_log.
  rewrite (bind_lift_Ok _ _ _ _ Hprefix).
  erewrite bind_run_Ok by apply write_file_run.
  rewrite (bind_lift_Ok _ _ _ _ Hprefix), write_file_run.
  cbn. by rewrite <-(assoc_L (++)).
Qed.

Lemma training_plot_log_Ok dc config (model : Trained) s r s' :
  training_plot_log dc config model s = (Ok r, s') →
  ∃ prefix,
    getattr config "results_prefix" = Ok prefix
    ∧ generators s' = generators s
    ∧ files s'
      = files s
        ++ [(model_path dc prefix, TorchFile model);
            (model_state_dict_path dc prefix, TorchStateDict model)].
Proof.
  destruct (getattr config "results_prefix") as [prefix|e] eqn:Hprefix.
  - rewrite (training_plot_log_run _ _ _ _ _ Hprefix).
    intros [= <- <-]. by exists prefix.
  - unfold training_plot_log. by rewrite (bind_lift_Raise _ _ e).
Qed.

(** Model creation and training write no file. *)
Lemma create_model_files config data_dim s :
  files (create_model config data_dim s).2 = files s.
Proof.
  rewrite create_model_run.
  destruct (getattr config "posterior_type") as [pt|e]; [|done].
  destruct (dispatch pt) as [cls|]; [|done].
  destruct (config_kwargs config (kwarg_names cls)) as [kwargs|e]; [|done].
  by destruct (getattr config "device").
Qed.

Lemma create_model_and_train_test_Ok config train_loader test_loader
    s r s' :
  create_model_and_train_test config train_loader test_loader s
  = (Ok r, s') →
  files s' = files s.
Proof.
  unfold create_model_and_train_test.
  intros (data_dim & s1 & [_ ->]%lift_Ok & H)%bind_Ok.
  apply bind_Ok in H as (binding & s2 & Hcreate & H).
  pose proof (create_model_files config data_dim s) as Hfiles.
  rewrite Hcreate in Hfiles. cbn in Hfiles.
  apply bind_Ok in H as (model & s3 & [_ ->]%lift_Ok & H).
  apply bind_Ok in H as (lr & s3 & [_ ->]%lift_Ok & H).
  apply bind_Ok in H as (flag & s3 & [_ ->]%lift_Ok & H).
  cbv [mbind M_bind get] in H.
  destruct (train_train_test _ _ _ _ _ _ _) as [[[tr te] best] g].
  cbn in H. by injection H as _ <-.
Qed.

(** What a completed [curvature_compute_plot_log] has written. *)
Lemma curvature_compute_plot_log_Ok dc config dataset labels
    (model : Trained) s r s' :
  curvature_compute_plot_log dc config dataset labels model s
  = (Ok r, s') →
  ∃ prefix learned written,
    getattr config "results_prefix" = Ok prefix
    ∧ files s'
      = files s ++ [(learned_path dc prefix, CsvFile learned)] ++ written
    ∧ (written = []
       ∨ ∃ truth, written = [(true_path dc prefix, CsvFile truth)]).
Proof.
  unfold curvature_compute_plot_log.
  intros (ed & s1 & [_ ->]%lift_Ok & H)%bind_Ok.
  apply bind_Ok in H as (n & s1 & [_ ->]%lift_Ok & H).
  destruct (evaluate_compute_curvature_learned _ _ _ _) as [[zg gd] cn].
  apply bind_Ok in H as (p0 & s1 & [_ ->]%lift_Ok & H).
  apply bind_Ok in H as (ds & s1 & [_ ->]%lift_Ok & H).
  apply bind_Ok in H as (p1 & s1 & [_ ->]%lift_Ok & H).
  apply bind_Ok in H as (p2 & s1 & [_ ->]%lift_Ok & H).
  apply bind_Ok in H as (prefix & s1 & [Hprefix ->]%lift_Ok & H).
  apply bind_Ok in H as ([] & s1 & Hw & H).
  rewrite write_file_run in Hw. injection Hw as <-.
  exists prefix, p2.
  destruct (val_in_strs ds _).
  - apply bind_Ok in H as (n' & s1 & [_ ->]%lift_Ok & H).
    destruct (evaluate_compute_curvature_true _ _) as [[zg' gd'] cn'].
    apply bind_Ok in H as (mx & s1 & [_ ->]%lift_Ok & H).
    apply bind_Ok in H as (t0 & s1 & [_ ->]%lift_Ok & H).
    apply bind_Ok in H as (t1 & s1 & [_ ->]%lift_Ok & H).
    apply bind_Ok in H as (prefix' & s1 & [Hprefix' ->]%lift_Ok & H).
    rewrite write_file_run in H. injection H as _ <-.
    rewrite Hprefix in Hprefix'. injection Hprefix' as <-.
    eexists. cbn. rewrite <-(assoc_L (++)). split; [done|].
    split; [done|]. right. by eexists.
  - injection H as _ <-. exists []. cbn. auto.
Qed.

(** The configuration [main_run] completes stores the run name under
    [run_name] and [results_prefix]. *)
Lemma completed_config_names (run_name : string) (n d : Z) config :
  let completed :=
    update
      (<["run_name" := VStr run_name]>
         (<["results_prefix" := VStr run_name]>
            (<["data_n_times" := VInt n]>
               (<["data_dim" := VInt d]> ∅))))
      config in
  completed !! "run_name" = Some (VStr run_name)
  ∧ getattr completed "results_prefix" = Ok (VStr run_name).
Proof.
  cbn zeta. unfold update, getattr. split.
  - erewrite lookup_union_Some_l; [done|]. by simplify_map_eq.
  - erewrite lookup_union_Some_l; [done|]. by simplify_map_eq.
Qed.

(** C2, as the code has it.  The run name is ["run_"], the run id of
    the tracking service, ["_"] and the sweep name.  A completed run has
    stored it in its configuration under [run_name] and
    [results_prefix] and has written, in this order, the JSON
    configuration, the two model files, the learned profile and, for
    the synthetic datasets, the true profile, each at a path that is a
    function of the run name and of the output directories alone.  Each
    of these paths is injective in the run name: two runs write to the
    same path exactly when they have the same run name, whatever else
    their configurations hold.  Run names are in turn injective in the
    run id and the sweep name as long as run ids contain no
    underscore. *)
Theorem run_outputs_named_by_run_name dc fixed_config sweep_name run_id
    wandb_config sweep_config s r s' :
  main_run dc fixed_config sweep_name run_id wandb_config sweep_config s
  = (Ok r, s') →
  let run_name := make_run_name run_id sweep_name in
  ∃ config model learned written,
    config !! "run_name" = Some (VStr run_name)
    ∧ config !! "results_prefix" = Some (VStr run_name)
    ∧ files s'
      = files s
        ++ [(config_path dc run_name, JsonFile config);
            (model_path dc (VStr run_name), TorchFile model);
            (model_state_dict_path dc (VStr run_name),
             TorchStateDict model);
            (learned_path dc (VStr run_name), CsvFile learned)]
        ++ written
    ∧ (written = []
       ∨ ∃ truth,
           written = [(true_path dc (VStr run_name), CsvFile truth)])
    ∧ ∀ run_id' sweep_name',
        let run_name' := make_run_name run_id' sweep_name' in
        (config_path dc run_name' = config_path dc run_name
         ↔ run_name' = run_name)
        ∧ (model_path dc (VStr run_name') = model_path dc (VStr run_name)
           ↔ run_name' = run_name)
        ∧ (model_state_dict_path dc (VStr run_name')
           = model_state_dict_path dc (VStr run_name)
           ↔ run_name' = run_name)
        ∧ (learned_path dc (VStr run_name')
           = learned_path dc (VStr run_name)
           ↔ run_name' = run_name)
        ∧ (true_path dc (VStr run_name') = true_path dc (VStr run_name)
           ↔ run_name' = run_name)
        ∧ (occurs "_" run_id = false → occurs "_" run_id' = false →
           run_name' = run_name
           ↔ run_id' = run_id ∧ sweep_name' = sweep_name).
Proof.
  intros H run_name. unfold main_run in H.
  apply bind_Ok in H as ([[[dataset labels] tl] te] & s1
                         & [_ ->]%lift_Ok & H).
  apply bind_Ok in H as ([n d] & s1 & [_ ->]%lift_Ok & H).
  apply bind_Ok in H as ([] & s1 & Hw & H).
  rewrite write_file_run in Hw. injection Hw as <-.
  apply bind_Ok in H as (device & s1 & [_ ->]%lift_Ok & H).
  apply bind_Ok in H as ([[tr ts] model] & s2 & Htrain & H).
  apply create_model_and_train_test_Ok in Htrain. cbn in Htrain.
  apply bind_Ok in H as ([] & s3 & Hplot & H).
  apply bind_Ok in H as ([] & s4 & Hcurv & H).
  injection H as _ <-.
  subst run_name.
  destruct (completed_config_names (make_run_name run_id sweep_name) n d
              (update sweep_config (update fixed_config wandb_config)))
    as [Hname Hprefix].
  match type of Hplot with
  | training_plot_log _ ?c _ _ = _ => set (config := c) in *
  end.
  apply training_plot_log_Ok in Hplot as (p & Hp & _ & Hfiles3).
  rewrite Hprefix in Hp. injection Hp as <-.
  apply curvature_compute_plot_log_Ok in Hcurv
    as (p & learned & written & Hp & Hfiles4 & Hwritten).
  rewrite Hprefix in Hp. injection Hp as <-.
  exists config, model, learned, written.
  split; [done|]. split.
  { unfold getattr in Hprefix. by destruct (config !! "results_prefix")
      as [v|]; simplify_eq. }
  split.
  { rewrite Hfiles4, Hfiles3, Htrain. cbn.
    by rewrite <-!(assoc_L (++)). }
  split; [done|].
  intros run_id' sweep_name' run_name'.
  unfold config_path, model_path, model_state_dict_path, learned_path,
    true_path, run_name'. cbn [str_val].
  do 5 (split; [split; [apply os_path_join_inj|by intros ->]|]).
  intros Hid Hid'. split; [|by intros [-> ->]].
  unfold make_run_name. intros Heq%(inj (String.app "run_")).
  by apply (split_first "_") in Heq as [-> ->].
Qed.

End Paths.
End NamingFacts.

(** ** dimension.py: shapes, order and the library calls made *)

Module DimensionFacts.
Import Py Dimension RunFacts.

Section Estimation.
Context {F : Type} `{!PyFloat F, !Library F}.
Implicit Types (s : State) (estimates : list (list F))
  (method : Estimator).

(** A [rows] by [cols] array. *)
Definition has_shape (rows cols : nat) estimates : Prop :=
  length estimates = rows ∧ Forall (λ row, length row = cols) estimates.

Lemma has_shape_set_entry rows cols estimates i j v :
  has_shape rows cols estimates →
  has_shape rows cols (set_entry estimates i j v).
Proof.
  intros [Hrows Hcols]. unfold set_entry. split.
  - by rewrite length_alter.
  - apply Forall_alter; [done|]. intros row _ Hrow.
    by rewrite length_insert.
Qed.

Lemma np_zeros_shape rows cols :
  0 ≤ cols →
  ∃ estimates,
    np_zeros rows cols = Ok estimates
    ∧ has_shape rows (Z.to_nat cols) estimates.
Proof.
  intros Hcols. unfold np_zeros.
  rewrite bool_decide_eq_false_2 by lia. eexists. split; [done|].
  split; [by rewrite length_replicate|].
  apply Forall_replicate. by rewrite length_replicate.
Qed.

(** What the generation for one dimension produced. *)
Record Generated := {
  gen_dim : Z;
  gen_points : Points;
  gen_manifold : Manifold;
}.

(** The library calls for one (method, dimension) pair: the points and
    the neural manifold are generated once, then the estimator is
    fitted [num_trials] times to that manifold. *)
Definition pair_calls (method_name : string) (num_points : Z)
    (num_trials : nat) (g : Generated) : list Event :=
  [GeneratePoints (gen_dim g) num_points (gen_points g);
   GenerateManifold (gen_points g) (gen_manifold g)]
  ++ replicate num_trials (Fit method_name (gen_manifold g)).

(** The library calls for one method. *)
Definition method_calls (num_points : Z) (num_trials : nat)
    (m : string * list Generated) : list Event :=
  concat (pair_calls m.1 num_points num_trials <$> m.2).

Lemma call_run {A} (f : World → A * World) (ev : A → option Event) s :
  call f ev s
  = (Ok (f (world s)).1,
     {| world := (f (world s)).2;
        log := log s ++ option_list (ev (f (world s)).1) |}).
Proof. unfold call. by destruct (f (world s)). Qed.

Lemma trial_loop_run method_name neural_manifold dim_idx trials
    method estimates s rows cols :
  has_shape rows cols estimates →
  ∃ method' estimates' w,
    trial_loop method_name neural_manifold dim_idx trials
      (method, estimates) s
    = (Ok (method', estimates'),
       {| world := w;
          log := log s ++ replicate (length trials)
                            (Fit method_name neural_manifold) |})
    ∧ has_shape rows cols estimates'.
Proof.
  revert method estimates s.
  induction trials as [|trial_idx trials IH]; intros method estimates s Hs.
  - exists method, estimates, (world s). cbn.
    rewrite app_nil_r. by destruct s.
  - cbn [trial_loop].
    erewrite bind_run_Ok by apply call_run.
    edestruct IH as (method' & estimates' & w & -> & Hs');
      [by apply has_shape_set_entry|].
    exists method', estimates', w. split; [|done].
    cbn. by rewrite <-(assoc_L (++)).
Qed.

Lemma dimension_loop_run point_generator method_name
    num_trials num_points num_neurons poisson_multiplier ref_frequency
    dim_idx dimensions method estimates s rows :
  has_shape rows (Z.to_nat num_trials) estimates →
  ∃ generated method' estimates' w,
    dimension_loop point_generator method_name num_trials num_points
      num_neurons poisson_multiplier ref_frequency dim_idx dimensions
      (method, estimates) s
    = (Ok (method', estimates'),
       {| world := w;
          log := log s
                 ++ method_calls num_points (Z.to_nat num_trials)
                      (method_name, generated) |})
    ∧ gen_dim <$> generated = dimensions
    ∧ has_shape rows (Z.to_nat num_trials) estimates'.
Proof.
  revert dim_idx method estimates s.
  induction dimensions as [|dim dimensions IH];
    intros dim_idx method estimates s Hs.
  - exists [], method, estimates, (world s). cbn.
    rewrite app_nil_r. by destruct s.
  - cbn [dimension_loop].
    erewrite bind_run_Ok by apply call_run.
    erewrite bind_run_Ok by apply call_run.
    cbn [world log option_list].
    set (points := (point_generator dim num_points (world s)).1).
    set (w1 := (point_generator dim num_points (world s)).2).
    set (made := synthetic_neural_manifold points num_neurons "sigmoid"
                   poisson_multiplier ref_frequency (gs_ones num_neurons)
                   w1).
    edestruct (trial_loop_run method_name made.1 dim_idx
                 (seq 0 (Z.to_nat num_trials)) method estimates)
      as (method1 & estimates1 & w2 & Htrials & Hs1); [done|].
    erewrite bind_run_Ok by apply Htrials.
    edestruct IH as (generated & method' & estimates' & w & -> & Hdims
                     & Hs'); [done|].
    exists ({| gen_dim := dim; gen_points := points;
               gen_manifold := made.1 |} :: generated),
      method', estimates', w.
    split; [|split; [by rewrite fmap_cons, Hdims|done]].
    unfold method_calls, pair_calls. cbn.
    rewrite length_seq. by rewrite <-!(assoc_L (++)).
Qed.

Lemma module_getattr_Ok {A} (module : list (string * A)) name :
  name ∈ module.*1 → ∃ a, module_getattr module name = Ok a.
Proof.
  intros Hin. unfold module_getattr.
  apply list_elem_of_fmap in Hin as ([n a] & -> & Hin).
  destruct (list_find (λ p, p.1 = (n, a).1) module)
    as [[i [n' a']]|] eqn:Hfind; [by eexists|].
  apply list_find_None in Hfind.
  rewrite Forall_forall in Hfind. by destruct (Hfind _ Hin).
Qed.

Lemma method_loop_run point_generator dimensions
    num_trials num_points num_neurons poisson_multiplier ref_frequency
    methods (id_estimates : gmap string (list (list F))) s :
  0 ≤ num_trials →
  Forall (λ name, name ∈ skdim_id.*1) methods →
  map_Forall
    (λ _, has_shape (length dimensions) (Z.to_nat num_trials))
    id_estimates →
  ∃ calls id_estimates' w,
    method_loop point_generator dimensions num_trials num_points
      num_neurons poisson_multiplier ref_frequency methods id_estimates s
    = (Ok id_estimates',
       {| world := w;
          log := log s
                 ++ concat (method_calls num_points (Z.to_nat num_trials)
                            <$> calls) |})
    ∧ calls.*1 = methods
    ∧ Forall (λ m, gen_dim <$> m.2 = dimensions) calls
    ∧ dom id_estimates' = list_to_set methods ∪ dom id_estimates
    ∧ map_Forall
        (λ _, has_shape (length dimensions) (Z.to_nat num_trials))
        id_estimates'.
Proof.
  intros Htrials. revert id_estimates s.
  induction methods as [|method_name methods IH];
    intros id_estimates s Hmethods Hshapes.
  - exists [], id_estimates, (world s). cbn.
    rewrite app_nil_r. destruct s.
    split; [done|]. split; [done|]. split; [done|]. split; [|done].
    by rewrite (left_id_L ∅ (∪)).
  - apply Forall_cons in Hmethods as [Hname Hmethods].
    cbn [method_loop].
    destruct (module_getattr_Ok _ _ Hname) as [method Hmethod].
    rewrite (bind_lift_Ok _ _ _ _ Hmethod).
    destruct (np_zeros_shape (length dimensions) num_trials Htrials)
      as (zeros & Hzeros & Hshape).
    rewrite (bind_lift_Ok _ _ _ _ Hzeros).
    edestruct (dimension_loop_run point_generator method_name num_trials
                 num_points num_neurons poisson_multiplier ref_frequency
                 0 dimensions method zeros s)
      as (generated & method' & estimates & w1 & Hloop & Hdims & Hest);
      [done|].
    erewrite bind_run_Ok by apply Hloop.
    edestruct (IH (<[method_name := estimates]> id_estimates))
      as (calls & id_estimates' & w & -> & Hnames & Hgen & Hdom & Hall);
      [done|by apply map_Forall_insert_2|].
    exists ((method_name, generated) :: calls), id_estimates', w.
    split; [|split; [|split; [|split]]].
    + cbn. by rewrite <-(assoc_L (++)).
    + by rewrite fmap_cons, Hnames.
    + by apply Forall_cons.
    + rewrite Hdom, dom_insert_L, list_to_set_cons.
      by rewrite (assoc_L (∪)), (comm_L (∪) (list_to_set methods)).
    + done.
Qed.

(** The estimator names a call asks for. *)
Definition requested (methods : Methods) : list string :=
  match methods with
  | AllMethods => all_methods
  | MethodList names => names
  end.

(** Every name asked for is an attribute of [skdim.id]. *)
Definition available (methods : Methods) : Prop :=
  Forall (λ name, name ∈ skdim_id.*1) (requested methods).

Lemma all_methods_available : available AllMethods.
Proof.
  unfold available, requested, all_methods. apply Forall_forall.
  by intros name [_ Hin]%list_elem_of_filter.
Qed.

Lemma skdim_dimension_estimation_run methods dimensions manifold_type
    num_trials num_points num_neurons poisson_multiplier ref_frequency s :
  manifold_type ∈ synthetic_generators.*1 →
  f_is_zero (f_mul ref_frequency poisson_multiplier) = false →
  0 ≤ num_trials →
  available methods →
  ∃ calls id_estimates w,
    skdim_dimension_estimation methods dimensions manifold_type
      num_trials num_points num_neurons poisson_multiplier ref_frequency s
    = (Ok (id_estimates,
           f_sqrt (f_div f_one (f_mul ref_frequency poisson_multiplier))),
       {| world := w;
          log := log s
                 ++ concat (method_calls num_points (Z.to_nat num_trials)
                            <$> calls) |})
    ∧ calls.*1 = requested methods
    ∧ Forall (λ m, gen_dim <$> m.2 = dimensions) calls
    ∧ dom id_estimates = list_to_set (requested methods)
    ∧ map_Forall
        (λ _, has_shape (length dimensions) (Z.to_nat num_trials))
        id_estimates.
Proof.
  intros Hgen Hzero Htrials Havail. unfold skdim_dimension_estimation.
  destruct (module_getattr_Ok _ _ Hgen) as [point_generator Hpg].
  rewrite (bind_lift_Ok _ _ _ _ Hpg).
  unfold py_inverse. rewrite Hzero.
  rewrite (bind_lift_Ok _ _ _ _ eq_refl).
  edestruct (method_loop_run point_generator dimensions num_trials
               num_points num_neurons poisson_multiplier ref_frequency
               (requested methods) ∅ s)
    as (calls & id_estimates & w & Hloop & Hnames & Hdims & Hdom & Hall);
    [done|done|apply map_Forall_empty|].
  fold (requested methods).
  erewrite bind_run_Ok by apply Hloop.
  exists calls, id_estimates, w.
  split; [done|]. split; [done|]. split; [done|]. split; [|done].
  by rewrite Hdom, dom_empty_L, (right_id_L ∅ (∪)).
Qed.

(** The score and the projection the two evaluation functions compute
    for one value of [K]. *)
Definition pls_score (X Y : Data) (K : Z) : F :=
  let '(X_train, X_test, Y_train, Y_test) :=
    train_test_split X Y f_0_2 42 in
  let pls := PLSRegression_fit K X_train Y_train in
  r2_score Y_test
    (predict (MultiOutputRegressor_fit (transform pls X_train) Y_train)
       (transform pls X_test))
    "uniform_average".
Definition pls_projection (X Y : Data) (K : Z) : Data :=
  let '(X_train, X_test, Y_train, Y_test) :=
    train_test_split X Y f_0_2 42 in
  transform (PLSRegression_fit K X_train Y_train) X.
Definition pca_score (X Y : Data) (K : Z) : F :=
  let '(X_train, X_test, Y_train, Y_test) :=
    train_test_split X Y f_0_2 42 in
  let pca := PCA_fit K X_train in
  r2_score Y_test
    (predict (MultiOutputRegressor_fit (transform pca X_train) Y_train)
       (transform pca X_test))
    "uniform_average".
Definition pca_projection (X Y : Data) (K : Z) : Data :=
  let '(X_train, X_test, Y_train, Y_test) :=
    train_test_split X Y f_0_2 42 in
  transform (PCA_fit K X_train) X.

(** A loop that appends one element to each of two lists per iteration
    collects the elements in the order of the iterations. *)
Lemma fold_left_collect {A B C} (f : A → B) (g : A → C) (l : list A)
    (bs : list B) (cs : list C) :
  fold_left (λ '(bs, cs) a, (bs ++ [f a], cs ++ [g a])) l (bs, cs)
  = (bs ++ (f <$> l), cs ++ (g <$> l)).
Proof.
  revert bs cs. induction l as [|a l IH]; intros bs cs; cbn.
  - by rewrite !app_nil_r.
  - by rewrite IH, <-!(assoc_L (++)).
Qed.

End Estimation.
End DimensionFacts.

(** * Worked instances *)

(** A small interpretation of the floating-point interface and of the
    libraries, on which the modelled functions run to the end. *)

Module Examples.
Import Py.

(** Decimal numbers with three digits after the point, as an integer
    count of thousandths; [None] is [nan]. *)
Definition Fixed : Type := option Z.

Definition fixed_lift2 (f : Z → Z → Z) (x y : Fixed) : Fixed :=
  a ← x; b ← y; Some (f a b).

Definition fixed_str (x : Fixed) : string :=
  match x with
  | None => "nan"
  | Some a =>
      let r := Z.abs a `mod` 1000 in
      (if bool_decide (a < 0) then "-" else "")
      +:+ pretty (Z.abs a `div` 1000) +:+ "."
      +:+ (if bool_decide (r < 100) then "0" else "")
      +:+ (if bool_decide (r < 10) then "0" else "")
      +:+ pretty r
  end.

Definition fixed_values (xs : list Fixed) : list Z :=
  omap id xs.

Definition fixed_mean (xs : list Fixed) : Fixed :=
  let vs := fixed_values xs in
  Some (foldr Z.add 0 vs `div` Z.of_nat (length vs)).

Definition fixed_median (xs : list Fixed) : Fixed :=
  let vs := merge_sort Z.le (fixed_values xs) in
  let n := length vs in
  if Nat.even n then
    Some ((vs !!! (n / 2 - 1)%nat + vs !!! (n / 2)%nat) `div` 2)
  else Some (vs !!! (n / 2)%nat).

Definition fixed_min (xs : list Fixed) : Fixed :=
  match fixed_values xs with
  | [] => None
  | v :: vs => Some (foldr Z.min v vs)
  end.

Definition fixed_max (xs : list Fixed) : Fixed :=
  match fixed_values xs with
  | [] => None
  | v :: vs => Some (foldr Z.max v vs)
  end.

Definition fixed_std (xs : list Fixed) : Fixed :=
  let vs := fixed_values xs in
  let n := Z.of_nat (length vs) in
  let m := foldr Z.add 0 vs `div` n in
  Some (Z.sqrt (foldr Z.add 0 ((λ v, (v - m) * (v - m)) <$> vs) `div` n)).

#[export] Instance fixed_float : PyFloat Fixed := {|
  str_float := fixed_str;
  f_one := Some 1000;
  f_two := Some 2000;
  f_pi := Some 3142;
  f_0_2 := Some 200;
  f_0_5 := Some 500;
  f_nan := None;
  f_of_int := λ n, Some (1000 * n);
  f_sub := fixed_lift2 Z.sub;
  f_mul := fixed_lift2 (λ a b, (a * b) `div` 1000);
  f_div := fixed_lift2 (λ a b, (1000 * a) `div` b);
  f_mod := fixed_lift2 Z.modulo;
  f_abs := fmap Z.abs;
  f_sqrt := fmap (λ a, Z.sqrt (1000 * a));
  f_ltb := λ x y,
    match x, y with
    | Some a, Some b => bool_decide (a < b)
    | _, _ => false
    end;
  f_is_zero := λ x, bool_decide (x = Some 0);
  f_is_nan := λ x, bool_decide (x = None);
  f_mean := fixed_mean;
  f_median := fixed_median;
  f_std := fixed_std;
  f_min := fixed_min;
  f_max := fixed_max;
|}.

(** *** The curvature libraries *)

Definition example_dataset : Curvature.Tensor Fixed :=
  {| Curvature.shape := [4; 3]; Curvature.entries := [] |}.

Definition example_loader : Curvature.Loader Fixed :=
  {| Curvature.loader_dataset :=
       [({| Curvature.shape := [3]; Curvature.entries := [] |},
         {| Curvature.shape := [1]; Curvature.entries := [] |})] |}.

(** Two recorded positions: one at angle 0 with a velocity, one at angle
    0.1 whose velocity is missing. *)
Definition example_labels : list (Curvature.LabelRow Fixed) :=
  [{| Curvature.angles := Some 0; Curvature.velocities := Some 1500 |};
   {| Curvature.angles := Some 100; Curvature.velocities := None |}].

(** The grid the example routines return: two points, in one or in two
    dimensions according to the dataset. *)
Definition example_grid (config : gmap string (Val Fixed))
    : Curvature.Grid Fixed :=
  match config !! "dataset_name" with
  | Some (VStr dataset_name) =>
      if bool_decide
           (dataset_name ∈ ["s2_synthetic"; "t2_synthetic"; "grid_cells"])
      then Curvature.Grid2D [(Some 0, Some 0); (Some 1571, Some 3142)]
      else Curvature.Grid1D [Some 0; Some 1571]
  | _ => Curvature.Grid1D [Some 0; Some 1571]
  end.

#[export] Instance example_library : Curvature.Library Fixed := {|
  Curvature.Losses := list Fixed;
  Curvature.Trained := Curvature.Model Fixed;
  Curvature.cuda_is_available := false;
  Curvature.utils_load := λ _,
    Ok (example_dataset, example_labels, example_loader, example_loader);
  Curvature.train_train_test := λ model _ _ _ _ _ g,
    (([Some 900; Some 500], [Some 950; Some 600], model),
     {| Curvature.py_random := Curvature.Drawn (Curvature.py_random g);
        Curvature.torch_rng := Curvature.Drawn (Curvature.torch_rng g);
        Curvature.cuda_rng := Curvature.cuda_rng g |});
  Curvature.evaluate_compute_curvature_learned := λ _ config _ _,
    (example_grid config, [Some 0; Some 1571], [Some 1100; Some 900]);
  Curvature.evaluate_compute_curvature_true := λ config _,
    (example_grid config, [Some 0; Some 1571], [Some 1000; Some 1000]);
|}.

(** A configuration file with one experimental sweep over two time
    steps, and the synthetic and grid-cell parameters. *)
Definition example_default_config : Curvature.default_config.t Fixed :=
  {| Curvature.default_config.dataset_name := ["experimental"];
     Curvature.default_config.expt_id := ["34"];
     Curvature.default_config.timestep_microsec :=
       [Some 1000000000; Some 100000000];
     Curvature.default_config.smooth := [true];
     Curvature.default_config.select_gain_1 := [true; false];
     Curvature.default_config.n_times := [2000];
     Curvature.default_config.embedding_dim := [2; 3];
     Curvature.default_config.geodesic_distortion_amp := [Some 400];
     Curvature.default_config.noise_var := [Some 1];
     Curvature.default_config.grid_scale := [VFloat (Some 1000)];
     Curvature.default_config.arena_dims := [VInt 4];
     Curvature.default_config.n_cells := [256];
     Curvature.default_config.grid_orientation_mean := [VInt 0];
     Curvature.default_config.grid_orientation_std := [Some 0];
     Curvature.default_config.field_width := [VFloat (Some 50)];
     Curvature.default_config.resolution := [VInt 50];
     Curvature.default_config.configs_dir := "results/configs";
     Curvature.default_config.trained_models_dir := "results/trained_models";
     Curvature.default_config.curvature_profiles_dir :=
       "results/curvature_profiles" |}.

(** The same file with the synthetic datasets first. *)
Definition synthetic_default_config : Curvature.default_config.t Fixed :=
  {| Curvature.default_config.dataset_name :=
       ["s1_synthetic"; "s2_synthetic"; "experimental"];
     Curvature.default_config.expt_id := ["34"];
     Curvature.default_config.timestep_microsec := [Some 1000000000];
     Curvature.default_config.smooth := [true];
     Curvature.default_config.select_gain_1 := [true];
     Curvature.default_config.n_times := [2000];
     Curvature.default_config.embedding_dim := [3; 2];
     Curvature.default_config.geodesic_distortion_amp := [Some 400];
     Curvature.default_config.noise_var := [Some 1];
     Curvature.default_config.grid_scale := [];
     Curvature.default_config.arena_dims := [];
     Curvature.default_config.n_cells := [];
     Curvature.default_config.grid_orientation_mean := [];
     Curvature.default_config.grid_orientation_std := [];
     Curvature.default_config.field_width := [];
     Curvature.default_config.resolution := [];
     Curvature.default_config.configs_dir := "results/configs";
     Curvature.default_config.trained_models_dir := "results/trained_models";
     Curvature.default_config.curvature_profiles_dir :=
       "results/curvature_profiles" |}.

(** The entries of a run configuration that are fixed for a sweep. *)
Definition example_fixed_config (dataset_name posterior_type : string)
    : gmap string (Val Fixed) :=
  list_to_map
    [("dataset_name", VStr dataset_name);
     ("posterior_type", VStr posterior_type);
     ("latent_dim", VInt 2);
     ("sftbeta", VFloat (Some 4500));
     ("device", VStr "cuda");
     ("scheduler", VBool false);
     ("n_grid_points", VInt 2)].

(** The entries a sweep chooses. *)
Definition example_sweep_config (lr : Z) : gmap string (Val Fixed) :=
  list_to_map
    [("lr", VFloat (Some lr));
     ("batch_size", VInt 16);
     ("encoder_width", VInt 400);
     ("encoder_depth", VInt 4);
     ("decoder_width", VInt 40);
     ("decoder_depth", VInt 4);
     ("drop_out_p", VFloat (Some 0))].

Definition example_state : Curvature.State :=
  {| Curvature.generators :=
       {| Curvature.py_random := Curvature.Drawn (Curvature.Seeded 7);
          Curvature.torch_rng := Curvature.Seeded 11;
          Curvature.cuda_rng := Curvature.Seeded 13 |};
     Curvature.files := [] |}.

Import Curvature MainFacts RunFacts ProfileFacts NamingFacts.

(** *** [main] *)

(** The two sweeps the example file launches for its first time step. *)
Definition sweep_gain_1 : SweepCall Fixed :=
  {| call_sweep_name := "experimental_34_gain_1";
     call_dataset_name := "experimental";
     call_params := ExperimentalParams "34" (Some 1000000000) true true |}.
Definition sweep_other_gain : SweepCall Fixed :=
  {| call_sweep_name := "experimental_34_other_gain";
     call_dataset_name := "experimental";
     call_params := ExperimentalParams "34" (Some 1000000000) true false |}.
(** The sweep for the second time step and the first gain. *)
Definition sweep_gain_1_again : SweepCall Fixed :=
  {| call_sweep_name := "experimental_34_gain_1";
     call_dataset_name := "experimental";
     call_params := ExperimentalParams "34" (Some 100000000) true true |}.

Lemma example_main :
  main example_default_config
  = ([sweep_gain_1; sweep_other_gain; sweep_gain_1_again;
      {| call_sweep_name := "experimental_34_other_gain";
         call_dataset_name := "experimental";
         call_params :=
           ExperimentalParams "34" (Some 100000000) true false |}],
     None).
Proof. vm_compute. reflexivity. Qed.

Lemma sweep_name_determined_by_key_witness :
  call_sweep_name sweep_gain_1 = call_sweep_name sweep_other_gain
  ↔ name_key (call_params sweep_gain_1)
    = name_key (call_params sweep_other_gain).
Proof.
  apply (sweep_name_determined_by_key example_default_config).
  - rewrite example_main. apply list_elem_of_here.
  - rewrite example_main. apply list_elem_of_further, list_elem_of_here.
  - reflexivity.
Defined.

(** Two sweeps of one dataset with distinct parameter tuples and the
    same sweep name: the time step does not enter the name. *)
Lemma distinct_tuples_same_sweep_name :
  sweep_gain_1 ∈ launched (main example_default_config)
  ∧ sweep_gain_1_again ∈ launched (main example_default_config)
  ∧ call_dataset_name sweep_gain_1 = call_dataset_name sweep_gain_1_again
  ∧ call_params sweep_gain_1 ≠ call_params sweep_gain_1_again
  ∧ call_sweep_name sweep_gain_1 = call_sweep_name sweep_gain_1_again.
Proof.
  rewrite example_main. repeat split.
  - apply list_elem_of_here.
  - do 2 apply list_elem_of_further. apply list_elem_of_here.
  - discriminate.
Qed.

(** With the synthetic datasets first, [main] launches the two sweeps on
    the circle and the first sweep on the sphere, then rejects the
    sphere in two dimensions; the experimental sweeps are never
    reached. *)
Lemma synthetic_main :
  main synthetic_default_config
  = ([{| call_sweep_name := "s1_synthetic_noise_var_0.001_embedding_dim_3";
         call_dataset_name := "s1_synthetic";
         call_params := SyntheticParams 2000 3 (Some 400) (Some 1) |};
      {| call_sweep_name := "s1_synthetic_noise_var_0.001_embedding_dim_2";
         call_dataset_name := "s1_synthetic";
         call_params := SyntheticParams 2000 2 (Some 400) (Some 1) |};
      {| call_sweep_name := "s2_synthetic_noise_var_0.001_embedding_dim_3";
         call_dataset_name := "s2_synthetic";
         call_params := SyntheticParams 2000 3 (Some 400) (Some 1) |}],
     Some (ValueError "Manifold cannot be embedded in 2 dimensions")).
Proof. vm_compute. reflexivity. Qed.

(** A file with the circle in one dimension, in which no circle
    embeds. *)
Definition line_default_config : Curvature.default_config.t Fixed :=
  {| Curvature.default_config.dataset_name := ["s1_synthetic"];
     Curvature.default_config.expt_id := [];
     Curvature.default_config.timestep_microsec := [];
     Curvature.default_config.smooth := [];
     Curvature.default_config.select_gain_1 := [];
     Curvature.default_config.n_times := [2000];
     Curvature.default_config.embedding_dim := [1];
     Curvature.default_config.geodesic_distortion_amp := [Some 400];
     Curvature.default_config.noise_var := [Some 1];
     Curvature.default_config.grid_scale := [];
     Curvature.default_config.arena_dims := [];
     Curvature.default_config.n_cells := [];
     Curvature.default_config.grid_orientation_mean := [];
     Curvature.default_config.grid_orientation_std := [];
     Curvature.default_config.field_width := [];
     Curvature.default_config.resolution := [];
     Curvature.default_config.configs_dir := "results/configs";
     Curvature.default_config.trained_models_dir := "results/trained_models";
     Curvature.default_config.curvature_profiles_dir :=
       "results/curvature_profiles" |}.

(** An enumerated synthetic configuration whose embedding dimension is
    too small for its manifold, for which [main] raises nothing and
    launches the sweep. *)
Lemma too_small_circle_is_launched :
  spec_too_small "s1_synthetic" 1
  ∧ main line_default_config
    = ([{| call_sweep_name := "s1_synthetic_noise_var_0.001_embedding_dim_1";
           call_dataset_name := "s1_synthetic";
           call_params := SyntheticParams 2000 1 (Some 400) (Some 1) |}],
       None).
Proof.
  split.
  - exists 2. split; [reflexivity|lia].
  - vm_compute. reflexivity.
Qed.

(** *** Model creation *)

Definition toroidal_config : gmap string (Val Fixed) :=
  example_sweep_config 1 ∪ example_fixed_config "t2_synthetic" "toroidal".

Definition toroidal_kwargs : list (string * Val Fixed) :=
  [("latent_dim", VInt 2); ("sftbeta", VFloat (Some 4500));
   ("encoder_width", VInt 400); ("encoder_depth", VInt 4);
   ("decoder_width", VInt 40); ("decoder_depth", VInt 4);
   ("posterior_type", VStr "toroidal")].

Lemma create_model_and_train_test_dispatch_witness :
  ∃ model s',
    create_model_and_train_test toroidal_config example_loader
      example_loader example_state
    = (Ok ([Some 900; Some 500], [Some 950; Some 600], model), s')
    ∧ model_class model = ToroidalVAE
    ∧ model_kwargs model = ("data_dim", VInt 3) :: toroidal_kwargs
    ∧ model_device model = VStr "cuda".
Proof.
  destruct (create_model_and_train_test_dispatch toroidal_config
              example_loader example_loader example_state 3 "toroidal"
              toroidal_kwargs (VStr "cuda") (VFloat (Some 1)) (VBool false))
    as [_ Hrun]; try reflexivity.
  - do 2 apply list_elem_of_further. apply list_elem_of_here.
  - rewrite Hrun. by eexists _, _.
Defined.

(** A configuration whose posterior type is none of the four tags. *)
Definition planar_config : gmap string (Val Fixed) :=
  example_sweep_config 1 ∪ example_fixed_config "s1_synthetic" "planar".

Lemma unknown_posterior_type_unbound_model_witness :
  create_model planar_config 3 example_state = (Ok None, example_state)
  ∧ create_model_and_train_test planar_config example_loader example_loader
      example_state
    = (Raise (UnboundLocalError "model"), example_state).
Proof.
  by apply (unknown_posterior_type_unbound_model planar_config
              example_loader example_loader example_state 3
              (VStr "planar")).
Defined.

(** *** Curvature profiles *)

(** The configuration of a completed run on [dataset_name]. *)
Definition completed_config (dataset_name posterior_type run_name : string)
    : gmap string (Val Fixed) :=
  <["run_name" := VStr run_name]>
    (<["results_prefix" := VStr run_name]>
       (example_sweep_config 1
        ∪ example_fixed_config dataset_name posterior_type)).

Definition circle_config : gmap string (Val Fixed) :=
  completed_config "s1_synthetic" "hyperspherical"
    "run_abc12345_s1_synthetic_noise_var_0.001_embedding_dim_3".

Definition experimental_config : gmap string (Val Fixed) :=
  completed_config "experimental" "hyperspherical"
    "run_abc12345_experimental_34_gain_1".

Definition example_model : @Trained Fixed example_library :=
  built NeuralVAE 3 [] (VStr "cuda").

Lemma curvature_profiles_persisted_witness :
  ∃ learned truth,
    curvature_compute_plot_log example_default_config circle_config
      example_dataset example_labels example_model example_state
    = (Ok tt,
       {| generators := generators example_state;
          files :=
            [("results/curvature_profiles/run_abc12345_s1_synthetic_noise_var_0.001_embedding_dim_3_curv_norm_learned_profile.csv",
              CsvFile learned);
             ("results/curvature_profiles/run_abc12345_s1_synthetic_noise_var_0.001_embedding_dim_3_curv_norm_true_profile.csv",
              CsvFile truth)] |})
    ∧ df_rows learned = 2%nat
    ∧ df_getitem learned "z_grid" = Ok [CFloat (Some 0); CFloat (Some 1571)]
    ∧ df_getitem truth "curv_norm_true"
      = Ok [CFloat (Some 1000); CFloat (Some 1000)].
Proof.
  destruct (curvature_profiles_persisted example_default_config
              circle_config example_dataset example_labels example_model
              example_state 3 (VInt 2) "s1_synthetic"
              (VStr "run_abc12345_s1_synthetic_noise_var_0.001_embedding_dim_3")
              (Grid1D [Some 0; Some 1571]) [Some 0; Some 1571]
              [Some 1100; Some 900]
              (Grid1D [Some 0; Some 1571]) [Some 0; Some 1571]
              [Some 1000; Some 1000])
    as (learned & written & Hrun & Hrows & _ & _ & Hgrid & _ & _ & Htruth);
    try reflexivity.
  - apply list_elem_of_here.
  - intros _. repeat split; [apply list_elem_of_here|discriminate].
  - destruct Htruth as (truth & -> & _ & _ & Hnorm & _);
      [apply list_elem_of_here|].
    exists learned, truth. split; [exact Hrun|].
    split; [exact Hrows|]. split; [|exact Hnorm].
    by destruct (Hgrid _ eq_refl).
Defined.

Lemma empty_window_sentinel_witness :
  ∃ profile,
    curvature_compute_plot_log example_default_config experimental_config
      example_dataset example_labels example_model example_state
    = (Ok tt,
       {| generators := generators example_state;
          files :=
            [("results/curvature_profiles/run_abc12345_experimental_34_gain_1_curv_norm_learned_profile.csv",
              CsvFile profile)] |})
    ∧ select_labels (Some 1571) example_labels = []
    ∧ cell profile "min_velocities" 1 = Some (CInt (-1))
    ∧ cell profile "max_velocities" 1 = Some (CInt (-1))
    ∧ cell profile "mean_velocities" 1 = Some (CFloat None)
    ∧ cell profile "median_velocities" 1 = Some (CFloat None)
    ∧ cell profile "std_velocities" 1 = Some (CFloat None).
Proof.
  destruct (empty_window_sentinel example_default_config
              experimental_config example_dataset example_labels
              example_model example_state 3 (VInt 2)
              (VStr "run_abc12345_experimental_34_gain_1")
              [Some 0; Some 1571] [Some 0; Some 1571]
              [Some 1100; Some 900])
    as (profile & Hrun & Hcells); try reflexivity.
  exists profile. split; [exact Hrun|]. split; [reflexivity|].
  destruct (Hcells 1%nat (Some 1571) eq_refl eq_refl)
    as (_ & Hmin & Hmax & Hmean & Hmedian & Hstd & _).
  by repeat split.
Defined.

(** *** Runs *)

Definition example_run (run_id : string) (lr : Z)
    : Res (list Fixed) * State :=
  main_run example_default_config
    (example_fixed_config "experimental" "hyperspherical")
    "experimental_34_gain_1" run_id ∅ (example_sweep_config lr)
    example_state.

Definition paths_written (run : Res (list Fixed) * State) : list string :=
  (files run.2).*1.

Lemma example_run_paths :
  (example_run "abc12345" 1).1 = Ok [Some 950; Some 600]
  ∧ paths_written (example_run "abc12345" 1)
    = ["results/configs/run_abc12345_experimental_34_gain_1.json";
       "results/trained_models/run_abc12345_experimental_34_gain_1_model.pt";
       "results/trained_models/run_abc12345_experimental_34_gain_1_model_state_dict.pth";
       "results/curvature_profiles/run_abc12345_experimental_34_gain_1_curv_norm_learned_profile.csv"].
Proof. vm_compute. done. Qed.

Lemma run_outputs_named_by_run_name_witness :
  ∃ config model learned,
    config !! "results_prefix"
    = Some (VStr "run_abc12345_experimental_34_gain_1")
    ∧ files (example_run "abc12345" 1).2
      = [("results/configs/run_abc12345_experimental_34_gain_1.json",
          JsonFile config);
         ("results/trained_models/run_abc12345_experimental_34_gain_1_model.pt",
          TorchFile model);
         ("results/trained_models/run_abc12345_experimental_34_gain_1_model_state_dict.pth",
          TorchStateDict model);
         ("results/curvature_profiles/run_abc12345_experimental_34_gain_1_curv_norm_learned_profile.csv",
          CsvFile learned)].
Proof.
  destruct (example_run "abc12345" 1) as [[r|e] s'] eqn:Hrun;
    [|by pose proof (proj1 example_run_paths) as H; rewrite Hrun in H].
  destruct (run_outputs_named_by_run_name example_default_config
              (example_fixed_config "experimental" "hyperspherical")
              "experimental_34_gain_1" "abc12345" ∅ (example_sweep_config 1)
              example_state r s' Hrun)
    as (config & model & learned & written & _ & Hprefix & Hfiles & Hwritten
        & _).
  exists config, model, learned. split; [exact Hprefix|].
  destruct Hwritten as [->|[truth ->]].
  - exact Hfiles.
  - pose proof (proj2 example_run_paths) as Hpaths.
    unfold paths_written in Hpaths. rewrite Hrun in Hpaths. cbn in Hpaths.
    rewrite Hfiles in Hpaths. discriminate Hpaths.
Defined.

(** Two runs that share the run id and differ in the learning rate have
    distinct configurations and write to the same paths; two runs that
    differ in nothing but the run id write to different paths. *)
Lemma configuration_does_not_determine_paths :
  paths_written (example_run "abc12345" 1)
  = paths_written (example_run "abc12345" 2)
  ∧ files (example_run "abc12345" 1).2 !! 0%nat
    ≠ files (example_run "abc12345" 2).2 !! 0%nat
  ∧ paths_written (example_run "abc12345" 1)
    ≠ paths_written (example_run "xyz67890" 1).
Proof.
  split; [by vm_compute|]. split.
  - intros Heq.
    apply (f_equal (λ o, o ≫= λ p : string * File,
                         match p.2 with
                         | JsonFile config => config !! "lr"
                         | _ => None
                         end)) in Heq.
    vm_compute in Heq. discriminate Heq.
  - intros Heq. vm_compute in Heq. discriminate Heq.
Qed.

End Examples.

(** A small interpretation of the libraries of [dimension.py]. *)

Module DimensionExamples.
Import Py Dimension DimensionFacts Examples.

(** The world counts the random draws made so far; points and manifolds
    record how they were made; an estimator records its name and the
    manifolds it was fitted to, the last one first. *)
#[export] Instance example_library : Library Fixed := {|
  World := nat;
  Points := Z * Z * nat;
  Manifold := (Z * Z * nat) * Z * nat;
  Estimator := string * list ((Z * Z * nat) * Z * nat);
  skdim_id :=
    [("MLE", ("MLE", [])); ("TwoNN", ("TwoNN", []));
     ("_commonfuncs", ("_commonfuncs", []))];
  fit := λ method X w, ((method.1, X :: method.2), w);
  mean_dimension := λ method,
    match method.2 with
    | (points, _, _) :: _ => Some (1000 * points.1.1)
    | [] => None
    end;
  synthetic_generators :=
    [("hypersphere", λ dim num_points w, ((dim, num_points, w), S w));
     ("hypertorus", λ dim num_points w, ((2 * dim, num_points, w), S w))];
  synthetic_neural_manifold := λ points num_neurons _ _ _ _ w,
    ((points, num_neurons, w), S w);
  Data := list Z;
  Projector := Z;
  Regressor := list Z;
  train_test_split := λ X Y _ _, (take 2 X, drop 2 X, take 2 Y, drop 2 Y);
  PLSRegression_fit := λ K _ _, K;
  PCA_fit := λ K _, K + 1;
  transform := λ K X, Z.mul K <$> X;
  MultiOutputRegressor_fit := λ X Y, X ++ Y;
  predict := λ reg X, take (length X) reg;
  r2_score := λ Y_true Y_pred _,
    Some (foldr Z.add 0 Y_pred - foldr Z.add 0 Y_true);
|}.

Definition example_state : State := {| world := 0%nat; log := [] |}.

Definition example_estimation :=
  skdim_dimension_estimation (MethodList ["MLE"; "TwoNN"]) [1; 2]
    "hypersphere" 2 100 40 (Some 1000) (Some 200000) example_state.

(** The two entries of the dictionary and the noise level. *)
Lemma example_estimation_result :
  match example_estimation.1 with
  | Ok (id_estimates, noise_level) =>
      Some (id_estimates !! "MLE", id_estimates !! "TwoNN", noise_level)
  | Raise _ => None
  end
  = Some (Some [[Some 1000; Some 1000]; [Some 2000; Some 2000]],
          Some [[Some 1000; Some 1000]; [Some 2000; Some 2000]],
          Some 70).
Proof. vm_compute. reflexivity. Qed.

End DimensionExamples.

(** * Further properties *)

(** ** [main]: how many sweeps, in which order, with which parameters *)

Module MainOrder.
Import Py Curvature MainFacts.

Section Lists.
Context {A B : Type}.

Lemma length_bind_const (f : A → list B) (n : nat) (l : list A) :
  (∀ x, x ∈ l → length (f x) = n) → length (l ≫= f) = (length l * n)%nat.
Proof.
  induction l as [|x l IH]; intros Hf; [done|].
  rewrite bind_cons, length_app, IH, (Hf x).
  - cbn. lia.
  - left.
  - intros y Hy. apply Hf. by right.
Qed.

Lemma bind_singletons (l : list A) (b : B) :
  l ≫= (λ _, [b]) = replicate (length l) b.
Proof. induction l as [|x l IH]; [done|]. rewrite bind_cons, IH. done. Qed.

End Lists.

Lemma length_product4 {A B C D} (la : list A) (lb : list B) (lc : list C)
    (ld : list D) :
  length (product4 la lb lc ld)
  = (length la * length lb * length lc * length ld)%nat.
Proof.
  unfold product4.
  rewrite (length_bind_const _ (length lb * length lc * length ld)); [lia|].
  intros a _.
  rewrite (length_bind_const _ (length lc * length ld)); [lia|].
  intros b _.
  rewrite (length_bind_const _ (length ld)); [lia|].
  intros c _. rewrite (length_bind_const _ 1); [lia|]. done.
Qed.

Lemma length_product7 {A B C D E G H} (la : list A) (lb : list B)
    (lc : list C) (ld : list D) (le : list E) (lg : list G) (lh : list H) :
  length (product7 la lb lc ld le lg lh)
  = (length la * length lb * length lc * length ld * length le * length lg
     * length lh)%nat.
Proof.
  unfold product7.
  rewrite (length_bind_const _
             (length lb * length lc * length ld * length le * length lg
              * length lh)); [lia|].
  intros a _.
  rewrite (length_bind_const _
             (length lc * length ld * length le * length lg * length lh));
    [lia|].
  intros b _.
  rewrite (length_bind_const _
             (length ld * length le * length lg * length lh)); [lia|].
  intros c _.
  rewrite (length_bind_const _ (length le * length lg * length lh)); [lia|].
  intros d _.
  rewrite (length_bind_const _ (length lg * length lh)); [lia|].
  intros e _.
  rewrite (length_bind_const _ (length lh)); [lia|].
  intros g _. rewrite (length_bind_const _ 1); [lia|]. done.
Qed.

Lemma elem_of_product4 {A B C D} (la : list A) (lb : list B) (lc : list C)
    (ld : list D) a b c d :
  (a, b, c, d) ∈ product4 la lb lc ld ↔ a ∈ la ∧ b ∈ lb ∧ c ∈ lc ∧ d ∈ ld.
Proof.
  unfold product4. setoid_rewrite list_elem_of_bind.
  setoid_rewrite list_elem_of_bind. setoid_rewrite list_elem_of_bind.
  setoid_rewrite list_elem_of_bind. setoid_rewrite list_elem_of_ret.
  split.
  - intros (a' & (b' & (c' & (d' & Heq & Hd) & Hc) & Hb) & Ha).
    by injection Heq as -> -> -> ->.
  - intros (Ha & Hb & Hc & Hd).
    exists a. split; [|done]. exists b. split; [|done].
    exists c. split; [|done]. by exists d.
Qed.

Lemma elem_of_product7 {A B C D E G H} (la : list A) (lb : list B)
    (lc : list C) (ld : list D) (le : list E) (lg : list G) (lh : list H)
    a b c d e g h :
  (a, b, c, d, e, g, h) ∈ product7 la lb lc ld le lg lh
  ↔ a ∈ la ∧ b ∈ lb ∧ c ∈ lc ∧ d ∈ ld ∧ e ∈ le ∧ g ∈ lg ∧ h ∈ lh.
Proof.
  unfold product7. do 7 setoid_rewrite list_elem_of_bind.
  setoid_rewrite list_elem_of_ret. split.
  - intros (a' & (b' & (c' & (d' & (e' & (g' & (h' & Heq & Hh) & Hg) & He)
                               & Hd) & Hc) & Hb) & Ha).
    by injection Heq as -> -> -> -> -> -> ->.
  - intros (Ha & Hb & Hc & Hd & He & Hg & Hh).
    exists a. split; [|done]. exists b. split; [|done].
    exists c. split; [|done]. exists d. split; [|done].
    exists e. split; [|done]. exists g. split; [|done]. by exists h.
Qed.

Section Order.
Context {F : Type} `{!PyFloat F}.
Implicit Types (dc : default_config.t F) (c : SweepCall F).

(** A loop that does not raise has run every iteration to its end. *)
Lemma for_each_completed {A} (l : list A) (body : A → Proc F) :
  raised (for_each l body) = None →
  launched (for_each l body) = l ≫= (λ x, launched (body x))
  ∧ ∀ x, x ∈ l → raised (body x) = None.
Proof.
  induction l as [|x l IH]; cbn [for_each].
  - intros _. split; [done|]. by intros x ?%elem_of_nil.
  - intros [Hx Hl]%raised_seq_None. destruct (IH Hl) as [Hlaunch Hall].
    destruct (seq_after_None (body x) (for_each l body) Hx) as [-> _].
    split; [by rewrite bind_cons, Hlaunch|].
    by intros y [->|?]%elem_of_cons; auto.
Qed.

(** The number of sweeps [main] launches for a dataset name. *)
Definition sweeps_of dc (dataset_name : string) : nat :=
  if bool_decide (dataset_name = "experimental") then
    (length (default_config.expt_id dc)
     * length (default_config.timestep_microsec dc)
     * length (default_config.smooth dc)
     * length (default_config.select_gain_1 dc))%nat
  else if bool_decide
            (dataset_name ∈ ["s1_synthetic"; "s2_synthetic"; "t2_synthetic"])
  then
    (length (default_config.n_times dc)
     * length (default_config.embedding_dim dc)
     * length (default_config.geodesic_distortion_amp dc)
     * length (default_config.noise_var dc))%nat
  else if bool_decide (dataset_name = "grid_cells") then
    (length (default_config.grid_scale dc)
     * length (default_config.arena_dims dc)
     * length (default_config.n_cells dc)
     * length (default_config.grid_orientation_mean dc)
     * length (default_config.grid_orientation_std dc)
     * length (default_config.field_width dc)
     * length (default_config.resolution dc))%nat
  else if bool_decide (dataset_name = "three_place_cells_synthetic") then 1
  else 0.

Lemma launched_names_for_each {A} (l : list A) (body : A → Proc F)
    (dataset_name : string) :
  raised (for_each l body) = None →
  (∀ x, x ∈ l → raised (body x) = None →
        call_dataset_name <$> launched (body x) = [dataset_name]) →
  call_dataset_name <$> launched (for_each l body)
  = replicate (length l) dataset_name.
Proof.
  intros [-> Hall]%for_each_completed Hbody.
  clear -Hall Hbody. induction l as [|x l IH]; [done|].
  rewrite bind_cons, fmap_app, Hbody, IH; [done|..].
  - intros y Hy. apply Hall. by right.
  - intros y Hy. apply Hbody. by right.
  - left.
  - apply Hall. left.
Qed.

Lemma launched_names_main_dataset dc dataset_name :
  raised (main_dataset dc dataset_name) = None →
  call_dataset_name <$> launched (main_dataset dc dataset_name)
  = replicate (sweeps_of dc dataset_name) dataset_name.
Proof.
  unfold main_dataset, sweeps_of. repeat case_bool_decide; intros Hraise.
  - rewrite <-length_product4. apply launched_names_for_each; [done|].
    by intros [[[e t] s] g] _ _.
  - rewrite <-length_product4. apply launched_names_for_each; [done|].
    intros [[[n ed] a] v] _ Hok.
    destruct (main_synthetic_cases dataset_name n ed a v)
      as [(_ & _ & Heq)|[_ Heq]]; cbn zeta in Heq; rewrite Heq in Hok |- *;
      done.
  - rewrite <-length_product7. apply launched_names_for_each; [done|].
    by intros [[[[[[gs ad] nc] gm] sd] fw] r] _ _.
  - done.
  - done.
Qed.

(** X1.  A run of [main] that does not raise launches, for each dataset
    name in the order of [default_config.dataset_name], one sweep per tuple
    of the product of that dataset's parameter lists (one sweep for the
    place cells, none for a name [main] does not know). *)
Theorem main_launches_one_sweep_per_tuple dc :
  raised (main dc) = None →
  call_dataset_name <$> launched (main dc)
  = default_config.dataset_name dc
    ≫= λ dataset_name, replicate (sweeps_of dc dataset_name) dataset_name.
Proof.
  unfold main. intros [-> Hall]%for_each_completed.
  induction (default_config.dataset_name dc) as [|ds l IH]; [done|].
  rewrite !bind_cons, fmap_app, IH.
  - f_equal. apply launched_names_main_dataset, Hall. left.
  - intros x Hx. apply Hall. by right.
Qed.

Lemma main_synthetic_accepts (dataset_name : string) (p : Z * Z * F * F) :
  dataset_name ∉ ["s2_synthetic"; "t2_synthetic"] ∨ 2 < p.1.1.2 →
  raised (main_synthetic dataset_name p) = None.
Proof.
  destruct p as [[[n ed] a] v]. cbn [fst snd]. intros Hok.
  destruct (main_synthetic_cases dataset_name n ed a v)
    as [(Hin & Hle & _)|[_ Heq]].
  - destruct Hok; [done|lia].
  - cbn zeta in Heq. by rewrite Heq.
Qed.

Lemma main_dataset_accepts dc dataset_name :
  dataset_name ∉ ["s2_synthetic"; "t2_synthetic"]
  ∨ Forall (λ embedding_dim, 2 < embedding_dim)
      (default_config.embedding_dim dc) →
  raised (main_dataset dc dataset_name) = None.
Proof.
  intros Hok. unfold main_dataset. repeat case_bool_decide; try done.
  - apply for_each_no_raise. intros; apply main_experimental_no_raise.
  - apply for_each_no_raise. intros [[[n ed] a] v] Hp.
    apply main_synthetic_accepts. destruct Hok as [?|Hall]; [by left|].
    right. apply elem_of_product4 in Hp as (_ & Hed & _).
    rewrite Forall_forall in Hall. by apply Hall.
  - apply for_each_no_raise. intros; apply main_grid_cells_no_raise.
Qed.

(** X2.  The validation of [main] concerns the sphere and the torus only:
    when no dataset name is [s2_synthetic] or [t2_synthetic], or when every
    listed embedding dimension exceeds 2, [main] raises nothing.  In
    particular no embedding dimension is ever rejected for
    [s1_synthetic]. *)
Theorem main_completes_without_small_sphere_or_torus dc :
  Forall (λ dataset_name, dataset_name ∉ ["s2_synthetic"; "t2_synthetic"])
    (default_config.dataset_name dc)
  ∨ Forall (λ embedding_dim, 2 < embedding_dim)
      (default_config.embedding_dim dc) →
  raised (main dc) = None.
Proof.
  intros Hok. apply for_each_no_raise. intros ds Hds.
  apply main_dataset_accepts. destruct Hok as [Hall|?]; [left|by right].
  rewrite Forall_forall in Hall. by apply Hall.
Qed.

(** The parameters of a call are taken from the lists of the file. *)
Definition listed dc (params : SweepParams F) : Prop :=
  match params with
  | ExperimentalParams expt_id timestep_microsec smooth select_gain_1 =>
      expt_id ∈ default_config.expt_id dc
      ∧ timestep_microsec ∈ default_config.timestep_microsec dc
      ∧ smooth ∈ default_config.smooth dc
      ∧ select_gain_1 ∈ default_config.select_gain_1 dc
  | SyntheticParams n_times embedding_dim geodesic_distortion_amp noise_var =>
      n_times ∈ default_config.n_times dc
      ∧ embedding_dim ∈ default_config.embedding_dim dc
      ∧ geodesic_distortion_amp ∈ default_config.geodesic_distortion_amp dc
      ∧ noise_var ∈ default_config.noise_var dc
  | GridCellsParams grid_scale arena_dims n_cells grid_orientation_mean
      grid_orientation_std field_width resolution =>
      grid_scale ∈ default_config.grid_scale dc
      ∧ arena_dims ∈ default_config.arena_dims dc
      ∧ n_cells ∈ default_config.n_cells dc
      ∧ grid_orientation_mean ∈ default_config.grid_orientation_mean dc
      ∧ grid_orientation_std ∈ default_config.grid_orientation_std dc
      ∧ field_width ∈ default_config.field_width dc
      ∧ resolution ∈ default_config.resolution dc
  | NoParams => True
  end.

(** X3.  Every sweep [main] launches is for a dataset name of
    [default_config.dataset_name], with parameters taken componentwise from
    the lists of [default_config], and with the parameters of that
    dataset's kind only (experimental, synthetic, grid cells, or none for
    the place cells). *)
Theorem launched_parameters_are_listed dc c :
  c ∈ launched (main dc) →
  call_dataset_name c ∈ default_config.dataset_name dc
  ∧ listed dc (call_params c)
  ∧ branch_of (call_dataset_name c) (call_params c).
Proof.
  intros Hc. split; [|split; [|by apply launched_main in Hc as [? _]]].
  - apply launched_for_each in Hc as (ds & Hds & Hc).
    apply launched_main_dataset in Hc as Hwell.
    revert Hc. unfold main_dataset. repeat case_bool_decide.
    + intros ([[[e t] s] g] & _ & ->%launched_main_sweep)%launched_for_each.
      done.
    + intros ([[[n ed] a] v] & _ & Hc)%launched_for_each.
      destruct (main_synthetic_cases ds n ed a v)
        as [(_ & _ & Heq)|[_ Heq]]; cbn zeta in Heq; rewrite Heq in Hc.
      * by apply elem_of_nil in Hc.
      * by apply launched_main_sweep in Hc as ->.
    + intros ([[[[[[gs ad] nc] gm] sd] fw] r] & _
              & ->%launched_main_sweep)%launched_for_each.
      done.
    + by intros ->%launched_main_sweep.
    + by intros ?%elem_of_nil.
  - apply launched_for_each in Hc as (ds & _ & Hc).
    revert Hc. unfold main_dataset. repeat case_bool_decide.
    + intros ([[[e t] s] g] & Hp & ->%launched_main_sweep)%launched_for_each.
      by apply elem_of_product4 in Hp.
    + intros ([[[n ed] a] v] & Hp & Hc)%launched_for_each.
      destruct (main_synthetic_cases ds n ed a v)
        as [(_ & _ & Heq)|[_ Heq]]; cbn zeta in Heq; rewrite Heq in Hc.
      * by apply elem_of_nil in Hc.
      * apply launched_main_sweep in Hc as ->.
        by apply elem_of_product4 in Hp.
    + intros ([[[[[[gs ad] nc] gm] sd] fw] r] & Hp
              & ->%launched_main_sweep)%launched_for_each.
      by apply elem_of_product7 in Hp.
    + by intros ->%launched_main_sweep.
    + by intros ?%elem_of_nil.
Qed.


(** The call [main] makes for a dataset name and a tuple of parameters. *)
Definition call_for (dataset_name : string) (params : SweepParams F)
    : SweepCall F :=
  {| call_sweep_name := key_name dataset_name (name_key params);
     call_dataset_name := dataset_name;
     call_params := params |}.

Lemma elem_of_launched_for_each {A} (l : list A) (body : A → Proc F) x c :
  raised (for_each l body) = None →
  x ∈ l → c ∈ launched (body x) → c ∈ launched (for_each l body).
Proof.
  intros [-> _]%for_each_completed Hx Hc.
  apply list_elem_of_bind. by exists x.
Qed.

Lemma launched_main_dataset_listed dc dataset_name params :
  raised (main_dataset dc dataset_name) = None →
  listed dc params → branch_of dataset_name params →
  call_for dataset_name params ∈ launched (main_dataset dc dataset_name).
Proof.
  intros Hraise Hlisted Hbranch. revert Hraise. unfold main_dataset.
  destruct params as [e t s g|n ed a v|gs ad nc gm sd fw r|];
    cbn [branch_of listed] in Hbranch, Hlisted.
  - subst dataset_name.
    rewrite bool_decide_eq_true_2 by done. intros Hraise.
    apply (elem_of_launched_for_each _ _ (e, t, s, g)); [done|..].
    + by apply elem_of_product4.
    + unfold call_for. cbn. destruct g; apply list_elem_of_here.
  - destruct Hbranch as [Hin Hok].
    rewrite bool_decide_eq_false_2.
    2:{ intros ->. apply (bool_decide_pack _) in Hin. by vm_compute in Hin. }
    rewrite bool_decide_eq_true_2 by done. intros Hraise.
    apply (elem_of_launched_for_each _ _ (n, ed, a, v)); [done|..].
    + by apply elem_of_product4.
    + destruct (main_synthetic_cases dataset_name n ed a v)
        as [(Hin' & Hle & _)|[_ Heq]].
      * by destruct Hok.
      * cbn zeta in Heq. rewrite Heq. apply list_elem_of_here.
  - subst dataset_name.
    rewrite bool_decide_eq_false_2 by done.
    rewrite bool_decide_eq_false_2.
    2:{ intros Hin. apply (bool_decide_pack _) in Hin. by vm_compute in Hin. }
    rewrite bool_decide_eq_true_2 by done. intros Hraise.
    apply (elem_of_launched_for_each _ _ (gs, ad, nc, gm, sd, fw, r));
      [done|..].
    + by apply elem_of_product7.
    + apply list_elem_of_here.
  - subst dataset_name.
    rewrite bool_decide_eq_false_2 by done.
    rewrite bool_decide_eq_false_2.
    2:{ intros Hin. apply (bool_decide_pack _) in Hin. by vm_compute in Hin. }
    rewrite bool_decide_eq_false_2 by done.
    rewrite bool_decide_eq_true_2 by done. intros _.
    apply list_elem_of_here.
Qed.

(** X4.  When [main] raises nothing, it launches a sweep for every
    combination of listed values: for each dataset name of
    [default_config.dataset_name] and each tuple of listed parameters of
    that dataset's kind, the call with that dataset name, these parameters
    and the sweep name built from them is among the calls made. *)
Theorem every_listed_combination_is_launched dc dataset_name params :
  raised (main dc) = None →
  dataset_name ∈ default_config.dataset_name dc →
  listed dc params →
  branch_of dataset_name params →
  call_for dataset_name params ∈ launched (main dc).
Proof.
  intros Hraise Hds Hlisted Hbranch. unfold main in *.
  apply (elem_of_launched_for_each _ _ dataset_name); [done..|].
  apply launched_main_dataset_listed; [|done..].
  apply for_each_completed in Hraise as [_ Hall]. by apply Hall.
Qed.

(** The dataset names [main] knows. *)
Definition known_names : list string :=
  ["experimental"; "s1_synthetic"; "s2_synthetic"; "t2_synthetic";
   "grid_cells"; "three_place_cells_synthetic"].

Lemma branch_of_known dataset_name (params : SweepParams F) :
  branch_of dataset_name params → dataset_name ∈ known_names.
Proof.
  unfold known_names.
  destruct params; cbn [branch_of]; [intros ->|intros [Hin _]|intros ->..].
  - apply list_elem_of_here.
  - right. repeat (apply elem_of_cons in Hin as [->|Hin]);
      [left|right; left|do 2 right; left|by apply elem_of_nil in Hin].
  - do 4 right. left.
  - do 5 right. left.
Qed.

(** A sweep name starts with its dataset name. *)
Lemma key_name_prefix dataset_name (k : NameKey) :
  ∃ rest, key_name dataset_name k = dataset_name +:+ rest.
Proof.
  destruct k as [e g|v d|sd nc|]; cbn [key_name];
    rewrite ?StringFacts.app_assoc; eauto.
  exists "". clear. induction dataset_name as [|c s IH]; [done|].
  by rewrite StringFacts.app_cons, <-IH.
Qed.

(** No known dataset name is the beginning of another one. *)
Lemma known_names_prefix_free ds1 ds2 rest1 rest2 :
  ds1 ∈ known_names → ds2 ∈ known_names →
  ds1 +:+ rest1 = ds2 +:+ rest2 → ds1 = ds2.
Proof.
  unfold known_names. intros H1 H2.
  repeat (apply elem_of_cons in H1 as [->|H1]);
    [..|by apply elem_of_nil in H1];
    (repeat (apply elem_of_cons in H2 as [->|H2]);
     [..|by apply elem_of_nil in H2]);
    try reflexivity; rewrite !StringFacts.app_cons; intros Heq;
    discriminate Heq.
Qed.

(** X5.  Sweep names do not collide across datasets: two sweeps that
    [main] launches under the same sweep name are sweeps of the same
    dataset. *)
Theorem sweep_name_determines_dataset dc c1 c2 :
  c1 ∈ launched (main dc) → c2 ∈ launched (main dc) →
  call_sweep_name c1 = call_sweep_name c2 →
  call_dataset_name c1 = call_dataset_name c2.
Proof.
  intros [Hb1 Hn1]%launched_main [Hb2 Hn2]%launched_main Heq.
  rewrite Hn1, Hn2 in Heq.
  destruct (key_name_prefix (call_dataset_name c1)
              (name_key (call_params c1))) as [rest1 Hrest1].
  destruct (key_name_prefix (call_dataset_name c2)
              (name_key (call_params c2))) as [rest2 Hrest2].
  rewrite Hrest1, Hrest2 in Heq.
  eapply known_names_prefix_free; [..|done]; by eapply branch_of_known.
Qed.

End Order.
End MainOrder.

Module MainOrderExamples.
Import Py Curvature MainFacts MainOrder Examples.

(** A file with the circle and the grid cells: embedding dimension 2 is
    listed, and is accepted for the circle. *)
Definition circle_default_config : default_config.t Fixed :=
  {| default_config.dataset_name := ["s1_synthetic"; "grid_cells"];
     default_config.expt_id := ["34"];
     default_config.timestep_microsec := [Some 1000000000];
     default_config.smooth := [true];
     default_config.select_gain_1 := [true];
     default_config.n_times := [2000];
     default_config.embedding_dim := [2; 3];
     default_config.geodesic_distortion_amp := [Some 400];
     default_config.noise_var := [Some 1];
     default_config.grid_scale := [VFloat (Some 1000)];
     default_config.arena_dims := [VInt 4];
     default_config.n_cells := [256; 512];
     default_config.grid_orientation_mean := [VInt 0];
     default_config.grid_orientation_std := [Some 0];
     default_config.field_width := [VFloat (Some 50)];
     default_config.resolution := [VInt 50];
     default_config.configs_dir := "results/configs";
     default_config.trained_models_dir := "results/trained_models";
     default_config.curvature_profiles_dir := "results/curvature_profiles" |}.

Lemma main_completes_without_small_sphere_or_torus_witness :
  raised (main circle_default_config) = None.
Proof.
  apply main_completes_without_small_sphere_or_torus. left.
  repeat apply Forall_cons_2; [..|apply Forall_nil_2];
    intros Hin; apply (bool_decide_pack _) in Hin; by vm_compute in Hin.
Defined.

Lemma main_launches_one_sweep_per_tuple_witness :
  call_dataset_name <$> launched (main circle_default_config)
  = ["s1_synthetic"; "s1_synthetic"; "grid_cells"; "grid_cells"].
Proof.
  rewrite (main_launches_one_sweep_per_tuple circle_default_config).
  - reflexivity.
  - reflexivity.
Defined.

Lemma launched_parameters_are_listed_witness :
  call_dataset_name sweep_gain_1
  ∈ default_config.dataset_name example_default_config
  ∧ listed example_default_config (call_params sweep_gain_1)
  ∧ branch_of (call_dataset_name sweep_gain_1) (call_params sweep_gain_1).
Proof.
  apply launched_parameters_are_listed.
  rewrite example_main. apply list_elem_of_here.
Defined.

Lemma every_listed_combination_is_launched_witness :
  {| call_sweep_name := "experimental_34_other_gain";
     call_dataset_name := "experimental";
     call_params := ExperimentalParams "34" (Some 100000000) true false |}
  ∈ launched (main example_default_config).
Proof.
  apply (every_listed_combination_is_launched example_default_config
           "experimental"
           (ExperimentalParams "34" (Some 100000000) true false)).
  - by rewrite example_main.
  - apply list_elem_of_here.
  - split; [apply list_elem_of_here|].
    split; [apply list_elem_of_further, list_elem_of_here|].
    split; [apply list_elem_of_here|].
    apply list_elem_of_further, list_elem_of_here.
  - reflexivity.
Defined.

Lemma sweep_name_determines_dataset_witness :
  call_dataset_name sweep_gain_1 = call_dataset_name sweep_gain_1_again.
Proof.
  apply (sweep_name_determines_dataset example_default_config).
  - rewrite example_main. apply list_elem_of_here.
  - rewrite example_main. do 2 apply list_elem_of_further.
    apply list_elem_of_here.
  - reflexivity.
Defined.

End MainOrderExamples.

(** ** Runs: missing hyperparameters, failures and what they leave behind *)

Module RunOutcomes.
Import Py Curvature RunFacts ProfileFacts NamingFacts.

Section Outcomes.
Context {F : Type} `{!PyFloat F, !Library F}.
Implicit Types (config : Config F) (s : State) (dc : default_config.t F).

Lemma config_kwargs_cons config name names :
  config_kwargs config (name :: names)
  = match getattr config name with
    | Raise e => Raise e
    | Ok v =>
        match config_kwargs config names with
        | Raise e => Raise e
        | Ok kwargs => Ok ((name, v) :: kwargs)
        end
    end.
Proof.
  unfold config_kwargs. cbn [mapM].
  destruct (getattr config name) as [v|e]; [|done].
  cbn [mbind res_bind mret res_ret].
  by destruct (mapM _ names).
Qed.

(** The keyword arguments are evaluated from left to right: the first
    entry that is missing is the one reported. *)
Lemma config_kwargs_first_missing config pre name post :
  Forall (λ n, is_Some (config !! n)) pre →
  config !! name = None →
  config_kwargs config (pre ++ name :: post) = Raise (AttributeError name).
Proof.
  intros Hpre Hname. induction Hpre as [|n pre [v Hn] _ IH]; cbn [app].
  - rewrite config_kwargs_cons. unfold getattr. by rewrite Hname.
  - rewrite config_kwargs_cons. unfold getattr at 1. by rewrite Hn, IH.
Qed.

Lemma config_kwargs_ext config config' names :
  (∀ n, n ∈ names → config !! n = config' !! n) →
  config_kwargs config names = config_kwargs config' names.
Proof.
  induction names as [|n names IH]; intros Hext; [done|].
  rewrite !config_kwargs_cons. unfold getattr.
  rewrite <-(Hext n) by left. rewrite IH; [done|].
  intros m Hm. apply Hext. by right.
Qed.

Lemma config_kwargs_present config names :
  Forall (λ n, is_Some (config !! n)) names →
  ∃ kwargs, config_kwargs config names = Ok kwargs.
Proof.
  induction 1 as [|n names [v Hn] _ [kwargs IH]]; [by eexists|].
  rewrite config_kwargs_cons. unfold getattr. rewrite Hn, IH. by eexists.
Qed.

(** [create_model_and_train_test] as a function of the state. *)
Lemma create_model_and_train_test_run config train_loader test_loader s :
  create_model_and_train_test config train_loader test_loader s
  = match first_data_dim train_loader with
    | Raise e => (Raise e, s)
    | Ok data_dim =>
        match create_model config data_dim s with
        | (Raise e, s1) => (Raise e, s1)
        | (Ok None, s1) => (Raise (UnboundLocalError "model"), s1)
        | (Ok (Some model), s1) =>
            match getattr config "lr" with
            | Raise e => (Raise e, s1)
            | Ok lr =>
                match getattr config "scheduler" with
                | Raise e => (Raise e, s1)
                | Ok flag =>
                    let optimizer :=
                      {| Adam_params := model; Adam_lr := lr;
                         Adam_amsgrad := true |} in
                    let scheduler :=
                      if val_is_True flag then
                        Some {| ReduceLROnPlateau_optimizer := optimizer;
                                ReduceLROnPlateau_mode := "min";
                                ReduceLROnPlateau_factor := f_0_5 |}
                      else None in
                    let trained :=
                      train_train_test model train_loader test_loader
                        optimizer scheduler config (generators s1) in
                    (Ok trained.1,
                     {| generators := trained.2; files := files s1 |})
                end
            end
        end
    end.
Proof.
  unfold create_model_and_train_test.
  destruct (first_data_dim train_loader) as [data_dim|e]; [|done].
  rewrite (bind_lift_Ok _ _ data_dim) by done.
  destruct (create_model config data_dim s) as [[[model|]|e] s1] eqn:Hcreate.
  - rewrite (bind_run_Ok _ _ _ _ _ Hcreate). cbn [read_local].
    rewrite (bind_lift_Ok _ _ model) by done.
    destruct (getattr config "lr") as [lr|e]; [|done].
    rewrite (bind_lift_Ok _ _ lr) by done.
    destruct (getattr config "scheduler") as [flag|e]; [|done].
    rewrite (bind_lift_Ok _ _ flag) by done.
    cbv [mbind M_bind get generators files].
    by destruct (train_train_test _ _ _ _ _ _ _) as [[[tr te] best] g].
  - by rewrite (bind_run_Ok _ _ _ _ _ Hcreate).
  - by rewrite (bind_run_Raise _ _ _ _ _ Hcreate).
Qed.

(** X6.  The hyperparameters of a model are read from the configuration in
    the order of the constructor's keyword arguments, after the generators
    have been reseeded: when one of them is missing, the call fails with the
    [AttributeError] of the first missing one, the generators are left
    freshly seeded, no model has been constructed and nothing has been
    written. *)
Theorem first_missing_hyperparameter_is_reported
    config train_loader test_loader s data_dim posterior_type cls
    pre name post :
  first_data_dim train_loader = Ok data_dim →
  getattr config "posterior_type" = Ok posterior_type →
  dispatch posterior_type = Some cls →
  kwarg_names cls = pre ++ name :: post →
  Forall (λ n, is_Some (config !! n)) pre →
  config !! name = None →
  create_model_and_train_test config train_loader test_loader s
  = (Raise (AttributeError name),
     {| generators := seeded (generators s); files := files s |}).
Proof.
  intros Hdim Hpt Hcls Hnames Hpre Hname.
  rewrite create_model_and_train_test_run, Hdim, create_model_run, Hpt, Hcls.
  by rewrite Hnames, (config_kwargs_first_missing _ _ _ _ Hpre Hname).
Qed.

(** X7.  The toroidal and the Klein-bottle model are constructed without
    [drop_out_p]: two configurations that differ in this entry only, or of
    which one lacks it, bind the same model. *)
Theorem torus_and_klein_bottle_ignore_drop_out_p
    config config' data_dim s posterior_type :
  (∀ name, name ≠ "drop_out_p" → config !! name = config' !! name) →
  getattr config "posterior_type" = Ok posterior_type →
  val_in_strs posterior_type ["toroidal"; "klein_bottle"] = true →
  create_model config data_dim s = create_model config' data_dim s.
Proof.
  intros Hext Hpt Htag. rewrite !create_model_run.
  assert (∀ name, name ≠ "drop_out_p" →
            getattr config' name = getattr config name) as Hget.
  { intros name Hne. unfold getattr. by rewrite (Hext name Hne). }
  rewrite (Hget "posterior_type"), (Hget "device"), Hpt by done.
  assert (∃ cls, dispatch posterior_type = Some cls
                 ∧ "drop_out_p" ∉ kwarg_names cls) as (cls & -> & Hnot).
  { destruct posterior_type as [| | | |tag]; try done.
    cbn in Htag. rewrite orb_false_r in Htag.
    apply orb_true_iff in Htag
      as [->%bool_decide_eq_true| ->%bool_decide_eq_true].
    - exists ToroidalVAE. split; [done|].
      intros Hin. apply (bool_decide_pack _) in Hin. by vm_compute in Hin.
    - exists KleinBottleVAE. split; [done|].
      intros Hin. apply (bool_decide_pack _) in Hin. by vm_compute in Hin. }
  rewrite (config_kwargs_ext config config'); [done|].
  intros n Hn. apply Hext. by intros ->.
Qed.


(** *** What a run leaves on disk *)

(** Model creation and training write no file, whatever the outcome. *)
Lemma create_model_and_train_test_files config train_loader test_loader s :
  files (create_model_and_train_test config train_loader test_loader s).2
  = files s.
Proof.
  rewrite create_model_and_train_test_run.
  destruct (first_data_dim train_loader) as [d|e]; [|done].
  pose proof (create_model_files config d s) as Hfiles.
  destruct (create_model config d s) as [[[model|]|e] s1]; cbn in Hfiles;
    [|done..].
  destruct (getattr config "lr"); [|done].
  by destruct (getattr config "scheduler").
Qed.

(** One statement [x = lift r; ...] of a function whose outcome is [H]. *)
Local Ltac lift_step H :=
  match type of H with
  | context [(lift (Ok _) ≫= _) _] =>
      erewrite bind_lift_Ok in H by reflexivity
  | context [(lift ?r ≫= _) _] =>
      let Hr := fresh "Hr" in
      destruct r eqn:Hr;
      [erewrite bind_lift_Ok in H by reflexivity
      |erewrite bind_lift_Raise in H by reflexivity]
  end.

(** [curvature_compute_plot_log] writes the learned profile and then the
    true profile, or stops before one of them. *)
Lemma curvature_compute_plot_log_written dc config dataset labels
    (model : Trained) s prefix :
  getattr config "results_prefix" = Ok prefix →
  ∃ w,
    files (curvature_compute_plot_log dc config dataset labels model s).2
    = files s ++ w
    ∧ w.*1 `prefix_of` [learned_path dc prefix; true_path dc prefix].
Proof.
  intros Hprefix.
  destruct (curvature_compute_plot_log dc config dataset labels model s)
    as [r s'] eqn:H.
  unfold curvature_compute_plot_log in H.
  assert (∀ e : Exn, (Raise e, s) = (r, s') →
            ∃ w, files (r, s').2 = files s ++ w
                 ∧ w.*1 `prefix_of` [learned_path dc prefix;
                                     true_path dc prefix]) as Hnone.
  { intros e [= <- <-]. exists []. rewrite app_nil_r.
    split; [done|]. apply prefix_nil. }
  lift_step H; [|by eapply Hnone..].
  lift_step H; [|by eapply Hnone..].
  destruct (evaluate_compute_curvature_learned _ _ _ _) as [[zg gd] cn].
  lift_step H; [|by eapply Hnone..].
  lift_step H; [|by eapply Hnone..].
  lift_step H; [|by eapply Hnone..].
  lift_step H; [|by eapply Hnone..].
  rewrite (bind_lift_Ok _ _ _ _ Hprefix) in H.
  erewrite bind_run_Ok in H by apply write_file_run.
  clear Hnone.
  assert (∀ (e : Exn) v,
            (Raise e,
             {| generators := generators s;
                files := files s ++ [(learned_path dc prefix, v)] |})
            = (r, s') →
            ∃ w, files (r, s').2 = files s ++ w
                 ∧ w.*1 `prefix_of` [learned_path dc prefix;
                                     true_path dc prefix]) as Hone.
  { intros e v [= <- <-]. eexists. split; [done|].
    cbn. by exists [true_path dc prefix]. }
  match type of H with
  | context [val_in_strs ?v ["s1_synthetic"; "s2_synthetic"; "t2_synthetic"]]
    => destruct (val_in_strs v
                   ["s1_synthetic"; "s2_synthetic"; "t2_synthetic"])
  end.
  - lift_step H; [|by eapply Hone..].
    destruct (evaluate_compute_curvature_true _ _) as [[zg' gd'] cn'].
    lift_step H; [|by eapply Hone..].
    lift_step H; [|by eapply Hone..].
    lift_step H; [|by eapply Hone..].
    rewrite (bind_lift_Ok _ _ _ _ Hprefix), write_file_run in H.
    injection H as <- <-. eexists. cbn.
    rewrite <-(assoc_L (++)). split; [done|]. done.
  - injection H as <- <-. eexists. split; [done|].
    cbn. by exists [true_path dc prefix].
Qed.


(** The configuration [utils.load] receives: the configuration of the
    tracking service, updated with the fixed and then with the sampled
    entries. *)
Definition loaded_config (fixed_config wandb_config sweep_config : Config F)
    : Config F :=
  update sweep_config (update fixed_config wandb_config).

(** The configuration saved as JSON and used for the rest of the run. *)
Definition saved_config (run_name : string) (data_n_times data_dim : Z)
    (config : Config F) : Config F :=
  update
    (<["run_name" := VStr run_name]>
       (<["results_prefix" := VStr run_name]>
          (<["data_n_times" := VInt data_n_times]>
             (<["data_dim" := VInt data_dim]> ∅))))
    config.

(** The files a run writes after its configuration, in this order. *)
Definition result_paths dc (run_name : string) : list string :=
  [model_path dc (VStr run_name); model_state_dict_path dc (VStr run_name);
   learned_path dc (VStr run_name); true_path dc (VStr run_name)].

Lemma bind_ret_state {A B} (m : M State A) (b : B) s :
  ((m ≫= λ _, mret b) s).2 = (m s).2.
Proof. unfold mbind, M_bind. by destruct (m s) as [[a|e] s1]. Qed.

Lemma main_run_written dc fixed_config sweep_name run_id wandb_config
    sweep_config s :
  let config := loaded_config fixed_config wandb_config sweep_config in
  let run_name := make_run_name run_id sweep_name in
  let outcome :=
    main_run dc fixed_config sweep_name run_id wandb_config sweep_config s in
  match utils_load config with
  | Raise e => outcome = (Raise e, s)
  | Ok (dataset, labels, train_loader, test_loader) =>
      match shape_pair dataset with
      | Raise e => outcome = (Raise e, s)
      | Ok (data_n_times, data_dim) =>
          ∃ w,
            files outcome.2
            = files s
              ++ (config_path dc run_name,
                  JsonFile (saved_config run_name data_n_times data_dim
                              config))
                 :: w
            ∧ w.*1 `prefix_of` result_paths dc run_name
      end
  end.
Proof.
  intros config run_name outcome. subst outcome. unfold main_run.
  fold (loaded_config fixed_config wandb_config sweep_config). fold config.
  fold run_name.
  destruct (utils_load config) as [[[[dataset labels] tl] te]|e]; [|done].
  rewrite (bind_lift_Ok _ _ _ _ eq_refl). cbv beta iota.
  destruct (shape_pair dataset) as [[n d]|e]; [|done].
  rewrite (bind_lift_Ok _ _ _ _ eq_refl). cbv beta iota.
  fold (saved_config run_name n d config).
  set (saved := saved_config run_name n d config).
  fold (config_path dc run_name).
  erewrite bind_run_Ok by apply write_file_run.
  destruct (completed_config_names run_name n d config) as [_ Hprefix].
  fold (saved_config run_name n d config) in Hprefix. fold saved in Hprefix.
  set (s1 := {| generators := generators s;
                files := files s ++ [(config_path dc run_name,
                                      JsonFile saved)] |}).
  assert (∀ w, files s1 ++ w
               = files s ++ (config_path dc run_name, JsonFile saved) :: w)
    as Hs1.
  { intros w. unfold s1. cbn. by rewrite <-(assoc_L (++)). }
  destruct (getattr saved "device") as [device|e].
  2:{ rewrite (bind_lift_Raise _ _ e) by done. exists []. cbn.
      split; [done|]. apply prefix_nil. }
  rewrite (bind_lift_Ok _ _ device) by done.
  pose proof (create_model_and_train_test_files saved tl te s1) as Hfiles.
  destruct (create_model_and_train_test saved tl te s1)
    as [[[[tr ts] model]|e] s2] eqn:Htrain; cbn [snd] in Hfiles.
  2:{ rewrite (bind_run_Raise _ _ _ _ _ Htrain). exists []. cbn [snd].
      rewrite Hfiles. cbn. split; [done|]. apply prefix_nil. }
  rewrite (bind_run_Ok _ _ _ _ _ Htrain). cbv beta iota.
  erewrite bind_run_Ok by (by apply training_plot_log_run).
  rewrite bind_ret_state.
  match goal with
  | |- context [curvature_compute_plot_log _ _ _ _ _ ?s3] =>
      destruct (curvature_compute_plot_log_written dc saved dataset labels
                  model s3 (VStr run_name) Hprefix) as (w & -> & Hw)
  end.
  cbn [files]. rewrite Hfiles.
  exists ([(model_path dc (VStr run_name), TorchFile model);
           (model_state_dict_path dc (VStr run_name), TorchStateDict model)]
          ++ w).
  split.
  - rewrite <-Hs1. by rewrite <-!(assoc_L (++)).
  - rewrite fmap_app. unfold result_paths. cbn [fmap list_fmap fst].
    by apply (prefix_app [_; _]).
Qed.


(** X8.  Whatever its outcome, a run only appends to the files on disk, and
    the paths it writes are a beginning of the sequence: JSON configuration,
    model, state dictionary, learned profile, true profile.  A run that
    fails leaves the files it had written before the failure. *)
Theorem run_writes_its_files_in_order dc fixed_config sweep_name run_id
    wandb_config sweep_config s :
  let run_name := make_run_name run_id sweep_name in
  ∃ w,
    files (main_run dc fixed_config sweep_name run_id wandb_config
             sweep_config s).2
    = files s ++ w
    ∧ w.*1 `prefix_of` config_path dc run_name :: result_paths dc run_name.
Proof.
  intros run_name.
  pose proof (main_run_written dc fixed_config sweep_name run_id
                wandb_config sweep_config s) as H.
  cbn zeta in H. fold run_name in H.
  destruct (utils_load _) as [[[[dataset labels] tl] te]|e].
  - destruct (shape_pair dataset) as [[n d]|e].
    + destruct H as (w & -> & Hw). eexists. split; [done|].
      cbn [fmap list_fmap fst]. by apply prefix_cons.
    + rewrite H. exists []. rewrite app_nil_r. split; [done|].
      apply prefix_nil.
  - rewrite H. exists []. rewrite app_nil_r. split; [done|].
    apply prefix_nil.
Qed.

Lemma lookup_update (d config : Config F) k :
  update d config !! k
  = match d !! k with
    | Some v => Some v
    | None => config !! k
    end.
Proof.
  unfold update. rewrite lookup_union.
  by destruct (d !! k), (config !! k).
Qed.

Lemma lookup_saved_config run_name n d config k :
  saved_config run_name n d config !! k
  = if bool_decide (k = "run_name") then Some (VStr run_name)
    else if bool_decide (k = "results_prefix") then Some (VStr run_name)
    else if bool_decide (k = "data_n_times") then Some (VInt n)
    else if bool_decide (k = "data_dim") then Some (VInt d)
    else config !! k.
Proof.
  unfold saved_config. rewrite lookup_update.
  repeat case_bool_decide; subst; by simplify_map_eq.
Qed.

(** The entries a run computes itself. *)
Definition run_entries (run_name : string) (data_n_times data_dim : Z)
    : Config F :=
  <["run_name" := VStr run_name]>
    (<["results_prefix" := VStr run_name]>
       (<["data_n_times" := VInt data_n_times]>
          (<["data_dim" := VInt data_dim]> ∅))).

(** X9.  The configuration a run saves, when no two of its four sources
    have a key in common, so that no update meets a value it would have to
    change: it holds exactly the entries the tracking service started
    with, the fixed and the sampled entries of the sweep and the four
    entries the run computes ([run_name], [results_prefix],
    [data_n_times], [data_dim]).  Once the data is loaded this
    configuration is written as the first file of the run, whatever
    happens afterwards. *)
Theorem saved_configuration_merges_entries dc fixed_config sweep_name
    run_id wandb_config sweep_config s dataset labels train_loader
    test_loader data_n_times data_dim :
  let run_name := make_run_name run_id sweep_name in
  let computed := run_entries run_name data_n_times data_dim in
  fixed_config ##ₘ wandb_config →
  sweep_config ##ₘ fixed_config →
  sweep_config ##ₘ wandb_config →
  computed ##ₘ sweep_config →
  computed ##ₘ fixed_config →
  computed ##ₘ wandb_config →
  utils_load (update sweep_config (update fixed_config wandb_config))
  = Ok (dataset, labels, train_loader, test_loader) →
  shape dataset = [data_n_times; data_dim] →
  ∃ config,
    files (main_run dc fixed_config sweep_name run_id wandb_config
             sweep_config s).2 !! length (files s)
    = Some (os_path_join (default_config.configs_dir dc)
              (run_name +:+ ".json"),
            JsonFile config)
    ∧ ∀ k v,
        config !! k = Some v
        ↔ computed !! k = Some v
          ∨ sweep_config !! k = Some v
          ∨ fixed_config !! k = Some v
          ∨ wandb_config !! k = Some v.
Proof.
  intros run_name computed Hfw Hsf Hsw Hcs Hcf Hcw Hload Hshape.
  pose proof (main_run_written dc fixed_config sweep_name run_id
                wandb_config sweep_config s) as H.
  cbn zeta in H. unfold loaded_config in H. rewrite Hload in H.
  unfold shape_pair in H. rewrite Hshape in H.
  destruct H as (w & Hfiles & _). eexists. split.
  - rewrite Hfiles. rewrite lookup_app_r by done.
    by rewrite Nat.sub_diag.
  - intros k v. subst computed run_name.
    unfold run_entries in *. unfold saved_config, update.
    rewrite lookup_union_Some
      by (apply map_disjoint_union_r_2;
          [done|by apply map_disjoint_union_r_2]).
    rewrite lookup_union_Some by (by apply map_disjoint_union_r_2).
    by rewrite lookup_union_Some by done.
Qed.

(** *** Reproducibility *)

(** Two states with the same files whose generators agree once reseeded. *)
Definition same_seeds s1 s2 : Prop :=
  files s1 = files s2 ∧ seeded (generators s1) = seeded (generators s2).

(** The outcome does not depend on what the generators held. *)
Definition reproducible {A} (m : M State A) : Prop :=
  ∀ s1 s2, same_seeds s1 s2 →
    (m s1).1 = (m s2).1 ∧ same_seeds (m s1).2 (m s2).2.

Lemma seeded_seeded g1 g2 :
  seeded g1 = seeded g2 →
  seeded (seeded g1) = seeded (seeded g2)
  ∧ seeded (drawn (seeded g1)) = seeded (drawn (seeded g2)).
Proof. by intros ->. Qed.

Lemma reproducible_create_model_and_train_test config train_loader
    test_loader :
  reproducible (create_model_and_train_test config train_loader test_loader).
Proof.
  intros s1 s2 [Hfiles Hgen].
  rewrite !create_model_and_train_test_run.
  destruct (first_data_dim train_loader) as [d|e]; [|done].
  rewrite !create_model_run.
  destruct (getattr config "posterior_type") as [pt|e]; [|done].
  destruct (seeded_seeded _ _ Hgen) as [Hgen1 Hgen2].
  destruct (dispatch pt) as [cls|]; [|done].
  destruct (config_kwargs config (kwarg_names cls)) as [kwargs|e]; [|done].
  destruct (getattr config "device") as [device|e]; [|done].
  destruct (getattr config "lr") as [lr|e]; [|done].
  destruct (getattr config "scheduler") as [flag|e]; [|done].
  cbn [generators files fst snd]. rewrite Hgen. done.
Qed.

(** X10.  Training is reproducible as far as the generators of [random],
    [torch] and CUDA go: the model is created right after they are
    reseeded, so from two states with the same files on disk, and with
    CUDA available or the same state of the CUDA generator,
    [create_model_and_train_test] has the same result (the same losses
    and trained model, or the same exception) and leaves the same files,
    whatever the generators of [random] and [torch] held before. *)
Theorem training_is_reproducible config train_loader test_loader s1 s2 :
  files s1 = files s2 →
  cuda_is_available = true
  ∨ cuda_rng (generators s1) = cuda_rng (generators s2) →
  let run := create_model_and_train_test config train_loader test_loader in
  (run s1).1 = (run s2).1 ∧ files (run s1).2 = files (run s2).2.
Proof.
  intros Hfiles Hcuda run.
  destruct (reproducible_create_model_and_train_test config train_loader
              test_loader s1 s2) as [Hr [Hf _]]; [|done].
  split; [done|]. unfold seeded.
  destruct Hcuda as [->| ->]; [done|]. done.
Qed.


(** *** Failures inside a run *)

Lemma getattr_saved_config run_name n d config k :
  k ∉ ["run_name"; "results_prefix"; "data_n_times"; "data_dim"] →
  getattr (saved_config run_name n d config) k = getattr config k.
Proof.
  intros Hk. rewrite !not_elem_of_cons in Hk.
  destruct Hk as (? & ? & ? & ? & _).
  unfold getattr. rewrite lookup_saved_config.
  by rewrite !bool_decide_eq_false_2 by done.
Qed.

(** X11.  A run whose [posterior_type] is none of the four tags fails with
    [UnboundLocalError] after the data was loaded and the configuration
    saved: the JSON configuration is the one file it leaves, no model and
    no profile is written. *)
Theorem unknown_posterior_type_leaves_configuration dc fixed_config
    sweep_name run_id wandb_config sweep_config s dataset labels
    train_loader test_loader data_n_times data_dim input_dim device
    posterior_type :
  let config := update sweep_config (update fixed_config wandb_config) in
  let run_name := make_run_name run_id sweep_name in
  let outcome :=
    main_run dc fixed_config sweep_name run_id wandb_config sweep_config s in
  utils_load config = Ok (dataset, labels, train_loader, test_loader) →
  shape dataset = [data_n_times; data_dim] →
  first_data_dim train_loader = Ok input_dim →
  getattr config "device" = Ok device →
  getattr config "posterior_type" = Ok posterior_type →
  val_in_strs posterior_type
    ["gaussian"; "hyperspherical"; "toroidal"; "klein_bottle"] = false →
  outcome.1 = Raise (UnboundLocalError "model")
  ∧ files outcome.2
    = files s
      ++ [(os_path_join (default_config.configs_dir dc)
             (run_name +:+ ".json"),
           JsonFile
             (update
                (<["run_name" := VStr run_name]>
                   (<["results_prefix" := VStr run_name]>
                      (<["data_n_times" := VInt data_n_times]>
                         (<["data_dim" := VInt data_dim]> ∅))))
                config))].
Proof.
  intros config run_name outcome Hload Hshape Hdim Hdevice Hpt Htag.
  subst outcome.
  match goal with
  | |- ?o.1 = _ ∧ files ?o.2 = ?written =>
      enough (o = (Raise (UnboundLocalError "model"),
                   {| generators := generators s; files := written |}))
        as -> by done
  end.
  unfold main_run. fold config. fold run_name.
  rewrite (bind_lift_Ok _ _ _ _ Hload). cbv beta iota.
  assert (shape_pair dataset = Ok (data_n_times, data_dim)) as Hpair.
  { unfold shape_pair. by rewrite Hshape. }
  rewrite (bind_lift_Ok _ _ _ _ Hpair). cbv beta iota.
  fold (saved_config run_name data_n_times data_dim config).
  erewrite bind_run_Ok by apply write_file_run.
  assert (∀ k v, k ∉ ["run_name"; "results_prefix"; "data_n_times";
                       "data_dim"] →
            getattr config k = Ok v →
            getattr (saved_config run_name data_n_times data_dim config) k
            = Ok v) as Hsaved.
  { intros k v Hk <-. by apply getattr_saved_config. }
  assert (∀ k : string,
            bool_decide (k ∈ ["run_name"; "results_prefix"; "data_n_times";
                              "data_dim"]) = false →
            k ∉ ["run_name"; "results_prefix"; "data_n_times"; "data_dim"])
    as Hnot.
  { intros k Hk Hin. by rewrite bool_decide_eq_true_2 in Hk. }
  rewrite (bind_lift_Ok _ _ device) by (apply Hsaved; [by apply Hnot|done]).
  erewrite bind_run_Raise; [done|].
  rewrite create_model_and_train_test_run, Hdim, create_model_run.
  rewrite (Hsaved "posterior_type" posterior_type)
    by (by try apply Hnot).
  by rewrite dispatch_None.
Qed.

(** *** Profiles *)

Lemma drop_nan_all_nan (vs : list F) :
  Forall (λ v, f_is_nan v = true) vs → drop_nan vs = [].
Proof.
  unfold drop_nan. induction 1 as [|v vs Hv _ IH]; [done|].
  rewrite filter_cons_False; [done|]. by rewrite Hv.
Qed.

(** X12.  In the learned profile of an experimental dataset every grid
    point has the [nan]-ignoring mean, median and standard deviation of the
    velocities its angular window selects.  The number stored as its
    minimum and as its maximum is [-1] when the window selects no label;
    otherwise it is the [nan]-ignoring extremum of the selected
    velocities, which is [nan] when labels are selected but none has a
    velocity. *)
Theorem velocity_statistics_by_window dc config dataset labels
    (model : Trained) s embedding_dim n_grid_points results_prefix
    zs geodesic_dist curv_norms_learned :
  shape_1 dataset = Ok embedding_dim →
  getattr config "n_grid_points" = Ok n_grid_points →
  getattr config "dataset_name" = Ok (VStr "experimental") →
  getattr config "results_prefix" = Ok results_prefix →
  evaluate_compute_curvature_learned model config embedding_dim
    n_grid_points = (Grid1D zs, geodesic_dist, curv_norms_learned) →
  length geodesic_dist = length zs →
  length curv_norms_learned = length zs →
  ∃ profile,
    curvature_compute_plot_log dc config dataset labels model s
    = (Ok tt,
       {| generators := generators s;
          files :=
            files s
            ++ [(learned_path dc results_prefix, CsvFile profile)] |})
    ∧ df_rows profile = length zs
    ∧ ∀ i one_z_grid,
        zs !! i = Some one_z_grid →
        let selected_labels := select_labels one_z_grid labels in
        let vs := velocities <$> selected_labels in
        let number name := cell_float <$> cell profile name i in
        number "mean_velocities" = Some (np_nanmean vs)
        ∧ number "median_velocities" = Some (np_nanmedian vs)
        ∧ number "std_velocities" = Some (np_nanstd vs)
        ∧ (selected_labels = [] →
           number "min_velocities" = Some (f_of_int (-1))
           ∧ number "max_velocities" = Some (f_of_int (-1)))
        ∧ (selected_labels ≠ [] →
           ∃ lo hi,
             np_nanmin vs = Ok lo ∧ np_nanmax vs = Ok hi
             ∧ number "min_velocities" = Some lo
             ∧ number "max_velocities" = Some hi)
        ∧ (selected_labels ≠ [] → Forall (λ v, f_is_nan v = true) vs →
           number "min_velocities" = Some f_nan
           ∧ number "max_velocities" = Some f_nan).
Proof.
  intros Hshape Hn Hds Hprefix Hlearned Hgd Hcn.
  destruct (evaluate_compute_curvature_true config n_grid_points)
    as [[z_grid' geodesic_dist'] curv_norms_true] eqn:Htrue.
  eexists. split; [|split].
  { erewrite curvature_compute_plot_log_run; try done.
    - by rewrite bool_decide_eq_false_2 by (intros Hin; no_elem Hin).
    - cbn. unfold one_dimensional. eval_elem.
    - intros Hin. no_elem Hin. }
  { done. }
  intros i one_z_grid Hi selected_labels vs number. subst number.
  assert (window labels (CFloat one_z_grid) = vs) as Hwin by done.
  unfold cell, learned_profile, df_getitem.
  repeat (progress
            (cbn -[mean_cell median_cell std_cell min_cell max_cell];
             decide_names)).
  rewrite !list_lookup_fmap, Hi.
  cbn -[mean_cell median_cell std_cell min_cell max_cell].
  unfold min_cell, max_cell, mean_cell, median_cell, std_cell.
  rewrite Hwin. subst vs.
  destruct selected_labels as [|row rows] eqn:Hsel;
    cbn [fmap list_fmap].
  - do 3 (split; [done|]). split; [done|]. split; by intros [].
  - do 3 (split; [done|]). split; [done|].
    split.
    + intros _. by eexists _, _.
    + intros _ Hnan. unfold nan_stat.
      by rewrite (drop_nan_all_nan _ Hnan).
Qed.

(** X13.  A grid whose dimension does not fit the dataset makes the call
    fail before anything is written: a two-dimensional grid cannot become
    the column [z_grid] of a dataset with a one-dimensional latent space
    ([ValueError]), and a one-dimensional grid has no column to slice for a
    dataset with a two-dimensional latent space ([IndexError]). *)
Theorem grid_of_wrong_dimension_fails_before_writing dc config dataset
    labels (model : Trained) s embedding_dim n_grid_points dataset_name
    z_grid geodesic_dist curv_norms_learned :
  shape_1 dataset = Ok embedding_dim →
  getattr config "n_grid_points" = Ok n_grid_points →
  getattr config "dataset_name" = Ok (VStr dataset_name) →
  evaluate_compute_curvature_learned model config embedding_dim
    n_grid_points = (z_grid, geodesic_dist, curv_norms_learned) →
  length geodesic_dist = length curv_norms_learned →
  (one_dimensional dataset_name ∧ ∃ zs, z_grid = Grid2D zs)
  ∨ (two_dimensional dataset_name ∧ ∃ zs, z_grid = Grid1D zs) →
  ∃ e,
    curvature_compute_plot_log dc config dataset labels model s
    = (Raise e, s)
    ∧ match z_grid with
      | Grid2D _ => ∃ msg, e = ValueError msg
      | Grid1D _ => e = IndexError
      end.
Proof.
  intros Hshape Hn Hds Hlearned Hlen Hgrid.
  unfold curvature_compute_plot_log.
  rewrite (bind_lift_Ok _ _ _ _ Hshape), (bind_lift_Ok _ _ _ _ Hn).
  rewrite Hlearned.
  erewrite bind_lift_Ok
    by (apply DataFrame_of_ok; rewrite !length_fmap; congruence).
  rewrite (bind_lift_Ok _ _ _ _ Hds).
  destruct Hgrid as [[Hin [zs ->]]|[Hin [zs ->]]].
  - unfold one_dimensional in Hin. name_cases Hin; eval_tests;
      (eexists; split; [reflexivity|by eexists]).
  - unfold two_dimensional in Hin. name_cases Hin; eval_tests;
      (eexists; split; reflexivity).
Qed.

(** X14.  For a dataset name that is none of the six known names, the
    learned profile is written with the two columns [geodesic_dist] and
    [curv_norm_learned] only: the grid is not stored, whatever its
    dimension, and no true profile is computed. *)
Theorem unknown_dataset_profile_has_no_grid dc config dataset labels
    (model : Trained) s embedding_dim n_grid_points dataset_name
    results_prefix z_grid geodesic_dist curv_norms_learned :
  shape_1 dataset = Ok embedding_dim →
  getattr config "n_grid_points" = Ok n_grid_points →
  getattr config "dataset_name" = Ok dataset_name →
  getattr config "results_prefix" = Ok results_prefix →
  evaluate_compute_curvature_learned model config embedding_dim
    n_grid_points = (z_grid, geodesic_dist, curv_norms_learned) →
  length geodesic_dist = length curv_norms_learned →
  val_in_strs dataset_name
    ["s1_synthetic"; "s2_synthetic"; "t2_synthetic"; "experimental";
     "three_place_cells_synthetic"; "grid_cells"] = false →
  curvature_compute_plot_log dc config dataset labels model s
  = (Ok tt,
     {| generators := generators s;
        files :=
          files s
          ++ [(os_path_join (default_config.curvature_profiles_dir dc)
                 (str_val results_prefix
                  +:+ "_curv_norm_learned_profile.csv"),
               CsvFile
                 {| df_rows := length geodesic_dist;
                    df_columns :=
                      [("geodesic_dist", CFloat <$> geodesic_dist);
                       ("curv_norm_learned",
                        CFloat <$> curv_norms_learned)] |})] |}).
Proof.
  intros Hshape Hn Hds Hprefix Hlearned Hlen Hname.
  assert (val_in_strs dataset_name
            ["s1_synthetic"; "experimental"; "three_place_cells_synthetic"]
          = false
          ∧ val_in_strs dataset_name
              ["s2_synthetic"; "t2_synthetic"; "grid_cells"] = false
          ∧ val_eq_str dataset_name "experimental" = false
          ∧ val_in_strs dataset_name
              ["s1_synthetic"; "s2_synthetic"; "t2_synthetic"] = false)
    as (H1 & H2 & H3 & H4).
  { destruct dataset_name as [| | | |name]; try done.
    cbn in Hname |- *. rewrite !orb_false_r in *.
    repeat (apply orb_false_elim in Hname as [? Hname]).
    by repeat (split || apply orb_false_intro). }
  unfold curvature_compute_plot_log.
  rewrite (bind_lift_Ok _ _ _ _ Hshape), (bind_lift_Ok _ _ _ _ Hn).
  rewrite Hlearned.
  erewrite bind_lift_Ok
    by (apply DataFrame_of_ok; rewrite !length_fmap; congruence).
  rewrite (bind_lift_Ok _ _ _ _ Hds).
  rewrite H1, H2, H3, H4.
  rewrite (bind_lift_Ok _ _ _ _ eq_refl), (bind_lift_Ok _ _ _ _ eq_refl).
  rewrite (bind_lift_Ok _ _ _ _ Hprefix).
  erewrite bind_run_Ok by apply write_file_run.
  cbn. by rewrite length_fmap.
Qed.

End Outcomes.
End RunOutcomes.

Module RunOutcomesExamples.
Import Py Curvature RunFacts ProfileFacts NamingFacts RunOutcomes Examples.

(** A configuration for the Gaussian model without [drop_out_p]. *)
Definition no_dropout_config : gmap string (Val Fixed) :=
  delete "drop_out_p"
    (example_sweep_config 1
     ∪ example_fixed_config "experimental" "hyperspherical").

Lemma first_missing_hyperparameter_is_reported_witness :
  create_model_and_train_test no_dropout_config example_loader
    example_loader example_state
  = (Raise (AttributeError "drop_out_p"),
     {| generators :=
          {| py_random := Seeded 0; torch_rng := Seeded 0;
             cuda_rng := Seeded 13 |};
        files := [] |}).
Proof.
  apply (first_missing_hyperparameter_is_reported no_dropout_config
           example_loader example_loader example_state 3
           (VStr "hyperspherical") NeuralVAE
           ["latent_dim"; "sftbeta"; "encoder_width"; "encoder_depth";
            "decoder_width"; "decoder_depth"; "posterior_type"]
           "drop_out_p" []); try reflexivity.
  repeat apply Forall_cons_2; [..|apply Forall_nil_2]; by eexists.
Defined.

Lemma torus_and_klein_bottle_ignore_drop_out_p_witness :
  create_model toroidal_config 3 example_state
  = create_model (delete "drop_out_p" toroidal_config) 3 example_state.
Proof.
  apply (torus_and_klein_bottle_ignore_drop_out_p toroidal_config
           (delete "drop_out_p" toroidal_config) 3 example_state
           (VStr "toroidal")).
  - intros name Hname. symmetry. by apply lookup_delete_ne.
  - reflexivity.
  - reflexivity.
Defined.

Ltac disjoint_maps :=
  apply map_disjoint_dom_2; apply (bool_decide_unpack _); by vm_compute.

Lemma saved_configuration_merges_entries_witness :
  ∃ config,
    files (main_run example_default_config
             (example_fixed_config "experimental" "hyperspherical")
             "experimental_34_gain_1" "abc12345"
             {[ "entity" := VStr "bioshape-lab" ]} (example_sweep_config 1)
             example_state).2 !! 0%nat
    = Some ("results/configs/run_abc12345_experimental_34_gain_1.json",
            JsonFile config)
    ∧ config !! "run_name"
      = Some (VStr "run_abc12345_experimental_34_gain_1")
    ∧ config !! "data_dim" = Some (VInt 3)
    ∧ config !! "lr" = Some (VFloat (Some 1))
    ∧ config !! "dataset_name" = Some (VStr "experimental")
    ∧ config !! "entity" = Some (VStr "bioshape-lab")
    ∧ config !! "project" = None.
Proof.
  destruct (saved_configuration_merges_entries example_default_config
              (example_fixed_config "experimental" "hyperspherical")
              "experimental_34_gain_1" "abc12345"
              {[ "entity" := VStr "bioshape-lab" ]} (example_sweep_config 1)
              example_state example_dataset example_labels example_loader
              example_loader 4 3)
    as (config & Hfile & Hlookup).
  - disjoint_maps.
  - disjoint_maps.
  - disjoint_maps.
  - disjoint_maps.
  - disjoint_maps.
  - disjoint_maps.
  - reflexivity.
  - reflexivity.
  - exists config. split; [exact Hfile|].
    split; [apply Hlookup; left; reflexivity|].
    split; [apply Hlookup; left; reflexivity|].
    split; [apply Hlookup; right; left; reflexivity|].
    split; [apply Hlookup; right; right; left; reflexivity|].
    split; [apply Hlookup; right; right; right; reflexivity|].
    destruct (config !! "project") as [v|] eqn:Hproject; [|done].
    apply Hlookup in Hproject as [H|[H|[H|H]]]; by vm_compute in H.
Defined.

(** A state with other generators of [random] and [torch]. *)
Definition other_state : State :=
  {| generators :=
       {| py_random := Seeded 99; torch_rng := Drawn (Seeded 5);
          cuda_rng := Seeded 13 |};
     files := [] |}.

Lemma training_is_reproducible_witness :
  (create_model_and_train_test experimental_config example_loader
     example_loader example_state).1
  = (create_model_and_train_test experimental_config example_loader
       example_loader other_state).1
  ∧ files (create_model_and_train_test experimental_config example_loader
             example_loader example_state).2
    = files (create_model_and_train_test experimental_config example_loader
               example_loader other_state).2.
Proof.
  apply (training_is_reproducible experimental_config example_loader
           example_loader example_state other_state).
  - reflexivity.
  - right. reflexivity.
Defined.

Lemma unknown_posterior_type_leaves_configuration_witness :
  ∃ config,
    (main_run example_default_config
       (example_fixed_config "s1_synthetic" "planar")
       "s1_synthetic_noise_var_0.001_embedding_dim_3" "abc12345" ∅
       (example_sweep_config 1) example_state).1
    = Raise (UnboundLocalError "model")
    ∧ files (main_run example_default_config
               (example_fixed_config "s1_synthetic" "planar")
               "s1_synthetic_noise_var_0.001_embedding_dim_3" "abc12345" ∅
               (example_sweep_config 1) example_state).2
      = [("results/configs/run_abc12345_s1_synthetic_noise_var_0.001_embedding_dim_3.json",
          JsonFile config)].
Proof.
  eexists.
  apply (unknown_posterior_type_leaves_configuration example_default_config
           (example_fixed_config "s1_synthetic" "planar")
           "s1_synthetic_noise_var_0.001_embedding_dim_3" "abc12345" ∅
           (example_sweep_config 1) example_state example_dataset
           example_labels example_loader example_loader 4 3 3 (VStr "cuda")
           (VStr "planar")); reflexivity.
Defined.

Lemma velocity_statistics_by_window_witness :
  ∃ profile,
    curvature_compute_plot_log example_default_config experimental_config
      example_dataset example_labels example_model example_state
    = (Ok tt,
       {| generators := generators example_state;
          files :=
            [("results/curvature_profiles/run_abc12345_experimental_34_gain_1_curv_norm_learned_profile.csv",
              CsvFile profile)] |})
    ∧ select_labels (Some 0) example_labels
      = [{| angles := Some 0; velocities := Some 1500 |}]
    ∧ select_labels (Some 1571) example_labels = []
    ∧ cell_float <$> cell profile "mean_velocities" 0 = Some (Some 1500)
    ∧ cell_float <$> cell profile "min_velocities" 0 = Some (Some 1500)
    ∧ cell_float <$> cell profile "max_velocities" 0 = Some (Some 1500)
    ∧ cell_float <$> cell profile "min_velocities" 1 = Some (Some (-1000))
    ∧ cell_float <$> cell profile "max_velocities" 1 = Some (Some (-1000)).
Proof.
  destruct (velocity_statistics_by_window example_default_config
              experimental_config example_dataset example_labels
              example_model example_state 3 (VInt 2)
              (VStr "run_abc12345_experimental_34_gain_1")
              [Some 0; Some 1571] [Some 0; Some 1571]
              [Some 1100; Some 900])
    as (profile & Hrun & _ & Hcells); try reflexivity.
  exists profile. split; [exact Hrun|]. split; [reflexivity|].
  split; [reflexivity|].
  destruct (Hcells 0%nat (Some 0) eq_refl)
    as (Hmean & _ & _ & _ & Hext & _).
  destruct (Hcells 1%nat (Some 1571) eq_refl)
    as (_ & _ & _ & Hempty & _).
  split; [exact Hmean|].
  destruct Hext as (lo & hi & [= <-] & [= <-] & Hmin & Hmax); [done|].
  split; [exact Hmin|]. split; [exact Hmax|].
  exact (Hempty eq_refl).
Defined.

(** Curvature routines that return a two-dimensional grid for every
    dataset. *)
Definition skewed_library : Curvature.Library Fixed :=
  {| Losses := list Fixed;
     Trained := Model Fixed;
     cuda_is_available := false;
     utils_load := λ _,
       Ok (example_dataset, example_labels, example_loader, example_loader);
     train_train_test := λ model _ _ _ _ _ g,
       (([Some 900], [Some 950], model), g);
     evaluate_compute_curvature_learned := λ _ _ _ _,
       (Grid2D [(Some 0, Some 0); (Some 1571, Some 3142)],
        [Some 0; Some 1571], [Some 1100; Some 900]);
     evaluate_compute_curvature_true := λ _ _,
       (Grid2D [(Some 0, Some 0); (Some 1571, Some 3142)],
        [Some 0; Some 1571], [Some 1000; Some 1000]) |}.

Definition skewed_state : @State Fixed skewed_library :=
  {| generators :=
       {| py_random := Seeded 7; torch_rng := Seeded 11;
          cuda_rng := Seeded 13 |};
     files := [] |}.

Lemma grid_of_wrong_dimension_fails_before_writing_witness :
  ∃ msg,
    @curvature_compute_plot_log Fixed fixed_float skewed_library
      example_default_config circle_config example_dataset example_labels
      example_model skewed_state
    = (Raise (ValueError msg), skewed_state).
Proof.
  destruct (@grid_of_wrong_dimension_fails_before_writing Fixed fixed_float
              skewed_library example_default_config circle_config
              example_dataset example_labels example_model skewed_state
              3 (VInt 2) "s1_synthetic"
              (Grid2D [(Some 0, Some 0); (Some 1571, Some 3142)])
              [Some 0; Some 1571] [Some 1100; Some 900])
    as (e & Hrun & msg & ->); try reflexivity.
  - left. split; [apply list_elem_of_here|by eexists].
  - by exists msg.
Defined.

(** A configuration for a dataset [main] does not know. *)
Definition klein_bottle_config : gmap string (Val Fixed) :=
  completed_config "klein_bottle_synthetic" "klein_bottle"
    "run_abc12345_klein_bottle_synthetic".

Lemma unknown_dataset_profile_has_no_grid_witness :
  curvature_compute_plot_log example_default_config klein_bottle_config
    example_dataset example_labels example_model example_state
  = (Ok tt,
     {| generators := generators example_state;
        files :=
          [("results/curvature_profiles/run_abc12345_klein_bottle_synthetic_curv_norm_learned_profile.csv",
            CsvFile
              {| df_rows := 2;
                 df_columns :=
                   [("geodesic_dist", [CFloat (Some 0); CFloat (Some 1571)]);
                    ("curv_norm_learned",
                     [CFloat (Some 1100); CFloat (Some 900)])] |})] |}).
Proof.
  apply (unknown_dataset_profile_has_no_grid example_default_config
           klein_bottle_config example_dataset example_labels example_model
           example_state 3 (VInt 2) (VStr "klein_bottle_synthetic")
           (VStr "run_abc12345_klein_bottle_synthetic")
           (Grid1D [Some 0; Some 1571]) [Some 0; Some 1571]
           [Some 1100; Some 900]); reflexivity.
Defined.

End RunOutcomesExamples.

(** ** dimension.py: invalid arguments, and what the arrays hold *)

Module DimensionOutcomes.
Import Py Dimension RunFacts DimensionFacts.

Section Outcomes.
Context {F : Type} `{!PyFloat F, !Library F}.
Implicit Types (s : State) (estimates : list (list F))
  (method : Estimator).

Lemma module_getattr_missing {A} (module : list (string * A)) name :
  name ∉ module.*1 →
  module_getattr module name = Raise (AttributeError name).
Proof.
  intros Hnot. unfold module_getattr.
  destruct (list_find (λ p, p.1 = name) module) as [[i [n a]]|] eqn:Hfind;
    [|done].
  apply list_find_Some in Hfind as (Hi & Hn & _). cbn in Hn. subst n.
  destruct Hnot. apply list_elem_of_fmap. exists (name, a).
  split; [done|]. by eapply list_elem_of_lookup_2.
Qed.

(** X15.  Invalid arguments are rejected before any point is generated and
    before any estimator is fitted, whatever the other arguments are: an
    unknown [manifold_type] with [AttributeError]; otherwise, when the
    noise level can be computed, a negative [num_trials] with the
    [ValueError] of [np.zeros], as soon as there is a first method.  With
    no method at all [num_trials] is not looked at: the call returns an
    empty dictionary. *)
Theorem invalid_arguments_fail_before_any_library_call methods dimensions
    manifold_type num_trials num_points num_neurons poisson_multiplier
    ref_frequency s :
  let run :=
    skdim_dimension_estimation methods dimensions manifold_type num_trials
      num_points num_neurons poisson_multiplier ref_frequency s in
  (manifold_type ∉ synthetic_generators.*1 →
   run = (Raise (AttributeError manifold_type), s))
  ∧ (manifold_type ∈ synthetic_generators.*1 →
     f_is_zero (f_mul ref_frequency poisson_multiplier) = false →
     num_trials < 0 →
     ∀ method_name rest,
       requested methods = method_name :: rest →
       method_name ∈ skdim_id.*1 →
       ∃ msg, run = (Raise (ValueError msg), s))
  ∧ (manifold_type ∈ synthetic_generators.*1 →
     f_is_zero (f_mul ref_frequency poisson_multiplier) = false →
     requested methods = [] →
     run
     = (Ok (∅, f_sqrt (f_div f_one
                         (f_mul ref_frequency poisson_multiplier))),
        s)).
Proof.
  intros run. subst run. unfold skdim_dimension_estimation.
  fold (requested methods). split; [|split].
  - intros Hnot.
    by rewrite (bind_lift_Raise _ _ _ _ (module_getattr_missing _ _ Hnot)).
  - intros Hin Hzero Hneg method_name rest Hreq Hname.
    destruct (module_getattr_Ok _ _ Hin) as [pg Hpg].
    rewrite (bind_lift_Ok _ _ _ _ Hpg). unfold py_inverse. rewrite Hzero.
    rewrite (bind_lift_Ok _ _ _ _ eq_refl), Hreq. cbn [method_loop].
    destruct (module_getattr_Ok _ _ Hname) as [method Hmethod].
    erewrite bind_run_Raise; [by eexists|].
    rewrite (bind_lift_Ok _ _ _ _ Hmethod). unfold np_zeros.
    by rewrite bool_decide_eq_true_2 by done.
  - intros Hin Hzero Hreq. destruct (module_getattr_Ok _ _ Hin) as [pg Hpg].
    rewrite (bind_lift_Ok _ _ _ _ Hpg). unfold py_inverse. rewrite Hzero.
    rewrite (bind_lift_Ok _ _ _ _ eq_refl), Hreq. done.
Qed.

(** The loop over a concatenation of method lists runs the two loops one
    after the other. *)
Lemma method_loop_app point_generator dimensions num_trials num_points
    num_neurons poisson_multiplier ref_frequency methods1 methods2
    (id_estimates : gmap string (list (list F))) s :
  method_loop point_generator dimensions num_trials num_points num_neurons
    poisson_multiplier ref_frequency (methods1 ++ methods2) id_estimates s
  = (method_loop point_generator dimensions num_trials num_points
       num_neurons poisson_multiplier ref_frequency methods1 id_estimates
     ≫= method_loop point_generator dimensions num_trials num_points
          num_neurons poisson_multiplier ref_frequency methods2) s.
Proof.
  revert id_estimates s.
  induction methods1 as [|name methods1 IH]; intros id_estimates s; [done|].
  cbn [app method_loop].
  unfold mbind, M_bind, lift.
  destruct (module_getattr skdim_id name) as [method|e]; [|done].
  destruct (np_zeros (length dimensions) num_trials) as [zeros|e]; [|done].
  destruct (dimension_loop _ _ _ _ _ _ _ _ _ _ _) as [[[m est]|e] s1];
    [|done].
  by rewrite IH.
Qed.

(** X16.  Method names are looked up one at a time, when their turn comes:
    a name that [skdim.id] does not have is reported with
    [AttributeError] only after every method listed before it has been run
    in full, with all its points and manifolds generated and all its fits
    made, and the estimates of these methods are lost. *)
Theorem unknown_method_is_reported_after_earlier_methods_ran
    (before : list string) (method_name : string) (after : list string)
    dimensions manifold_type num_trials num_points num_neurons
    poisson_multiplier ref_frequency s :
  manifold_type ∈ synthetic_generators.*1 →
  f_is_zero (f_mul ref_frequency poisson_multiplier) = false →
  0 ≤ num_trials →
  Forall (λ name, name ∈ skdim_id.*1) before →
  method_name ∉ skdim_id.*1 →
  ∃ calls w,
    skdim_dimension_estimation
      (MethodList (before ++ method_name :: after)) dimensions
      manifold_type num_trials num_points num_neurons poisson_multiplier
      ref_frequency s
    = (Raise (AttributeError method_name),
       {| world := w;
          log := log s
                 ++ concat (method_calls num_points (Z.to_nat num_trials)
                            <$> calls) |})
    ∧ calls.*1 = before
    ∧ Forall (λ m, gen_dim <$> m.2 = dimensions) calls.
Proof.
  intros Hgen Hzero Htrials Hbefore Hname.
  unfold skdim_dimension_estimation.
  destruct (module_getattr_Ok _ _ Hgen) as [point_generator Hpg].
  rewrite (bind_lift_Ok _ _ _ _ Hpg).
  unfold py_inverse. rewrite Hzero.
  rewrite (bind_lift_Ok _ _ _ _ eq_refl).
  edestruct (method_loop_run point_generator dimensions num_trials
               num_points num_neurons poisson_multiplier ref_frequency
               before ∅ s)
    as (calls & id_estimates & w & Hloop & Hnames & Hdims & _);
    [done|done|apply map_Forall_empty|].
  exists calls, w. split; [|done].
  erewrite bind_run_Raise; [done|].
  rewrite method_loop_app.
  erewrite bind_run_Ok by apply Hloop.
  cbn [method_loop].
  by rewrite (bind_lift_Raise _ _ _ _ (module_getattr_missing _ _ Hname)).
Qed.


(** X17.  Both evaluation functions treat the values of [K] one by one,
    on one and the same split of the data: evaluating a concatenation of
    two lists of values gives the scores and the projections of the first
    list followed by those of the second. *)
Theorem evaluation_of_concatenated_K_values (X Y : Data)
    (K_values K_values' : list Z) :
  evaluate_pls_with_different_K X Y (K_values ++ K_values')
  = ((evaluate_pls_with_different_K X Y K_values).1
     ++ (evaluate_pls_with_different_K X Y K_values').1,
     (evaluate_pls_with_different_K X Y K_values).2
     ++ (evaluate_pls_with_different_K X Y K_values').2)
  ∧ evaluate_PCA_with_different_K X Y (K_values ++ K_values')
    = ((evaluate_PCA_with_different_K X Y K_values).1
       ++ (evaluate_PCA_with_different_K X Y K_values').1,
       (evaluate_PCA_with_different_K X Y K_values).2
       ++ (evaluate_PCA_with_different_K X Y K_values').2).
Proof.
  unfold evaluate_pls_with_different_K, evaluate_PCA_with_different_K.
  destruct (train_test_split X Y f_0_2 42)
    as [[[X_train X_test] Y_train] Y_test].
  split.
  - rewrite !(fold_left_collect
                (λ K, r2_score Y_test
                        (predict
                           (MultiOutputRegressor_fit
                              (transform (PLSRegression_fit K X_train Y_train)
                                 X_train) Y_train)
                           (transform (PLSRegression_fit K X_train Y_train)
                              X_test)) "uniform_average")
                (λ K, transform (PLSRegression_fit K X_train Y_train) X)).
    cbn. by rewrite !fmap_app.
  - rewrite !(fold_left_collect
                (λ K, r2_score Y_test
                        (predict
                           (MultiOutputRegressor_fit
                              (transform (PCA_fit K X_train) X_train)
                              Y_train)
                           (transform (PCA_fit K X_train) X_test))
                        "uniform_average")
                (λ K, transform (PCA_fit K X_train) X)).
    cbn. by rewrite !fmap_app.
Qed.

End Outcomes.
End DimensionOutcomes.

Module DimensionOutcomesExamples.
Import Py Dimension DimensionFacts DimensionOutcomes Examples
  DimensionExamples.

Lemma invalid_arguments_fail_before_any_library_call_witness :
  skdim_dimension_estimation (MethodList ["MLE"]) [1; 2] "klein_bottle" 2
    100 40 (Some 1000) (Some 200000) example_state
  = (Raise (AttributeError "klein_bottle"), example_state)
  ∧ ∃ msg,
      skdim_dimension_estimation (MethodList ["MLE"]) [1; 2] "hypersphere"
        (-2) 100 40 (Some 1000) (Some 200000) example_state
      = (Raise (ValueError msg), example_state).
Proof.
  split.
  - apply (invalid_arguments_fail_before_any_library_call
             (MethodList ["MLE"]) [1; 2] "klein_bottle" 2 100 40
             (Some 1000) (Some 200000) example_state).
    intros Hin. apply (bool_decide_pack _) in Hin. by vm_compute in Hin.
  - apply (invalid_arguments_fail_before_any_library_call
             (MethodList ["MLE"]) [1; 2] "hypersphere" (-2) 100 40
             (Some 1000) (Some 200000) example_state)
      with (method_name := "MLE") (rest := []).
    + apply list_elem_of_here.
    + reflexivity.
    + lia.
    + reflexivity.
    + apply list_elem_of_here.
Defined.

Lemma unknown_method_is_reported_after_earlier_methods_ran_witness :
  ∃ s',
    skdim_dimension_estimation (MethodList ["MLE"; "PCA"; "TwoNN"]) [1; 2]
      "hypersphere" 2 100 40 (Some 1000) (Some 200000) example_state
    = (Raise (AttributeError "PCA"), s')
    ∧ length (log s') = 8%nat.
Proof.
  destruct (unknown_method_is_reported_after_earlier_methods_ran
              ["MLE"] "PCA" ["TwoNN"] [1; 2] "hypersphere" 2 100 40
              (Some 1000) (Some 200000) example_state)
    as (calls & w & Hrun & _).
  - apply list_elem_of_here.
  - reflexivity.
  - lia.
  - repeat constructor.
  - intros Hin. apply (bool_decide_pack _) in Hin. by vm_compute in Hin.
  - eexists. split; [exact Hrun|].
    transitivity
      (length
         (log (skdim_dimension_estimation
                 (MethodList ["MLE"; "PCA"; "TwoNN"]) [1; 2] "hypersphere"
                 2 100 40 (Some 1000) (Some 200000) example_state).2));
      [|by vm_compute].
    change (MethodList ["MLE"; "PCA"; "TwoNN"])
      with (MethodList (["MLE"] ++ "PCA" :: ["TwoNN"])).
    by rewrite Hrun.
Defined.

End DimensionOutcomesExamples.

(** * What the estimation returns *)

Module DimensionResults.
Import Py Dimension RunFacts DimensionFacts.

Section Results.
Context {F : Type} `{!PyFloat F, !Library F}.
Implicit Types (s : State) (estimates : list (list F))
  (method : Estimator).

(** The estimators after each of [n] successive fits to one manifold, and
    the world after the last one. *)
Fixpoint fit_trials (neural_manifold : Manifold) (n : nat)
    (method : Estimator) (w : World) : list Estimator * World :=
  match n with
  | O => ([], w)
  | S n' =>
      let fitted := fit method neural_manifold w in
      let rest := fit_trials neural_manifold n' fitted.1 fitted.2 in
      (fitted.1 :: rest.1, rest.2)
  end.

Lemma length_fit_trials neural_manifold n method w :
  length (fit_trials neural_manifold n method w).1 = n.
Proof.
  revert method w. induction n as [|n IH]; intros method w; [done|].
  cbn. by rewrite IH.
Qed.

(** The assignments [estimates[i, k] = v0], [estimates[i, k + 1] = v1],
    ... *)
Fixpoint set_entries (estimates : list (list F)) (i k : nat)
    (vs : list F) : list (list F) :=
  match vs with
  | [] => estimates
  | v :: vs' => set_entries (set_entry estimates i k v) i (S k) vs'
  end.

Lemma insert_alter_eq {A} (l : list A) (i : nat) (x : A) (f : A → A) :
  <[i:=x]> (alter f i l) = <[i:=x]> l.
Proof. by rewrite !list_insert_alter, list_alter_alter_eq. Qed.

Lemma set_entries_row estimates i k vs row :
  estimates !! i = Some row →
  (k + length vs ≤ length row)%nat →
  set_entries estimates i k vs
  = <[i := take k row ++ vs ++ drop (k + length vs) row]> estimates.
Proof.
  revert k estimates row.
  induction vs as [|v vs IH]; intros k estimates row Hi Hlen;
    cbn [set_entries].
  - cbn. rewrite Nat.add_0_r, take_drop. symmetry. by apply list_insert_id.
  - cbn [length] in Hlen. unfold set_entry.
    rewrite (IH (S k) _ (<[k:=v]> row));
      [|by rewrite list_lookup_alter_eq, Hi|rewrite length_insert; lia].
    rewrite insert_alter_eq. f_equal.
    rewrite (take_S_r _ _ v) by (apply list_lookup_insert_eq; lia).
    rewrite take_insert_ge by lia. rewrite drop_insert_lt by lia.
    rewrite <-(assoc_L (++)). cbn [length app].
    by rewrite Nat.add_succ_r.
Qed.

Lemma last_cons {A} (x : A) (l : list A) (d : A) :
  List.last (x :: l) d = List.last l x.
Proof.
  destruct l as [|y l]; [done|].
  change (List.last (x :: y :: l) d) with (List.last (y :: l) d).
  revert y. induction l as [|z l IH]; intros y; [done|].
  change (List.last (y :: z :: l) d) with (List.last (z :: l) d).
  change (List.last (y :: z :: l) x) with (List.last (z :: l) x).
  apply IH.
Qed.

Lemma trial_loop_fills method_name neural_manifold dim_idx k n method
    estimates s :
  let fits := fit_trials neural_manifold n method (world s) in
  ∃ l,
    trial_loop method_name neural_manifold dim_idx (seq k n)
      (method, estimates) s
    = (Ok (List.last fits.1 method,
           set_entries estimates dim_idx k (mean_dimension <$> fits.1)),
       {| world := fits.2; log := l |}).
Proof.
  revert k method estimates s.
  induction n as [|n IH]; intros k method estimates s.
  - exists (log s). cbn. by destruct s.
  - cbn [seq trial_loop fit_trials].
    erewrite bind_run_Ok by apply call_run. cbn [world].
    edestruct IH as [l ->]. exists l. cbn [world fst snd].
    by rewrite last_cons.
Qed.

(** What the loop over the dimensions does, for one method: for each
    dimension the points and the manifold are generated once, and the
    estimator, as the previous dimension left it, is fitted [num_trials]
    times to that manifold.  The result pairs the data generated for each
    dimension with the estimators after each of the fits to it, and holds
    the estimator and the world at the end. *)
Fixpoint fit_dimensions (point_generator : Z → Z → World → Points * World)
    (num_trials : nat) (num_points num_neurons : Z)
    (poisson_multiplier ref_frequency : F) (dimensions : list Z)
    (method : Estimator) (w : World)
    : list (Generated * list Estimator) * Estimator * World :=
  match dimensions with
  | [] => ([], method, w)
  | dim :: dimensions' =>
      let generated := point_generator dim num_points w in
      let made :=
        synthetic_neural_manifold generated.1 num_neurons "sigmoid"
          poisson_multiplier ref_frequency (gs_ones num_neurons)
          generated.2 in
      let fits := fit_trials made.1 num_trials method made.2 in
      let rest :=
        fit_dimensions point_generator num_trials num_points num_neurons
          poisson_multiplier ref_frequency dimensions'
          (List.last fits.1 method) fits.2 in
      (({| gen_dim := dim; gen_points := generated.1;
           gen_manifold := made.1 |}, fits.1) :: rest.1.1,
       rest.1.2, rest.2)
  end.

(** The array of estimates: row [i], column [j] is
    [np.mean(method.dimension_)] of the estimator after fit [j] for
    dimension [i]. *)
Definition estimates_of (fitted : list (Generated * list Estimator))
    : list (list F) :=
  (λ gf : Generated * list Estimator, mean_dimension <$> gf.2) <$> fitted.

Lemma fit_dimensions_dims point_generator num_trials num_points
    num_neurons poisson_multiplier ref_frequency dimensions method w :
  gen_dim <$> (fit_dimensions point_generator num_trials num_points
                 num_neurons poisson_multiplier ref_frequency dimensions
                 method w).1.1.*1
  = dimensions.
Proof.
  revert method w.
  induction dimensions as [|dim dimensions IH]; intros method w; [done|].
  cbn. by rewrite IH.
Qed.

Lemma fit_dimensions_fits point_generator num_trials num_points
    num_neurons poisson_multiplier ref_frequency dimensions method w :
  Forall
    (λ gf : Generated * list Estimator,
       ∃ method' w',
         gf.2 = (fit_trials (gen_manifold gf.1) num_trials method' w').1)
    (fit_dimensions point_generator num_trials num_points num_neurons
       poisson_multiplier ref_frequency dimensions method w).1.1.
Proof.
  revert method w.
  induction dimensions as [|dim dimensions IH]; intros method w;
    cbn [fit_dimensions fst snd]; [done|].
  apply Forall_cons. split; [|apply IH]. by eexists _, _.
Qed.

Lemma estimates_of_shape point_generator num_trials num_points
    num_neurons poisson_multiplier ref_frequency dimensions method w :
  has_shape (length dimensions) num_trials
    (estimates_of
       (fit_dimensions point_generator num_trials num_points num_neurons
          poisson_multiplier ref_frequency dimensions method w).1.1).
Proof.
  unfold has_shape, estimates_of. split.
  - rewrite length_fmap.
    rewrite <-(fit_dimensions_dims point_generator num_trials num_points
                 num_neurons poisson_multiplier ref_frequency dimensions
                 method w) at 2.
    by rewrite !length_fmap.
  - apply Forall_fmap.
    eapply Forall_impl; [apply fit_dimensions_fits|].
    intros gf (method' & w' & Hfits). cbn.
    by rewrite length_fmap, Hfits, length_fit_trials.
Qed.

(** The loop over the trials: the value, the world and the log. *)
Lemma trial_loop_full method_name neural_manifold dim_idx n method
    estimates s rows cols :
  has_shape rows cols estimates →
  let fits := fit_trials neural_manifold n method (world s) in
  trial_loop method_name neural_manifold dim_idx (seq 0 n)
    (method, estimates) s
  = (Ok (List.last fits.1 method,
         set_entries estimates dim_idx 0 (mean_dimension <$> fits.1)),
     {| world := fits.2;
        log := log s ++ replicate n (Fit method_name neural_manifold) |}).
Proof.
  intros Hshape fits.
  destruct (trial_loop_fills method_name neural_manifold dim_idx 0 n method
              estimates s) as [l Hfills].
  destruct (trial_loop_run method_name neural_manifold dim_idx (seq 0 n)
              method estimates s rows cols Hshape)
    as (method' & estimates' & w & Hrun & _).
  rewrite Hfills in Hrun. rewrite length_seq in Hrun.
  injection Hrun as _ _ _ ->. exact Hfills.
Qed.

Lemma dimension_loop_full point_generator method_name num_trials
    num_points num_neurons poisson_multiplier ref_frequency dim_idx
    dimensions method estimates s rows :
  has_shape rows (Z.to_nat num_trials) estimates →
  (dim_idx + length dimensions ≤ rows)%nat →
  let r :=
    fit_dimensions point_generator (Z.to_nat num_trials) num_points
      num_neurons poisson_multiplier ref_frequency dimensions method
      (world s) in
  dimension_loop point_generator method_name num_trials num_points
    num_neurons poisson_multiplier ref_frequency dim_idx dimensions
    (method, estimates) s
  = (Ok (r.1.2,
         take dim_idx estimates ++ estimates_of r.1.1
         ++ drop (dim_idx + length dimensions) estimates),
     {| world := r.2;
        log := log s
               ++ method_calls num_points (Z.to_nat num_trials)
                    (method_name, r.1.1.*1) |}).
Proof.
  revert dim_idx method estimates s.
  induction dimensions as [|dim dimensions IH];
    intros dim_idx method estimates s Hshape Hlen.
  - cbn. rewrite Nat.add_0_r, take_drop, app_nil_r. by destruct s.
  - cbn [dimension_loop fit_dimensions length] in *.
    erewrite bind_run_Ok by apply call_run.
    erewrite bind_run_Ok by apply call_run.
    cbn [world log option_list].
    set (generated := point_generator dim num_points (world s)).
    set (made := synthetic_neural_manifold generated.1 num_neurons "sigmoid"
                   poisson_multiplier ref_frequency (gs_ones num_neurons)
                   generated.2).
    erewrite bind_run_Ok by (by eapply trial_loop_full).
    cbn [world log].
    set (fits := fit_trials made.1 (Z.to_nat num_trials) method made.2) in *.
    destruct Hshape as [Hrows Hcols].
    destruct (lookup_lt_is_Some_2 estimates dim_idx) as [row Hrow]; [lia|].
    assert (length row = Z.to_nat num_trials) as Hrowlen.
    { rewrite Forall_lookup in Hcols. by eapply Hcols. }
    assert (length (mean_dimension <$> fits.1) = Z.to_nat num_trials)
      as Hfits.
    { unfold fits. by rewrite length_fmap, length_fit_trials. }
    rewrite (set_entries_row _ _ _ _ row Hrow) by (rewrite Hfits; lia).
    rewrite Hfits. rewrite take_0. cbn [Nat.add app].
    rewrite (drop_ge row) by lia. rewrite app_nil_r.
    rewrite (IH (S dim_idx) (List.last fits.1 method)
               (<[dim_idx := mean_dimension <$> fits.1]> estimates));
      [|split; [by rewrite length_insert|by apply Forall_insert]|lia].
    cbn [world log fst snd]. f_equal; [f_equal; f_equal|].
    + rewrite (take_S_r _ _ (mean_dimension <$> fits.1))
        by (apply list_lookup_insert_eq; lia).
      rewrite take_insert_ge by lia. rewrite drop_insert_lt by lia.
      rewrite <-(assoc_L (++)). cbn [app estimates_of fmap list_fmap snd].
      by rewrite Nat.add_succ_r.
    + f_equal. unfold method_calls, pair_calls.
      cbn [fst snd fmap list_fmap concat gen_dim gen_points gen_manifold].
      by rewrite <-!(assoc_L (++)).
Qed.


(** What the loop over the methods does: one after the other, each
    estimator that [skdim.id] constructs for a name is fitted over the
    dimensions, in the world the previous method left.  The result pairs
    each method name with what was generated and fitted for it; the loop
    stops at a name that [skdim.id] does not have. *)
Fixpoint fit_methods (point_generator : Z → Z → World → Points * World)
    (num_trials : nat) (num_points num_neurons : Z)
    (poisson_multiplier ref_frequency : F) (dimensions : list Z)
    (method_names : list string) (w : World)
    : list (string * list (Generated * list Estimator)) * World :=
  match method_names with
  | [] => ([], w)
  | method_name :: method_names' =>
      match module_getattr skdim_id method_name with
      | Ok method =>
          let fitted :=
            fit_dimensions point_generator num_trials num_points
              num_neurons poisson_multiplier ref_frequency dimensions
              method w in
          let rest :=
            fit_methods point_generator num_trials num_points num_neurons
              poisson_multiplier ref_frequency dimensions method_names'
              fitted.2 in
          ((method_name, fitted.1.1) :: rest.1, rest.2)
      | Raise _ => ([], w)
      end
  end.

(** [id_estimates[method_name] = estimates], method after method. *)
Definition store_estimates (id_estimates : gmap string (list (list F)))
    (runs : list (string * list (Generated * list Estimator)))
    : gmap string (list (list F)) :=
  foldl (λ acc run, <[run.1 := estimates_of run.2]> acc) id_estimates runs.

(** The library calls of the methods, in order. *)
Definition run_calls (num_points : Z) (num_trials : nat)
    (runs : list (string * list (Generated * list Estimator)))
    : list Event :=
  concat
    ((λ run : string * list (Generated * list Estimator),
        method_calls num_points num_trials (run.1, run.2.*1))
     <$> runs).

Lemma fit_methods_names point_generator num_trials num_points num_neurons
    poisson_multiplier ref_frequency dimensions method_names w :
  Forall (λ name, name ∈ skdim_id.*1) method_names →
  (fit_methods point_generator num_trials num_points num_neurons
     poisson_multiplier ref_frequency dimensions method_names w).1.*1
  = method_names.
Proof.
  revert w.
  induction method_names as [|method_name method_names IH];
    intros w Hnames; [done|].
  apply Forall_cons in Hnames as [Hname Hnames].
  destruct (module_getattr_Ok _ _ Hname) as [method Hmethod].
  cbn [fit_methods]. rewrite Hmethod. cbn. by rewrite IH.
Qed.

Lemma fit_methods_runs point_generator num_trials num_points num_neurons
    poisson_multiplier ref_frequency dimensions method_names w :
  Forall
    (λ run : string * list (Generated * list Estimator),
       ∃ method w',
         module_getattr skdim_id run.1 = Ok method
         ∧ run.2
           = (fit_dimensions point_generator num_trials num_points
                num_neurons poisson_multiplier ref_frequency dimensions
                method w').1.1)
    (fit_methods point_generator num_trials num_points num_neurons
       poisson_multiplier ref_frequency dimensions method_names w).1.
Proof.
  revert w.
  induction method_names as [|method_name method_names IH]; intros w;
    [done|].
  cbn [fit_methods].
  destruct (module_getattr skdim_id method_name) as [method|e] eqn:Hmethod;
    [|done].
  apply Forall_cons. split; [|apply IH]. by exists method, w.
Qed.

Lemma store_estimates_dom id_estimates runs :
  dom (store_estimates id_estimates runs)
  = list_to_set runs.*1 ∪ dom id_estimates.
Proof.
  revert id_estimates.
  induction runs as [|run runs IH]; intros id_estimates.
  - cbn. by rewrite (left_id_L ∅ (∪)).
  - cbn [store_estimates foldl]. fold (store_estimates
      (<[run.1 := estimates_of run.2]> id_estimates) runs).
    rewrite IH, dom_insert_L, fmap_cons, list_to_set_cons.
    by rewrite (assoc_L (∪)), (comm_L (∪) (list_to_set runs.*1)).
Qed.

Lemma store_estimates_lookup id_estimates runs method_name estimates :
  store_estimates id_estimates runs !! method_name = Some estimates →
  (∃ run, run ∈ runs ∧ run.1 = method_name
          ∧ estimates = estimates_of run.2)
  ∨ id_estimates !! method_name = Some estimates.
Proof.
  revert id_estimates.
  induction runs as [|run runs IH]; intros id_estimates Hlookup.
  - by right.
  - cbn [store_estimates foldl] in Hlookup.
    apply IH in Hlookup as [(run' & Hin & Hname & Hest)|Hold].
    + left. exists run'. split; [by right|done].
    + apply lookup_insert_Some in Hold as [[<- <-]|[_ Hold]].
      * left. exists run. split; [left|done].
      * by right.
Qed.

(** The loop over the methods: the value, the world and the log. *)
Lemma method_loop_full point_generator dimensions num_trials num_points
    num_neurons poisson_multiplier ref_frequency methods
    (id_estimates : gmap string (list (list F))) s :
  0 ≤ num_trials →
  Forall (λ name, name ∈ skdim_id.*1) methods →
  let r :=
    fit_methods point_generator (Z.to_nat num_trials) num_points
      num_neurons poisson_multiplier ref_frequency dimensions methods
      (world s) in
  method_loop point_generator dimensions num_trials num_points
    num_neurons poisson_multiplier ref_frequency methods id_estimates s
  = (Ok (store_estimates id_estimates r.1),
     {| world := r.2;
        log := log s ++ run_calls num_points (Z.to_nat num_trials) r.1 |}).
Proof.
  intros Htrials. revert id_estimates s.
  induction methods as [|method_name methods IH];
    intros id_estimates s Hmethods.
  - cbn. rewrite app_nil_r. by destruct s.
  - apply Forall_cons in Hmethods as [Hname Hmethods].
    cbn [method_loop fit_methods].
    destruct (module_getattr_Ok _ _ Hname) as [method Hmethod].
    rewrite Hmethod.
    rewrite (bind_lift_Ok _ _ _ _ eq_refl).
    destruct (np_zeros_shape (length dimensions) num_trials Htrials)
      as (zeros & Hzeros & Hshape).
    rewrite (bind_lift_Ok _ _ _ _ Hzeros).
    erewrite bind_run_Ok
      by (by apply (dimension_loop_full _ _ _ _ _ _ _ 0 _ _ _ _
                      (length dimensions) Hshape)).
    cbv beta iota zeta.
    set (r := fit_dimensions point_generator (Z.to_nat num_trials)
                num_points num_neurons poisson_multiplier ref_frequency
                dimensions method (world s)).
    rewrite take_0. cbn [Nat.add app].
    rewrite drop_ge, app_nil_r by (by destruct Hshape as [-> _]).
    rewrite (IH (<[method_name := estimates_of r.1.1]> id_estimates))
      by done.
    cbn [world log fst snd]. unfold run_calls.
    rewrite fmap_cons. cbn [concat fst snd store_estimates foldl].
    by rewrite <-(assoc_L (++)).
Qed.

Lemma skdim_dimension_estimation_full methods dimensions manifold_type
    num_trials num_points num_neurons poisson_multiplier ref_frequency s :
  manifold_type ∈ synthetic_generators.*1 →
  f_is_zero (f_mul ref_frequency poisson_multiplier) = false →
  0 ≤ num_trials →
  available methods →
  ∃ point_generator,
    module_getattr synthetic_generators manifold_type = Ok point_generator
    ∧ let r :=
        fit_methods point_generator (Z.to_nat num_trials) num_points
          num_neurons poisson_multiplier ref_frequency dimensions
          (requested methods) (world s) in
      skdim_dimension_estimation methods dimensions manifold_type
        num_trials num_points num_neurons poisson_multiplier ref_frequency s
      = (Ok (store_estimates ∅ r.1,
             f_sqrt (f_div f_one (f_mul ref_frequency poisson_multiplier))),
         {| world := r.2;
            log := log s
                   ++ run_calls num_points (Z.to_nat num_trials) r.1 |}).
Proof.
  intros Hgen Hzero Htrials Havail. unfold skdim_dimension_estimation.
  destruct (module_getattr_Ok _ _ Hgen) as [point_generator Hpg].
  exists point_generator. split; [done|]. cbv zeta.
  rewrite (bind_lift_Ok _ _ _ _ Hpg).
  unfold py_inverse. rewrite Hzero.
  rewrite (bind_lift_Ok _ _ _ _ eq_refl).
  fold (requested methods).
  by erewrite bind_run_Ok
    by (by apply (method_loop_full point_generator dimensions num_trials
                    num_points num_neurons poisson_multiplier
                    ref_frequency (requested methods) ∅ s Htrials Havail)).
Qed.

(** C9.  In a call that returns, the library calls are, for each method
    in turn and for each dimension in turn: one generation of points, one
    generation of the neural manifold from these points, and then
    [num_trials] fits of the method, all to that one manifold; nothing is
    generated inside the loop over the trials.  The returned dictionary
    holds, for each method, the array whose row for a dimension is, trial
    by trial, [np.mean(method.dimension_)] of the estimator after each of
    these successive fits to the one manifold generated for the pair. *)
Theorem data_generated_once_per_pair methods dimensions manifold_type
    num_trials num_points num_neurons poisson_multiplier ref_frequency s :
  manifold_type ∈ synthetic_generators.*1 →
  f_is_zero (f_mul ref_frequency poisson_multiplier) = false →
  0 ≤ num_trials →
  available methods →
  ∃ point_generator,
    module_getattr synthetic_generators manifold_type = Ok point_generator
    ∧ let r :=
        fit_methods point_generator (Z.to_nat num_trials) num_points
          num_neurons poisson_multiplier ref_frequency dimensions
          (requested methods) (world s) in
      let runs := r.1 in
      skdim_dimension_estimation methods dimensions manifold_type
        num_trials num_points num_neurons poisson_multiplier ref_frequency s
      = (Ok (store_estimates ∅ runs,
             f_sqrt (f_div f_one (f_mul ref_frequency poisson_multiplier))),
         {| world := r.2;
            log :=
              log s
              ++ concat
                   ((λ run : string * list (Generated * list Estimator),
                       concat
                         ((λ gf : Generated * list Estimator,
                             [GeneratePoints (gen_dim gf.1) num_points
                                (gen_points gf.1);
                              GenerateManifold (gen_points gf.1)
                                (gen_manifold gf.1)]
                             ++ replicate (Z.to_nat num_trials)
                                  (Fit run.1 (gen_manifold gf.1)))
                          <$> run.2))
                    <$> runs) |})
      ∧ runs.*1 = requested methods
      ∧ Forall (λ run, gen_dim <$> run.2.*1 = dimensions) runs
      ∧ Forall
          (λ run,
             Forall
               (λ gf : Generated * list Estimator,
                  ∃ method w,
                    gf.2
                    = (fit_trials (gen_manifold gf.1)
                         (Z.to_nat num_trials) method w).1)
               run.2)
          runs
      ∧ ∀ method_name estimates,
          store_estimates ∅ runs !! method_name = Some estimates →
          ∃ run,
            run ∈ runs ∧ run.1 = method_name
            ∧ estimates
              = (λ gf : Generated * list Estimator,
                   mean_dimension <$> gf.2)
                <$> run.2.
Proof.
  intros Hgen Hzero Htrials Havail.
  destruct (skdim_dimension_estimation_full methods dimensions
              manifold_type num_trials num_points num_neurons
              poisson_multiplier ref_frequency s Hgen Hzero Htrials Havail)
    as (point_generator & Hpg & Hrun).
  exists point_generator. split; [done|]. cbv zeta in *.
  pose proof (fit_methods_runs point_generator (Z.to_nat num_trials)
                num_points num_neurons poisson_multiplier ref_frequency
                dimensions (requested methods) (world s)) as Hruns.
  split; [|split; [by apply fit_methods_names|split; [|split]]].
  - rewrite Hrun. do 3 f_equal. unfold run_calls. f_equal.
    apply list_fmap_ext. intros i run _.
    unfold method_calls, pair_calls. cbn [fst snd].
    by rewrite <-list_fmap_compose.
  - eapply Forall_impl; [exact Hruns|].
    intros run (method & w' & _ & ->). apply fit_dimensions_dims.
  - eapply Forall_impl; [exact Hruns|].
    intros run (method & w' & _ & ->). apply fit_dimensions_fits.
  - intros method_name estimates [Hrow|Hempty]%store_estimates_lookup;
      [done|].
    by rewrite lookup_empty in Hempty.
Qed.

(** C7.  A call of [skdim_dimension_estimation] whose generator and
    methods exist returns a dictionary with exactly the requested method
    names as keys, each mapped to an array with one row per dimension
    and [num_trials] columns, and the noise level
    [sqrt(1 / (ref_frequency * poisson_multiplier))].  The array of a
    method holds the estimates by position: row [dim_idx] belongs to
    [dimensions[dim_idx]], and its entry [trial_idx] is
    [np.mean(method.dimension_)] of the estimator right after fit number
    [trial_idx] to the manifold of that dimension, the estimator being
    constructed once per method and carried over from fit to fit.  The two
    evaluation functions return the scores and the projections of the
    values of [K], one per value and in the order of [K_values]. *)
Theorem estimates_aggregated_by_position methods dimensions
    manifold_type num_trials num_points num_neurons poisson_multiplier
    ref_frequency s (X Y : Data) (K_values : list Z) :
  manifold_type ∈ synthetic_generators.*1 →
  f_is_zero (f_mul ref_frequency poisson_multiplier) = false →
  0 ≤ num_trials →
  available methods →
  (∃ point_generator,
     module_getattr synthetic_generators manifold_type = Ok point_generator
     ∧ let r :=
         fit_methods point_generator (Z.to_nat num_trials) num_points
           num_neurons poisson_multiplier ref_frequency dimensions
           (requested methods) (world s) in
       let id_estimates := store_estimates ∅ r.1 in
       skdim_dimension_estimation methods dimensions manifold_type
         num_trials num_points num_neurons poisson_multiplier
         ref_frequency s
       = (Ok (id_estimates,
              f_sqrt (f_div f_one
                        (f_mul ref_frequency poisson_multiplier))),
          {| world := r.2;
             log := log s
                    ++ run_calls num_points (Z.to_nat num_trials) r.1 |})
       ∧ r.1.*1 = requested methods
       ∧ dom id_estimates = list_to_set (requested methods)
       ∧ ∀ method_name estimates,
           id_estimates !! method_name = Some estimates →
           length estimates = length dimensions
           ∧ Forall (λ row, length row = Z.to_nat num_trials) estimates
           ∧ ∃ method w,
               module_getattr skdim_id method_name = Ok method
               ∧ let fitted :=
                   (fit_dimensions point_generator (Z.to_nat num_trials)
                      num_points num_neurons poisson_multiplier
                      ref_frequency dimensions method w).1.1 in
                 (method_name, fitted) ∈ r.1
                 ∧ gen_dim <$> fitted.*1 = dimensions
                 ∧ estimates
                   = (λ gf : Generated * list Estimator,
                        mean_dimension <$> gf.2) <$> fitted
                 ∧ ∀ dim_idx trial_idx row estimate,
                     estimates !! dim_idx = Some row →
                     row !! trial_idx = Some estimate →
                     ∃ gf fit_result,
                       fitted !! dim_idx = Some gf
                       ∧ gf.2 !! trial_idx = Some fit_result
                       ∧ estimate = mean_dimension fit_result)
  ∧ evaluate_pls_with_different_K X Y K_values
    = (pls_score X Y <$> K_values, pls_projection X Y <$> K_values)
  ∧ evaluate_PCA_with_different_K X Y K_values
    = (pca_score X Y <$> K_values, pca_projection X Y <$> K_values)
  ∧ length (evaluate_pls_with_different_K X Y K_values).1
    = length K_values
  ∧ length (evaluate_pls_with_different_K X Y K_values).2
    = length K_values
  ∧ length (evaluate_PCA_with_different_K X Y K_values).1
    = length K_values
  ∧ length (evaluate_PCA_with_different_K X Y K_values).2
    = length K_values.
Proof.
  intros Hgen Hzero Htrials Havail.
  assert (evaluate_pls_with_different_K X Y K_values
          = (pls_score X Y <$> K_values, pls_projection X Y <$> K_values))
    as Hpls.
  { unfold evaluate_pls_with_different_K, pls_score, pls_projection.
    destruct (train_test_split X Y f_0_2 42)
      as [[[X_train X_test] Y_train] Y_test].
    apply (fold_left_collect _ _ K_values [] []). }
  assert (evaluate_PCA_with_different_K X Y K_values
          = (pca_score X Y <$> K_values, pca_projection X Y <$> K_values))
    as Hpca.
  { unfold evaluate_PCA_with_different_K, pca_score, pca_projection.
    destruct (train_test_split X Y f_0_2 42)
      as [[[X_train X_test] Y_train] Y_test].
    apply (fold_left_collect _ _ K_values [] []). }
  split; [|rewrite Hpls, Hpca; cbn; by rewrite !length_fmap].
  destruct (skdim_dimension_estimation_full methods dimensions
              manifold_type num_trials num_points num_neurons
              poisson_multiplier ref_frequency s Hgen Hzero Htrials Havail)
    as (point_generator & Hpg & Hrun).
  exists point_generator. split; [done|]. cbv zeta in *.
  pose proof (fit_methods_runs point_generator (Z.to_nat num_trials)
                num_points num_neurons poisson_multiplier ref_frequency
                dimensions (requested methods) (world s)) as Hruns.
  pose proof (fit_methods_names point_generator (Z.to_nat num_trials)
                num_points num_neurons poisson_multiplier ref_frequency
                dimensions (requested methods) (world s) Havail) as Hnames.
  split; [exact Hrun|]. split; [exact Hnames|]. split.
  { by rewrite store_estimates_dom, Hnames, dom_empty_L,
      (right_id_L ∅ (∪)). }
  intros method_name estimates
    [(run & Hin & <- & ->)|Hempty]%store_estimates_lookup;
    [|by rewrite lookup_empty in Hempty].
  rewrite Forall_forall in Hruns.
  destruct (Hruns run Hin) as (method & w' & Hmethod & Hfitted).
  destruct (estimates_of_shape point_generator (Z.to_nat num_trials)
              num_points num_neurons poisson_multiplier ref_frequency
              dimensions method w') as [Hrows Hcols].
  rewrite <-Hfitted in Hrows, Hcols.
  split; [done|]. split; [done|].
  exists method, w'. split; [done|].
  rewrite <-Hfitted.
  split; [by destruct run|].
  split; [rewrite Hfitted; apply fit_dimensions_dims|]. split; [done|].
  intros dim_idx trial_idx row estimate Hrow Hcell.
  apply list_lookup_fmap_Some_1 in Hrow as (gf & -> & Hgf).
  apply list_lookup_fmap_Some_1 in Hcell as (fit_result & -> & Hfit).
  by exists gf, fit_result.
Qed.

End Results.
End DimensionResults.

Module DimensionResultsExamples.
Import Py Dimension DimensionFacts DimensionResults Examples
  DimensionExamples.

Lemma estimates_aggregated_by_position_witness :
  (∃ runs : list (string * list (Generated * list Estimator)),
     runs.*1 = ["MLE"; "TwoNN"]
     ∧ (∃ s', example_estimation
              = (Ok (store_estimates ∅ runs, Some 70), s'))
     ∧ dom (store_estimates ∅ runs) = {[ "MLE"; "TwoNN" ]}
     ∧ ∀ method_name estimates,
         store_estimates ∅ runs !! method_name = Some estimates →
         length estimates = 2%nat
         ∧ Forall (λ row, length row = 2%nat) estimates
         ∧ ∃ method w,
             module_getattr skdim_id method_name = Ok method
             ∧ estimates
               = (λ gf : Generated * list Estimator,
                    mean_dimension <$> gf.2)
                 <$> (fit_dimensions
                        (λ dim num_points w, ((dim, num_points, w), S w))
                        2 100 40 (Some 1000) (Some 200000) [1; 2] method
                        w).1.1)
  ∧ length (evaluate_pls_with_different_K [1; 2; 3] [4; 5; 6] [1; 2; 5]).1
    = 3%nat.
Proof.
  destruct (estimates_aggregated_by_position (MethodList ["MLE"; "TwoNN"])
              [1; 2] "hypersphere" 2 100 40 (Some 1000) (Some 200000)
              example_state [1; 2; 3] [4; 5; 6] [1; 2; 5])
    as ((point_generator & Hpg & Hrun & Hnames & Hdom & Hall)
        & _ & _ & Hlen & _).
  - apply list_elem_of_here.
  - reflexivity.
  - lia.
  - repeat constructor.
  - split; [|exact Hlen].
    injection Hpg as <-.
    eexists. split; [exact Hnames|].
    split; [eexists; exact Hrun|]. split.
    { rewrite Hdom. cbn. by rewrite (right_id_L ∅ (∪)). }
    intros method_name estimates Hlookup.
    destruct (Hall method_name estimates Hlookup)
      as (Hrows & Hcols & method & w & Hmethod & _ & _ & Hestimates & _).
    split; [exact Hrows|]. split; [exact Hcols|].
    exists method, w. split; [exact Hmethod|exact Hestimates].
Defined.

Lemma data_generated_once_per_pair_witness :
  ∃ runs : list (string * list (Generated * list Estimator)),
    runs.*1 = ["MLE"; "TwoNN"]
    ∧ (∃ noise_level s',
         example_estimation
         = (Ok (store_estimates ∅ runs, noise_level), s'))
    ∧ Forall
        (λ run : string * list (Generated * list Estimator),
           gen_dim <$> run.2.*1 = [1; 2])
        runs
    ∧ ∀ method_name estimates,
        store_estimates ∅ runs !! method_name = Some estimates →
        ∃ run,
          run ∈ runs ∧ run.1 = method_name
          ∧ estimates
            = (λ gf : Generated * list Estimator, mean_dimension <$> gf.2)
              <$> run.2.
Proof.
  destruct (data_generated_once_per_pair (MethodList ["MLE"; "TwoNN"])
              [1; 2] "hypersphere" 2 100 40 (Some 1000) (Some 200000)
              example_state)
    as (point_generator & Hpg & Hrun & Hnames & Hdims & _ & Hrows).
  - apply list_elem_of_here.
  - reflexivity.
  - lia.
  - repeat constructor.
  - eexists. split; [exact Hnames|].
    split; [eexists _, _; exact Hrun|].
    split; [exact Hdims|exact Hrows].
Defined.

(** The calls of the example, counted: for each of the two methods and
    each of the two dimensions, two generations and two fits. *)
Lemma example_estimation_calls :
  length (log example_estimation.2) = 16%nat.
Proof. by vm_compute. Qed.

End DimensionResultsExamples.
